(** * pytorch_tools/modules/residual.py: residual blocks and stage assemblers

    A shallow embedding of the block catalogue of [residual.py].  The code is
    architectural wiring over an external tensor engine, so the embedding is
    written against small interfaces of that engine (type classes) and run on
    three engines: NCHW tensors of binary32 numbers (for the arithmetic of
    [DropConnect]), tensor shapes (for channel bookkeeping), and a tracing
    engine that records which sub-module is applied to what (for operation
    order).  Python exceptions raised by the code of this file are explicit
    results.  Where rounding decides a result (the tensor arithmetic of
    [DropConnect], the product in [int(channels * bottle_ratio)]) numbers are
    IEEE 754 floating-point numbers; elsewhere a Python number is the
    rational it denotes. *)

From Stdlib Require Import ZArith QArith Qround String Ascii List Lia Bool SpecFloat.
From stdpp Require Import gmap strings.
Import ListNotations.

Local Open Scope string_scope.
Local Open Scope Z_scope.

(** ** Python exceptions and the result of a call *)

Inductive PyError :=
| KeyError (key : string)
| NameError (name : string)
| UnboundLocalError (name : string)
| ValueError (msg : string)
| AssertionError (msg : string)
| AttributeError (name : string)
| TypeError (msg : string)
| RuntimeError (msg : string)
| OverflowError (msg : string).

Inductive Res (A : Type) :=
| Ok (a : A)
| Raise (e : PyError).
Arguments Ok {A} a.
Arguments Raise {A} e.

Definition res_bind {A B} (r : Res A) (k : A -> Res B) : Res B :=
  match r with
  | Ok a => k a
  | Raise e => Raise e
  end.

Definition res_map {A B} (f : A -> B) (r : Res A) : Res B :=
  res_bind r (fun a => Ok (f a)).

Definition succeeds {A} (r : Res A) : bool :=
  match r with Ok _ => true | Raise _ => false end.

(** A computation that may raise and that threads the state [W] of the
    engine (its random number generator, its log). *)
Definition M (W A : Type) : Type := W -> Res (A * W).

Definition ret {W A} (a : A) : M W A := fun w => Ok (a, w).

Definition bind {W A B} (m : M W A) (k : A -> M W B) : M W B :=
  fun w => match m w with
           | Ok (a, w') => k a w'
           | Raise e => Raise e
           end.

Definition lift {W A} (r : Res A) : M W A :=
  fun w => match r with
           | Ok a => Ok (a, w)
           | Raise e => Raise e
           end.

Definition raise {W A} (e : PyError) : M W A := fun _ => Raise e.

Declare Scope py_scope.
Delimit Scope py_scope with py.
Notation "x <- c ;; k" := (bind c (fun x => k))
  (at level 100, c at next level, right associativity) : py_scope.
Local Open Scope py_scope.

(** ** Python numbers *)

(** [int(q)]: truncation toward zero. *)
Definition py_int (q : Q) : Z := Z.quot (Qnum q) (Zpos (Qden q)).

(** [math.floor(q)]. *)
Definition py_floor (q : Q) : Z := Qfloor q.

Definition Qltb (a b : Q) : bool := negb (Qle_bool b a).

(** *** Floating-point numbers

    A Python [float] is an IEEE 754 binary64 number ([prec = 53],
    [emax = 1024]) and a tensor of the default dtype holds binary32 numbers
    ([prec = 24], [emax = 128]).  Both are [spec_float]s with the operations
    of the standard library's specification of IEEE 754 arithmetic, which
    round to nearest, ties to even. *)

(** The number of the format nearest to a rational: how a decimal literal is
    read, and how a Python number is converted to the dtype of a tensor. *)
Definition SF_of_Q (prec emax : Z) (q : Q) : spec_float :=
  match Qnum q with
  | Z0 => S754_zero false
  | Zpos n =>
      let '(m, e, l) := SFdiv_core_binary prec emax (Zpos n) 0 (Zpos (Qden q)) 0 in
      binary_round_aux prec emax false m e l
  | Zneg n =>
      let '(m, e, l) := SFdiv_core_binary prec emax (Zpos n) 0 (Zpos (Qden q)) 0 in
      binary_round_aux prec emax true m e l
  end.



(** A Python number: an [int] or a [float]. *)
Inductive PyNum :=
| PyInt (z : Z)
| PyFloat (f : spec_float).

(** A float literal, e.g. [0.5]. *)
Definition float_lit (q : Q) : PyNum := PyFloat (SF_of_Q 53 1024 q).

(** [float(n)] for an [int] [n]. *)
Definition int_to_float (n : Z) : Res spec_float :=
  match binary_normalize 53 1024 n 0 false with
  | S754_infinity _ => Raise (OverflowError "int too large to convert to float")
  | f => Ok f
  end.

(** [n * x] for an [int] [n]: an [int] when [x] is one, otherwise the
    rounded product of two floats. *)
Definition int_mul (n : Z) (x : PyNum) : Res PyNum :=
  match x with
  | PyInt z => Ok (PyInt (n * z))
  | PyFloat f => res_map (fun nf => PyFloat (SFmul 53 1024 nf f)) (int_to_float n)
  end.

(** [int(x)]: truncation toward zero. *)
Definition int_of_num (x : PyNum) : Res Z :=
  match x with
  | PyInt z => Ok z
  | PyFloat (S754_zero _) => Ok 0
  | PyFloat (S754_finite s m e) => Ok (cond_Zopp s (Z.shiftl (Zpos m) e))
  | PyFloat (S754_infinity _) => Raise (OverflowError "cannot convert float infinity to integer")
  | PyFloat S754_nan => Raise (ValueError "cannot convert float NaN to integer")
  end.

(** [int(n * ratio)] for an [int] [n]. *)
Definition int_scaled (n : Z) (ratio : PyNum) : Res Z :=
  res_bind (int_mul n ratio) int_of_num.

(** ** Strings: [str.lower] on the ASCII letters *)

Definition is_upper (c : ascii) : bool :=
  let n := nat_of_ascii c in (Nat.leb 65 n && Nat.leb n 90)%bool.

Definition lower_char (c : ascii) : ascii :=
  if is_upper c then ascii_of_nat (nat_of_ascii c + 32) else c.

Fixpoint lower (s : string) : string :=
  match s with
  | EmptyString => EmptyString
  | String c s' => String (lower_char c) (lower s')
  end.

(** ** Sub-modules

    The leaves a block is wired from.  [Conv2d], the normalisation [ABN],
    named activations and [BlurPool] belong to the engine or to other files
    of the package; the attention modules, [DropConnect] and the use of
    [nn.Identity] and [nn.Sequential] are this file's. *)

Record Conv2d := {
  in_channels : Z;
  out_channels : Z;
  kernel_size : Z;
  stride : Z;
  padding : Z;
  groups : Z;
  bias : bool;
  dilation : Z
}.

#[warnings="-register-all"]
Inductive Layer :=
| LConv2d (c : Conv2d)
| LABN (num_features : Z) (activation : string)
| LActivation (name : string)
| LBlurPool (channels : Z)
| LIdentity
| LDropConnect (keep_prob : Q)
| LSEModule (channels reduction_channels : Z) (norm_act : string)
| LECAModule
| LSSEModule (in_ch : Z)
| LSCSEModule (in_ch : Z)
| LSequential (layers : list Layer).

(** [nn.Conv2d(in_channels, out_channels, kernel_size, stride=1, padding=0,
    dilation=1, groups=1, bias=True)] *)
Definition nn_Conv2d (i o k s p d g : Z) (b : bool) : Layer :=
  LConv2d {| in_channels := i; out_channels := o; kernel_size := k; stride := s;
             padding := p; groups := g; bias := b; dilation := d |}.

(** [conv3x3(in_planes, out_planes, stride=1, groups=1, dilation=1, bias=False)] *)
Definition conv3x3 (in_planes out_planes stride groups dilation : Z) (bias : bool) : Layer :=
  nn_Conv2d in_planes out_planes 3 stride dilation dilation groups bias.

(** [conv1x1(in_planes, out_planes, stride=1, bias=False)] *)
Definition conv1x1 (in_planes out_planes stride : Z) (bias : bool) : Layer :=
  nn_Conv2d in_planes out_planes 1 stride 0 1 1 bias.

(** What [nn.Conv2d] checks when it is built: the groups must be positive and
    divide both channel counts, and its weight, of shape
    [out_channels, in_channels // groups, k, k], cannot have a negative
    size. *)
Definition Conv2d_check (c : Conv2d) : Res unit :=
  if groups c <=? 0 then Raise (ValueError "groups must be a positive integer")
  else if negb (in_channels c mod groups c =? 0)
  then Raise (ValueError "in_channels must be divisible by groups")
  else if negb (out_channels c mod groups c =? 0)
  then Raise (ValueError "out_channels must be divisible by groups")
  else if (out_channels c <? 0) || (in_channels c <? 0)
  then Raise (RuntimeError "Trying to create tensor with negative dimension")
  else Ok tt.

(** Building a layer of the engine: a convolution is checked, and the
    parameters of a normalisation cannot have a negative size. *)
Definition built (l : Layer) : Res Layer :=
  match l with
  | LConv2d c => res_map (fun _ => l) (Conv2d_check c)
  | LABN num_features _ =>
      if num_features <? 0
      then Raise (RuntimeError "Trying to create tensor with negative dimension")
      else Ok l
  | _ => Ok l
  end.

(** The default [norm_layer]. *)
Definition ABN (num_features : Z) (activation : string) : Layer :=
  LABN num_features activation.

(** [activation_from_name(name)] *)
Definition activation_from_name (name : string) : Layer := LActivation name.

(** ** Attention lookup *)

(** The classes [get_attn] can return. *)
Inductive AttnClass :=
| SEModule
| ECAModule
| SSEModule
| SCSEModule
| Identity.

Definition ATT_TO_MODULE : gmap string AttnClass :=
  <["se" := SEModule]> (<["eca" := ECAModule]> (<["sse" := SSEModule]>
    (<["scse" := SCSEModule]> ∅))).

Definition get_attn (attn_type : option string) : Res AttnClass :=
  match attn_type with
  | None => Ok Identity
  | Some name =>
      match ATT_TO_MODULE !! lower name with
      | Some cls => Ok cls
      | None => Raise (KeyError (lower name))
      end
  end.

(** Calling the class returned by [get_attn] with the positional arguments
    the blocks pass: a channel count, a reduced channel count and, in
    [InvertedResidual] only, the activation name.  [SEModule] defaults
    [norm_act] to "relu"; the other classes swallow the extra arguments. *)
Definition attn_new (cls : AttnClass) (channels reduction_channels : Z)
    (norm_act : option string) : Layer :=
  match cls with
  | SEModule => LSEModule channels reduction_channels (default "relu" norm_act)
  | ECAModule => LECAModule
  | SSEModule => LSSEModule channels
  | SCSEModule => LSCSEModule channels
  | Identity => LIdentity
  end.

(** ** The engine's arithmetic, as [DropConnect.forward] uses it *)

Class TensorArith (T W : Type) := {
  (** [x.size(0)] *)
  size0 : T -> Z;
  (** [torch.rand([n, c, h, w])]: uniform draws in [0, 1) *)
  rand : Z * Z * Z * Z -> M W T;
  (** [q + x] for a Python number [q] *)
  radd : Q -> T -> T;
  (** [torch.floor(x)] *)
  tfloor : T -> T;
  (** [x / q] for a Python number [q] *)
  tdiv : T -> Q -> T;
  (** [x * y], broadcasting *)
  tmul : T -> T -> Res T
}.

Module DropConnect.

Record t := { keep_prob : Q }.

Definition init (keep_prob : Q) : t := {| keep_prob := keep_prob |}.

Definition forward {T W} `{TensorArith T W} (self : t) (training : bool) (x : T) : M W T :=
  if negb training then ret x
  else
    let batch_size := size0 x in
    let random_tensor := keep_prob self in
    r <- rand (batch_size, 1, 1, 1) ;;
    let random_tensor := radd random_tensor r in
    let binary_tensor := tfloor random_tensor in
    lift (tmul (tdiv x (keep_prob self)) binary_tensor).

End DropConnect.

(** ** The numeric engine: NCHW tensors of binary32 numbers

    A tensor is a list of samples, a sample a list of channels, a channel a
    list of rows; its entries are numbers of the default dtype, binary32, and
    the arithmetic is that of a CPU tensor: every operation is rounded to
    nearest, ties to even.  The generator is a stream of draws and a
    cursor. *)

Definition float32 : Type := spec_float.


(** A Python number as the scalar operand of a binary32 tensor. *)
Definition f32_scalar (q : Q) : float32 := SF_of_Q 24 128 q.







Fixpoint mapM {A B} (f : A -> Res B) (xs : list A) : Res (list B) :=
  match xs with
  | [] => Ok []
  | x :: xs' => res_bind (f x) (fun y => res_bind (mapM f xs') (fun ys => Ok (y :: ys)))
  end.








(** ** Calling sub-modules

    [call name l training x] is [self.<name>(x)] for the sub-module [l] held
    in attribute [name], in training or inference mode; [add x y] is
    [x + y]. *)

Class Torch (T W : Type) := {
  call : string -> Layer -> bool -> T -> M W T;
  add : T -> T -> M W T
}.

(** [torch.chunk(x, chunks, dim=1)] and [torch.cat(xs, dim=1)]. *)
Class ChannelOps (T : Type) := {
  chunk : Z -> T -> list T;
  cat : list T -> Res T
}.

(** What calling a module does once the engine's own layers are given by
    [ext]: [nn.Identity] returns its input, [DropConnect] runs the forward
    above, [nn.Sequential] feeds each layer the output of the one before. *)
Fixpoint call_module {T W} `{TensorArith T W} (ext : Layer -> bool -> T -> M W T)
    (l : Layer) (training : bool) (x : T) : M W T :=
  match l with
  | LIdentity => ret x
  | LDropConnect keep_prob => DropConnect.forward (DropConnect.init keep_prob) training x
  | LSequential layers =>
      (fix go (ls : list Layer) (x : T) : M W T :=
         match ls with
         | [] => ret x
         | l' :: ls' => y <- call_module ext l' training x ;; go ls' y
         end) layers x
  | _ => ext l training x
  end.

(** Reading an attribute that the constructor sets on one branch only. *)
Definition getattr {W} (name : string) (o : option Layer) : M W Layer :=
  match o with
  | Some l => ret l
  | None => raise (AttributeError name)
  end.

(** Reading a local variable that only some branches bind. *)
Definition load_local {W T} (name : string) (v : option T) : M W T :=
  match v with
  | Some x => ret x
  | None => raise (UnboundLocalError name)
  end.

(** [self.drop_connect = DropConnect(keep_prob) if keep_prob < 1 else nn.Identity()] *)
Definition new_drop_connect (keep_prob : Q) : Layer :=
  if Qltb keep_prob 1 then LDropConnect keep_prob else LIdentity.

(** ** InvertedResidual *)

Module InvertedResidual.

Record t := {
  has_residual : bool;
  has_expansion : bool;
  conv_pw : option Layer;
  bn1 : option Layer;
  conv_dw : Layer;
  bn2 : Layer;
  se : Layer;
  conv_pw1 : Layer;
  bn3 : Layer;
  drop_connect : Layer
}.

(** [make_divisible] (pytorch_tools.utils.misc) is not part of this file and
    is taken as a parameter. *)
Definition init (make_divisible : Q -> Z)
    (in_channels out_channels dw_kernel_size stride dilation : Z)
    (attn_type : option string) (expand_ratio keep_prob : Q) (noskip : bool)
    (norm_layer : Z -> string -> Layer) (norm_act : string) : Res t :=
  let mid_chs := make_divisible (inject_Z in_channels * expand_ratio)%Q in
  let has_residual := ((in_channels =? out_channels) && (stride =? 1)) && negb noskip in
  let has_expansion := negb (Qeq_bool expand_ratio 1) in
  res_bind (get_attn attn_type) (fun attn =>
  Ok {| has_residual := has_residual;
        has_expansion := has_expansion;
        conv_pw := if has_expansion then Some (conv1x1 in_channels mid_chs 1 false) else None;
        bn1 := if has_expansion then Some (norm_layer mid_chs norm_act) else None;
        conv_dw := nn_Conv2d mid_chs mid_chs dw_kernel_size stride
                             (dilation * (dw_kernel_size - 1) / 2) dilation mid_chs false;
        bn2 := norm_layer mid_chs norm_act;
        se := attn_new attn mid_chs (in_channels / 4) (Some norm_act);
        conv_pw1 := conv1x1 mid_chs out_channels 1 false;
        bn3 := norm_layer out_channels "identity";
        drop_connect := new_drop_connect keep_prob |}).

Definition forward {T W} `{Torch T W} (self : t) (training : bool) (x : T) : M W T :=
  let residual := x in
  x <- (if has_expansion self then
          conv_pw <- getattr "conv_pw" (conv_pw self) ;;
          x <- call "conv_pw" conv_pw training x ;;
          bn1 <- getattr "bn1" (bn1 self) ;;
          call "bn1" bn1 training x
        else ret x) ;;
  x <- call "conv_dw" (conv_dw self) training x ;;
  x <- call "bn2" (bn2 self) training x ;;
  x <- call "se" (se self) training x ;;
  x <- call "conv_pw1" (conv_pw1 self) training x ;;
  x <- call "bn3" (bn3 self) training x ;;
  if has_residual self then
    y <- call "drop_connect" (drop_connect self) training x ;;
    add y residual
  else ret x.

End InvertedResidual.

(** ** BasicBlock and Bottleneck *)

Definition py_assert (c : bool) (msg : string) : Res unit :=
  if c then Ok tt else Raise (AssertionError msg).

Module BasicBlock.

Definition expansion : Z := 1.

Record t := {
  conv1 : Layer;
  bn1 : Layer;
  conv2 : Layer;
  bn2 : Layer;
  se_module : Layer;
  final_act : Layer;
  downsample : option Layer;
  blurpool : Layer;
  antialias : bool;
  drop_connect : Layer
}.

Definition init (inplanes planes stride : Z) (downsample : option Layer)
    (groups base_width : Z) (attn_type : option string) (dilation : Z)
    (norm_layer : Z -> string -> Layer) (norm_act : string)
    (antialias : bool) (keep_prob : Q) : Res t :=
  let antialias := antialias && (stride =? 2) in
  res_bind (py_assert (groups =? 1) "BasicBlock only supports groups of 1") (fun _ =>
  res_bind (py_assert (base_width =? 64) "BasicBlock doest not support changing base width") (fun _ =>
  let outplanes := planes * expansion in
  let conv1_stride := if antialias then 1 else stride in
  res_bind (get_attn attn_type) (fun attn =>
  Ok {| conv1 := conv3x3 inplanes planes conv1_stride groups dilation false;
        bn1 := norm_layer planes norm_act;
        conv2 := conv3x3 planes outplanes 1 1 1 false;
        bn2 := norm_layer outplanes "identity";
        se_module := attn_new attn outplanes (planes / 4) None;
        final_act := activation_from_name norm_act;
        downsample := downsample;
        blurpool := if antialias then LBlurPool planes else LIdentity;
        antialias := antialias;
        drop_connect := new_drop_connect keep_prob |}))).

Definition forward {T W} `{Torch T W} (self : t) (training : bool) (x : T) : M W T :=
  residual <- match downsample self with
              | Some d => call "downsample" d training x
              | None => ret x
              end ;;
  out <- call "conv1" (conv1 self) training x ;;
  out <- call "bn1" (bn1 self) training out ;;
  out <- (if antialias self then call "blurpool" (blurpool self) training out else ret out) ;;
  out <- call "conv2" (conv2 self) training out ;;
  out <- call "bn2" (bn2 self) training out ;;
  out <- call "se_module" (se_module self) training out ;;
  out <- call "drop_connect" (drop_connect self) training out ;;
  out <- add out residual ;;
  call "final_act" (final_act self) training out.

End BasicBlock.

Module Bottleneck.

Definition expansion : Z := 4.

Record t := {
  conv1 : Layer;
  bn1 : Layer;
  conv2 : Layer;
  bn2 : Layer;
  conv3 : Layer;
  bn3 : Layer;
  se_module : Layer;
  final_act : Layer;
  downsample : option Layer;
  blurpool : Layer;
  antialias : bool;
  drop_connect : Layer
}.

Definition init (inplanes planes stride : Z) (downsample : option Layer)
    (groups base_width : Z) (attn_type : option string) (dilation : Z)
    (norm_layer : Z -> string -> Layer) (norm_act : string)
    (antialias : bool) (keep_prob : Q) : Res t :=
  let antialias := antialias && (stride =? 2) in
  let width := py_floor (inject_Z planes * (inject_Z base_width / 64))%Q * groups in
  let outplanes := planes * expansion in
  let conv2_stride := if antialias then 1 else stride in
  res_bind (get_attn attn_type) (fun attn =>
  Ok {| conv1 := conv1x1 inplanes width 1 false;
        bn1 := norm_layer width norm_act;
        conv2 := conv3x3 width width conv2_stride groups dilation false;
        bn2 := norm_layer width norm_act;
        conv3 := conv1x1 width outplanes 1 false;
        bn3 := norm_layer outplanes "identity";
        se_module := attn_new attn outplanes (planes / 4) None;
        final_act := activation_from_name norm_act;
        downsample := downsample;
        blurpool := if antialias then LBlurPool width else LIdentity;
        antialias := antialias;
        drop_connect := new_drop_connect keep_prob |}).

Definition forward {T W} `{Torch T W} (self : t) (training : bool) (x : T) : M W T :=
  residual <- match downsample self with
              | Some d => call "downsample" d training x
              | None => ret x
              end ;;
  out <- call "conv1" (conv1 self) training x ;;
  out <- call "bn1" (bn1 self) training out ;;
  out <- call "conv2" (conv2 self) training out ;;
  out <- call "bn2" (bn2 self) training out ;;
  out <- (if antialias self then call "blurpool" (blurpool self) training out else ret out) ;;
  out <- call "conv3" (conv3 self) training out ;;
  out <- call "bn3" (bn3 self) training out ;;
  out <- call "se_module" (se_module self) training out ;;
  out <- call "drop_connect" (drop_connect self) training out ;;
  out <- add out residual ;;
  call "final_act" (final_act self) training out.

End Bottleneck.

(** ** DarkNet blocks *)

Module DarkBasicBlock.

Record t := {
  bn1 : Layer;
  conv1 : Layer;
  bn2 : Layer;
  conv2 : Layer;
  attention : Layer;
  drop_connect : Layer
}.

Definition init (in_channels out_channels : Z) (bottle_ratio : PyNum)
    (attn_type : option string) (norm_layer : Z -> string -> Layer)
    (norm_act : string) (keep_prob : Q) : Res t :=
  res_bind (int_scaled in_channels bottle_ratio) (fun mid_channels =>
  res_bind (built (norm_layer mid_channels norm_act)) (fun n1 =>
  res_bind (built (conv1x1 in_channels mid_channels 1 false)) (fun c1 =>
  res_bind (built (norm_layer out_channels norm_act)) (fun n2 =>
  res_bind (built (conv3x3 mid_channels out_channels 1 32 1 false)) (fun c2 =>
  res_bind (get_attn attn_type) (fun attn =>
  Ok {| bn1 := n1;
        conv1 := c1;
        bn2 := n2;
        conv2 := c2;
        attention := attn_new attn out_channels (out_channels / 4) None;
        drop_connect := new_drop_connect keep_prob |})))))).

Definition forward {T W} `{Torch T W} (self : t) (training : bool) (x : T) : M W T :=
  out <- call "bn1" (bn1 self) training x ;;
  out <- call "conv1" (conv1 self) training x ;;
  out <- call "bn2" (bn2 self) training out ;;
  out <- call "conv2" (conv2 self) training out ;;
  out <- call "attention" (attention self) training out ;;
  out <- call "drop_connect" (drop_connect self) training out ;;
  add out x.

End DarkBasicBlock.

(** *** Names visible from a function body of residual.py

    A name that is neither a parameter nor a local of the function is looked
    up in the module's globals and then in the builtins. *)

Inductive PyObj :=
| PyModule (name : string)
| PyFunction (name : string)
| PyClass (name : string)
| PyBuiltin (name : string)
| PyNumber (q : Q).

Definition module_globals : gmap string PyObj :=
  list_to_map [
    ("__name__", PyBuiltin "__name__"); ("__doc__", PyBuiltin "__doc__");
    ("__package__", PyBuiltin "__package__"); ("__loader__", PyBuiltin "__loader__");
    ("__spec__", PyBuiltin "__spec__"); ("__file__", PyBuiltin "__file__");
    ("__cached__", PyBuiltin "__cached__"); ("__builtins__", PyModule "builtins");
    ("math", PyModule "math"); ("torch", PyModule "torch"); ("nn", PyModule "torch.nn");
    ("partial", PyClass "partial"); ("ABN", PyClass "ABN");
    ("activation_from_name", PyFunction "activation_from_name");
    ("BlurPool", PyClass "BlurPool"); ("FastGlobalAvgPool2d", PyClass "FastGlobalAvgPool2d");
    ("make_divisible", PyFunction "make_divisible"); ("SpaceToDepth", PyClass "SpaceToDepth");
    ("conv3x3", PyFunction "conv3x3"); ("conv1x1", PyFunction "conv1x1");
    ("SEModule", PyClass "SEModule"); ("ECAModule", PyClass "ECAModule");
    ("SSEModule", PyClass "SSEModule"); ("SCSEModule", PyClass "SCSEModule");
    ("get_attn", PyFunction "get_attn");
    ("DepthwiseSeparableConv", PyClass "DepthwiseSeparableConv");
    ("InvertedResidual", PyClass "InvertedResidual"); ("DropConnect", PyClass "DropConnect");
    ("BasicBlock", PyClass "BasicBlock"); ("Bottleneck", PyClass "Bottleneck");
    ("TBasicBlock", PyClass "TBasicBlock"); ("TBottleneck", PyClass "TBottleneck");
    ("DarkBasicBlock", PyClass "DarkBasicBlock");
    ("CSPDarkBasicBlock", PyClass "CSPDarkBasicBlock");
    ("SimpleBottleneck", PyClass "SimpleBottleneck");
    ("SimplePreActBottleneck", PyClass "SimplePreActBottleneck");
    ("SimpleStage", PyClass "SimpleStage"); ("CrossStage", PyClass "CrossStage")
  ].

Definition builtin_names : list string := [
  "abs"; "aiter"; "all"; "anext"; "any"; "ascii"; "bin"; "bool"; "breakpoint";
  "bytearray"; "bytes"; "callable"; "chr"; "classmethod"; "compile"; "complex";
  "copyright"; "credits"; "delattr"; "dict"; "dir"; "divmod"; "enumerate"; "eval";
  "exec"; "exit"; "filter"; "float"; "format"; "frozenset"; "getattr"; "globals";
  "hasattr"; "hash"; "help"; "hex"; "id"; "input"; "int"; "isinstance";
  "issubclass"; "iter"; "len"; "license"; "list"; "locals"; "map"; "max";
  "memoryview"; "min"; "next"; "object"; "oct"; "open"; "ord"; "pow"; "print";
  "property"; "quit"; "range"; "repr"; "reversed"; "round"; "set"; "setattr";
  "slice"; "sorted"; "staticmethod"; "str"; "sum"; "super"; "tuple"; "type";
  "vars"; "zip"; "__import__"; "__build_class__"; "__debug__";
  "None"; "True"; "False"; "Ellipsis"; "NotImplemented";
  "BaseException"; "Exception"; "ArithmeticError"; "AssertionError";
  "AttributeError"; "BlockingIOError"; "BrokenPipeError"; "BufferError";
  "BytesWarning"; "ChildProcessError"; "ConnectionAbortedError";
  "ConnectionError"; "ConnectionRefusedError"; "ConnectionResetError";
  "DeprecationWarning"; "EOFError"; "EnvironmentError"; "FileExistsError";
  "FileNotFoundError"; "FloatingPointError"; "FutureWarning"; "GeneratorExit";
  "IOError"; "ImportError"; "ImportWarning"; "IndentationError"; "IndexError";
  "InterruptedError"; "IsADirectoryError"; "KeyError"; "KeyboardInterrupt";
  "LookupError"; "MemoryError"; "ModuleNotFoundError"; "NameError";
  "NotADirectoryError"; "NotImplementedError"; "OSError"; "OverflowError";
  "PendingDeprecationWarning"; "PermissionError"; "ProcessLookupError";
  "RecursionError"; "ReferenceError"; "ResourceWarning"; "RuntimeError";
  "RuntimeWarning"; "StopAsyncIteration"; "StopIteration"; "SyntaxError";
  "SyntaxWarning"; "SystemError"; "SystemExit"; "TabError"; "TimeoutError";
  "TypeError"; "UnboundLocalError"; "UnicodeDecodeError"; "UnicodeEncodeError";
  "UnicodeError"; "UnicodeTranslateError"; "UnicodeWarning"; "UserWarning";
  "ValueError"; "Warning"; "ZeroDivisionError"
].

Definition load_global (name : string) : Res PyObj :=
  match module_globals !! name with
  | Some v => Ok v
  | None =>
      if existsb (String.eqb name) builtin_names then Ok (PyBuiltin name)
      else Raise (NameError name)
  end.

Definition as_number (v : PyObj) : Res Q :=
  match v with
  | PyNumber q => Ok q
  | _ => Raise (TypeError "unsupported operand type(s) for *")
  end.

(** Unpacking the tuple returned by [torch.chunk] into two or four names. *)
Definition unpack_error {A} (expected got : nat) : Res A :=
  Raise (ValueError (if Nat.ltb got expected then "not enough values to unpack"
                     else "too many values to unpack")).

Definition unpack2 {T} (xs : list T) : Res (T * T) :=
  match xs with
  | [a; b] => Ok (a, b)
  | _ => unpack_error 2 (length xs)
  end.

Definition unpack4 {T} (xs : list T) : Res (T * T * T * T) :=
  match xs with
  | [a; b; c; d] => Ok (a, b, c, d)
  | _ => unpack_error 4 (length xs)
  end.

Module CSPDarkBasicBlock.

Record t := {
  conv1 : Layer;
  bn1 : Layer;
  conv2 : Layer;
  bn2 : Layer;
  attention : Layer;
  drop_connect : Layer
}.

(** [bottle_ratio] is not among the parameters, so the body reads it as a
    global. *)
Definition init (in_channels out_channels : Z) (attn_type : option string)
    (norm_layer : Z -> string -> Layer) (norm_act : string) (keep_prob : Q) : Res t :=
  res_bind (res_bind (load_global "bottle_ratio") as_number) (fun bottle_ratio =>
  let mid_channels := py_int (inject_Z in_channels * bottle_ratio)%Q in
  res_bind (get_attn attn_type) (fun attn =>
  Ok {| conv1 := conv1x1 in_channels mid_channels 1 false;
        bn1 := norm_layer mid_channels norm_act;
        conv2 := conv3x3 mid_channels out_channels 1 1 1 false;
        bn2 := norm_layer out_channels "identity";
        attention := attn_new attn out_channels (out_channels / 4) None;
        drop_connect := new_drop_connect keep_prob |})).

Definition forward {T W} `{Torch T W} `{ChannelOps T} (self : t) (training : bool) (x : T)
    : M W T :=
  x12 <- lift (unpack2 (chunk 2 x)) ;;
  out <- call "conv1" (conv1 self) training x ;;
  out <- call "bn1" (bn1 self) training out ;;
  out <- call "conv2" (conv2 self) training out ;;
  out <- call "bn2" (bn2 self) training out ;;
  out <- call "attention" (attention self) training out ;;
  out <- call "drop_connect" (drop_connect self) training out ;;
  add out x.

End CSPDarkBasicBlock.

(** ** Simple bottlenecks *)

(** [mid_chs // groups_width if groups_width else groups] *)
Definition pick_groups (mid_chs groups : Z) (groups_width : option Z) : Z :=
  match groups_width with
  | Some gw => if gw =? 0 then groups else mid_chs / gw
  | None => groups
  end.

Module SimpleBottleneck.

Record t := {
  conv1 : Layer;
  bn1 : Layer;
  conv2 : Layer;
  bn2 : Layer;
  conv3 : Layer;
  bn3 : Layer;
  has_residual : bool
}.

Definition init (in_chs mid_chs out_chs stride groups : Z) (groups_width : option Z)
    (norm_layer : Z -> string -> Layer) (norm_act : string) (keep_prob : Q) : t :=
  let groups := pick_groups mid_chs groups groups_width in
  {| conv1 := conv1x1 in_chs mid_chs 1 false;
     bn1 := norm_layer mid_chs norm_act;
     conv2 := conv3x3 mid_chs mid_chs stride groups 1 false;
     bn2 := norm_layer mid_chs norm_act;
     conv3 := conv1x1 mid_chs out_chs 1 false;
     bn3 := norm_layer out_chs "identity";
     has_residual := (in_chs =? out_chs) && (stride =? 1) |}.

Definition forward {T W} `{Torch T W} (self : t) (training : bool) (x : T) : M W T :=
  out <- call "conv1" (conv1 self) training x ;;
  out <- call "bn1" (bn1 self) training out ;;
  out <- call "conv2" (conv2 self) training out ;;
  out <- call "bn2" (bn2 self) training out ;;
  out <- call "conv3" (conv3 self) training out ;;
  if has_residual self then
    out <- call "bn3" (bn3 self) training out ;;
    add out x
  else
    call "bn3" (bn3 self) training out.

End SimpleBottleneck.

Module SimplePreActBottleneck.

Record t := {
  bn1 : Layer;
  conv1 : Layer;
  bn2 : Layer;
  conv2 : Layer;
  bn3 : Layer;
  conv3 : Layer;
  has_residual : bool
}.

Definition init (in_chs mid_chs out_chs stride : Z)
    (norm_layer : Z -> string -> Layer) (norm_act : string)
    (groups : Z) (groups_width : option Z) : t :=
  let groups := pick_groups mid_chs groups groups_width in
  {| bn1 := norm_layer in_chs norm_act;
     conv1 := conv1x1 in_chs mid_chs 1 false;
     bn2 := norm_layer mid_chs norm_act;
     conv2 := conv3x3 mid_chs mid_chs stride groups 1 false;
     bn3 := norm_layer mid_chs norm_act;
     conv3 := conv1x1 mid_chs out_chs 1 false;
     has_residual := (in_chs =? out_chs) && (stride =? 1) |}.

Definition forward {T W} `{Torch T W} (self : t) (training : bool) (x : T) : M W T :=
  out <- call "bn1" (bn1 self) training x ;;
  out <- call "conv1" (conv1 self) training out ;;
  out <- call "bn2" (bn2 self) training out ;;
  out <- call "conv2" (conv2 self) training out ;;
  out <- call "bn3" (bn3 self) training out ;;
  if has_residual self then
    out <- call "conv3" (conv3 self) training out ;;
    add out x
  else
    call "conv3" (conv3 self) training out.

End SimplePreActBottleneck.

(** ** CrossStage *)

(** The block classes of this file that accept the keyword arguments
    [CrossStage] passes to [block_fn]. *)
Inductive BlockFn :=
| SimpleBottleneckFn
| SimplePreActBottleneckFn.

Inductive Block :=
| BSimple (b : SimpleBottleneck.t)
| BPreAct (b : SimplePreActBottleneck.t).

(** The [**block_kwargs] the two block classes understand. *)
Record BlockKwargs := {
  kw_groups : option Z;
  kw_groups_width : option Z
}.

Definition no_kwargs : BlockKwargs := {| kw_groups := None; kw_groups_width := None |}.

(** [block_fn(in_chs=.., mid_chs=.., out_chs=.., stride=.., norm_layer=..,
    norm_act=.., **block_kwargs)]: the layers that the constructor of the
    block class assigns.  The call returns this block exactly when the
    engine accepts each of its convolutions, which is what [block_built]
    below checks; [Conv2d] raises [ValueError] otherwise. *)
Definition block_new (block_fn : BlockFn) (in_chs mid_chs out_chs stride : Z)
    (norm_layer : Z -> string -> Layer) (norm_act : string) (kw : BlockKwargs) : Block :=
  match block_fn with
  | SimpleBottleneckFn =>
      BSimple (SimpleBottleneck.init in_chs mid_chs out_chs stride
                 (default 1 (kw_groups kw)) (kw_groups_width kw) norm_layer norm_act 1%Q)
  | SimplePreActBottleneckFn =>
      BPreAct (SimplePreActBottleneck.init in_chs mid_chs out_chs stride
                 norm_layer norm_act (default 1 (kw_groups kw)) (kw_groups_width kw))
  end.

(** The convolutions of a block, in the order in which its constructor builds
    them. *)
Definition block_convs (b : Block) : list Layer :=
  match b with
  | BSimple b =>
      [SimpleBottleneck.conv1 b; SimpleBottleneck.conv2 b; SimpleBottleneck.conv3 b]
  | BPreAct b =>
      [SimplePreActBottleneck.conv1 b; SimplePreActBottleneck.conv2 b;
       SimplePreActBottleneck.conv3 b]
  end.

(** The checks of the engine that the constructor of a block runs into:
    [block_new] describes the layers, [block_built] is the block when all of
    them can be built. *)
Definition block_built (b : Block) : Res Block :=
  res_map (fun _ => b) (mapM built (block_convs b)).

Definition block_forward {T W} `{Torch T W} (b : Block) (training : bool) (x : T) : M W T :=
  match b with
  | BSimple b => SimpleBottleneck.forward b training x
  | BPreAct b => SimplePreActBottleneck.forward b training x
  end.

(** [nn.Sequential] over blocks. *)
Fixpoint sequential {T W} `{Torch T W} (bs : list Block) (training : bool) (x : T) : M W T :=
  match bs with
  | [] => ret x
  | b :: bs' => y <- block_forward b training x ;; sequential bs' training y
  end.

(** [range(n)] *)
Definition py_range (n : Z) : list nat := seq 0 (Z.to_nat n).

Module CrossStage.

Record t := {
  first_layer : Block;
  blocks : list Block;
  x2_transition : Layer;
  csp_block_ratio : Q
}.

Definition init (in_chs out_chs num_blocks stride : Z) (bottle_ratio : Q)
    (antialias : bool) (block_fn : BlockFn) (attn_type : option string)
    (norm_layer : Z -> string -> Layer) (norm_act : string) (keep_prob : Q)
    (csp_block_ratio : Q) (x2_transition : bool) (block_kwargs : BlockKwargs) : t :=
  let first_layer :=
    block_new block_fn in_chs out_chs out_chs stride norm_layer norm_act block_kwargs in
  let block_chs := py_int (csp_block_ratio * inject_Z out_chs)%Q in
  {| first_layer := first_layer;
     blocks := map (fun _ => block_new block_fn block_chs block_chs block_chs 1
                               norm_layer norm_act block_kwargs)
                   (py_range (num_blocks - 1));
     x2_transition :=
       if x2_transition
       then LSequential [conv1x1 block_chs block_chs 1 false; norm_layer block_chs "identity"]
       else LIdentity;
     csp_block_ratio := csp_block_ratio |}.

Definition forward {T W} `{Torch T W} `{ChannelOps T} (self : t) (training : bool) (x : T)
    : M W T :=
  x <- block_forward (first_layer self) training x ;;
  x12 <- lift (if Qeq_bool (csp_block_ratio self) (1 # 2) then
                 res_bind (unpack2 (chunk 2 x)) (fun '(x1, x2) =>
                 Ok (Some x1, Some x2))
               else if Qeq_bool (csp_block_ratio self) (3 # 4) then
                 res_bind (unpack4 (chunk 4 x)) (fun '(x1, x2, x3, x4) =>
                 res_bind (cat [x2; x3; x4]) (fun x2 =>
                 Ok (Some x1, Some x2)))
               else Ok (None, None)) ;;
  x2 <- load_local "x2" (snd x12) ;;
  x2 <- sequential (blocks self) training x2 ;;
  x2 <- call "x2_transition" (x2_transition self) training x2 ;;
  x1 <- load_local "x1" (fst x12) ;;
  lift (cat [x1; x2]).

End CrossStage.

(** ** The tracing engine

    A tensor is the term that produced it; the state is the log of the
    operations performed, in order.  Every sub-module call is recorded as
    one opaque step. *)

Inductive expr :=
| EInput
| ECall (name : string) (l : Layer) (arg : expr)
| EAdd (a b : expr).

Inductive event :=
| EvCall (name : string) (l : Layer) (arg : expr)
| EvAdd (a b : expr).

Definition Trace : Type := list event.

#[export] Instance trace_torch : Torch expr Trace := {
  call name l training x := fun w => Ok (ECall name l x, (w ++ [EvCall name l x])%list);
  add a b := fun w => Ok (EAdd a b, (w ++ [EvAdd a b])%list)
}.

(** Running a forward pass on the block's input, from an empty log. *)
Definition run (f : expr -> M Trace expr) : Res (expr * Trace) := f EInput [].



(** The attribute [name] is applied somewhere inside the term. *)
Fixpoint mentions (name : string) (e : expr) : bool :=
  match e with
  | EInput => false
  | ECall n _ arg => String.eqb n name || mentions name arg
  | EAdd a b => mentions name a || mentions name b
  end.

(** The attribute [name] is called at some step of the log. *)
Definition called (name : string) (w : Trace) : bool :=
  existsb (fun ev => match ev with EvCall n _ _ => String.eqb n name | _ => false end) w.

Definition is_blur (l : Layer) : bool :=
  match l with LBlurPool _ => true | _ => false end.

Definition conv_stride (l : Layer) : option Z :=
  match l with LConv2d c => Some (stride c) | _ => None end.

(** The term went through a low-pass filter. *)
Fixpoint has_blur (e : expr) : bool :=
  match e with
  | EInput => false
  | ECall _ l arg => is_blur l || has_blur arg
  | EAdd a b => has_blur a || has_blur b
  end.

(** Some convolution with a stride other than 1 is applied to a term that
    went through the low-pass filter: the filter sits before a strided
    convolution. *)
Fixpoint blur_before_strided_conv (e : expr) : bool :=
  match e with
  | EInput => false
  | ECall _ l arg =>
      match conv_stride l with
      | Some s => negb (s =? 1) && has_blur arg
      | None => false
      end || blur_before_strided_conv arg
  | EAdd a b => blur_before_strided_conv a || blur_before_strided_conv b
  end.

(** ** The shape engine

    A tensor is its NCHW shape.  The rules are the engine's: a layer checks
    the channel count it was built for, a convolution shrinks the spatial
    axes by its stride, element-wise operations broadcast. *)

Record Shape := { dimN : Z; dimC : Z; dimH : Z; dimW : Z }.

Definition shape_error {A} (msg : string) : Res A := Raise (RuntimeError msg).

Definition broadcast_dim (a b : Z) : Res Z :=
  if a =? b then Ok a
  else if a =? 1 then Ok b
  else if b =? 1 then Ok a
  else shape_error "The size of tensor a must match the size of tensor b".

Definition broadcast_shape (a b : Shape) : Res Shape :=
  res_bind (broadcast_dim (dimN a) (dimN b)) (fun n =>
  res_bind (broadcast_dim (dimC a) (dimC b)) (fun c =>
  res_bind (broadcast_dim (dimH a) (dimH b)) (fun h =>
  res_bind (broadcast_dim (dimW a) (dimW b)) (fun w =>
  Ok {| dimN := n; dimC := c; dimH := h; dimW := w |})))).

#[export] Instance shape_arith : TensorArith Shape unit := {
  size0 := dimN;
  rand '(n, c, h, w) := ret {| dimN := n; dimC := c; dimH := h; dimW := w |};
  radd _ x := x;
  tfloor x := x;
  tdiv x _ := x;
  tmul := broadcast_shape
}.

(** The output size of a convolution along one spatial axis. *)
Definition conv_out (size k s p d : Z) : Z :=
  (size + 2 * p - d * (k - 1) - 1) / s + 1.

Definition conv_shape (c : Conv2d) (x : Shape) : Res Shape :=
  if negb (dimC x =? in_channels c) then shape_error "input channels do not match the weight"
  else if stride c <=? 0 then shape_error "non-positive stride is not supported"
  else
    let h := conv_out (dimH x) (kernel_size c) (stride c) (padding c) (dilation c) in
    let w := conv_out (dimW x) (kernel_size c) (stride c) (padding c) (dilation c) in
    if (h <=? 0) || (w <=? 0) then shape_error "output size is too small"
    else Ok {| dimN := dimN x; dimC := out_channels c; dimH := h; dimW := w |}.

Definition check_channels (n : Z) (x : Shape) : Res Shape :=
  if dimC x =? n then Ok x else shape_error "channel count does not match the module".

(** Modelled from the spec: [BlurPool] (pytorch_tools.modules) is not part of
    this file.  It is the low-pass filter that takes over the stride-2
    downsampling of the convolution it accompanies (the source comments it as
    [BlurPool(s=2)]); its output has the spatial size of a 3x3 convolution of
    stride 2 with padding 1, and the channel count of its input. *)
Definition blurpool_shape (x : Shape) : Res Shape :=
  Ok {| dimN := dimN x; dimC := dimC x;
        dimH := conv_out (dimH x) 3 2 1 1; dimW := conv_out (dimW x) 3 2 1 1 |}.

(** [ECAModule.forward] on shapes: the pooled tensor is viewed as
    [x.size(0), 1, -1], which is refused when it has no element. *)
Definition eca_shape (x : Shape) : Res Shape :=
  if (dimN x <=? 0) || (dimC x <=? 0)
  then shape_error "the unspecified dimension size -1 is ambiguous"
  else Ok x.

(** [SEModule.forward] on shapes: the two 1x1 convolutions need a positive
    reduced channel count and an input of the module's channel count. *)
Definition se_shape (ch reduction : Z) (x : Shape) : Res Shape :=
  if reduction <=? 0 then shape_error "the reduced channel count is not positive"
  else check_channels ch x.

(** The layers the engine and the rest of the package provide.  An attention
    module returns a tensor of the shape of its input when its forward pass
    runs: [SCSEModule] evaluates its spatial branch, then its channel branch
    ([ECAModule]). *)
Definition shape_ext (l : Layer) (training : bool) (x : Shape) : M unit Shape :=
  match l with
  | LConv2d c => lift (conv_shape c x)
  | LABN n _ => lift (check_channels n x)
  | LActivation _ => ret x
  | LBlurPool _ => lift (blurpool_shape x)
  | LSEModule ch r _ => lift (se_shape ch r x)
  | LECAModule => lift (eca_shape x)
  | LSSEModule ch => lift (check_channels ch x)
  | LSCSEModule ch => lift (res_bind (check_channels ch x) eca_shape)
  | LIdentity | LDropConnect _ | LSequential _ => ret x
  end.

#[export] Instance shape_torch : Torch Shape unit := {
  call _ l training x := call_module shape_ext l training x;
  add a b := lift (broadcast_shape a b)
}.

(** The sizes [torch.chunk] cuts an axis of [size] elements into: pieces of
    [ceil(size / chunks)] elements, the last one possibly shorter, and
    possibly fewer than [chunks] of them. *)
Definition chunk_sizes (chunks size : Z) : list Z :=
  let split_size := (size + chunks - 1) / chunks in
  if (split_size =? 0) && (size =? 0) then map (fun _ => 0) (py_range chunks)
  else
    let num_splits := Z.max ((size + split_size - 1) / split_size) 1 in
    (map (fun _ => split_size) (py_range (num_splits - 1))
     ++ [split_size - (split_size * num_splits - size)])%list.

Definition with_channels (x : Shape) (c : Z) : Shape :=
  {| dimN := dimN x; dimC := c; dimH := dimH x; dimW := dimW x |}.

Definition same_but_channels (a b : Shape) : bool :=
  (dimN a =? dimN b) && (dimH a =? dimH b) && (dimW a =? dimW b).

Definition cat_shapes (xs : list Shape) : Res Shape :=
  match xs with
  | [] => shape_error "torch.cat(): expected a non-empty list of Tensors"
  | x :: rest =>
      if forallb (same_but_channels x) rest
      then Ok (with_channels x (fold_left Z.add (map dimC rest) (dimC x)))
      else shape_error "Sizes of tensors must match except in dimension 1"
  end.

#[export] Instance shape_channels : ChannelOps Shape := {
  chunk chunks x := map (with_channels x) (chunk_sizes chunks (dimC x));
  cat := cat_shapes
}.

(** ** The attention names of the specification, in any letter case *)

Definition is_lower (c : ascii) : bool :=
  let n := nat_of_ascii c in (Nat.leb 97 n && Nat.leb n 122)%bool.

Definition upper_char (c : ascii) : ascii :=
  if is_lower c then ascii_of_nat (nat_of_ascii c - 32) else c.

(** Every spelling of [name] obtained by choosing a case for each letter. *)
Fixpoint letter_cases (name : string) : list string :=
  match name with
  | EmptyString => [EmptyString]
  | String c rest =>
      flat_map (fun t => [String (lower_char c) t; String (upper_char c) t])
               (letter_cases rest)
  end.

(** The four names and the classes the specification pairs them with. *)
Definition attention_names : list (string * AttnClass) :=
  [("se", SEModule); ("eca", ECAModule); ("sse", SSEModule); ("scse", SCSEModule)].


(** The shape after a block of stride [s] that produces [o] channels: the
    spatial axes are those of its 3x3 convolution. *)
Definition strided (x : Shape) (o s : Z) : Shape :=
  {| dimN := dimN x; dimC := o;
     dimH := conv_out (dimH x) 3 s 1 1; dimW := conv_out (dimW x) 3 s 1 1 |}.

(** ** The rest of the catalogue

    The attention modules, [DepthwiseSeparableConv], the TResNet variants of
    the basic and bottleneck blocks, and [SimpleStage]. *)

(** *** Tensor operations of the attention modules *)

(** The configuration of an [nn.Conv1d]. *)
Record Conv1d := {
  conv1d_in_channels : Z;
  conv1d_out_channels : Z;
  conv1d_kernel_size : Z;
  conv1d_stride : Z;
  conv1d_padding : Z;
  conv1d_dilation : Z;
  conv1d_bias : bool
}.

Class AttentionOps (T W : Type) := {
  (** [FastGlobalAvgPool2d()(x)] *)
  pool2d : T -> M W T;
  (** [self.<name>(x)] for an [nn.Conv1d] held in attribute [name] *)
  call_conv1d : string -> Conv1d -> bool -> T -> M W T;
  (** [x.sigmoid()] *)
  sigmoid : T -> T;
  (** [x.view(shape)], the sizes given as one list *)
  view : T -> list Z -> Res T;
  (** [x.expand_as(other)] *)
  expand_as : T -> T -> Res T
}.

Module SEModule.

(** [pool] is a [FastGlobalAvgPool2d()], which has no configuration. *)
Record t := {
  fc1 : Layer;
  act1 : Layer;
  fc2 : Layer
}.

Definition init (channels reduction_channels : Z) (norm_act : string) : t :=
  {| fc1 := conv1x1 channels reduction_channels 1 true;
     act1 := activation_from_name norm_act;
     fc2 := conv1x1 reduction_channels channels 1 true |}.

Definition forward {T W} `{TensorArith T W} `{Torch T W} `{AttentionOps T W}
    (self : t) (training : bool) (x : T) : M W T :=
  x_se <- pool2d x ;;
  x_se <- call "fc1" (fc1 self) training x_se ;;
  x_se <- call "act1" (act1 self) training x_se ;;
  x_se <- call "fc2" (fc2 self) training x_se ;;
  lift (tmul x (sigmoid x_se)).

End SEModule.

Module ECAModule.

Record t := { conv : Conv1d }.

(** [ECAModule] takes any arguments and ignores them. *)
Definition init : t :=
  {| conv := {| conv1d_in_channels := 1; conv1d_out_channels := 1; conv1d_kernel_size := 3;
                conv1d_stride := 1; conv1d_padding := 1; conv1d_dilation := 1;
                conv1d_bias := false |} |}.

Definition forward {T W} `{TensorArith T W} `{Torch T W} `{AttentionOps T W}
    (self : t) (training : bool) (x : T) : M W T :=
  x_s <- pool2d x ;;
  v <- lift (view x_s [size0 x; 1; -1]) ;;
  x_s <- call_conv1d "conv" (conv self) training v ;;
  v <- lift (view x_s [size0 x; -1; 1; 1]) ;;
  let x_s := sigmoid v in
  e <- lift (expand_as x_s x) ;;
  lift (tmul x e).

End ECAModule.

Module SSEModule.

Record t := { conv : Layer }.

(** [SSEModule(in_ch, *args)] *)
Definition init (in_ch : Z) : t := {| conv := conv1x1 in_ch 1 1 true |}.

Definition forward {T W} `{TensorArith T W} `{Torch T W} `{AttentionOps T W}
    (self : t) (training : bool) (x : T) : M W T :=
  c <- call "conv" (conv self) training x ;;
  lift (tmul x (sigmoid c)).

End SSEModule.

Module SCSEModule.

Record t := {
  sse : SSEModule.t;
  cse : ECAModule.t;
  reduction_conv : Layer
}.

(** [SCSEModule(in_ch, *args)] *)
Definition init (in_ch : Z) : t :=
  {| sse := SSEModule.init in_ch;
     cse := ECAModule.init;
     reduction_conv := conv1x1 (in_ch * 2) in_ch 1 true |}.

Definition forward {T W} `{TensorArith T W} `{Torch T W} `{ChannelOps T} `{AttentionOps T W}
    (self : t) (training : bool) (x : T) : M W T :=
  a <- SSEModule.forward (sse self) training x ;;
  b <- ECAModule.forward (cse self) training x ;;
  c <- lift (cat [a; b]) ;;
  call "reduction_conv" (reduction_conv self) training c.

End SCSEModule.

(** [get_attn(name)(channels, reduction_channels, norm_act)(x)]: building the
    module of a class returned by [get_attn] and calling it. *)
Definition attention_forward {T W} `{TensorArith T W} `{Torch T W} `{ChannelOps T}
    `{AttentionOps T W} (cls : AttnClass) (channels reduction_channels : Z)
    (norm_act : option string) (training : bool) (x : T) : M W T :=
  match cls with
  | SEModule =>
      SEModule.forward (SEModule.init channels reduction_channels (default "relu" norm_act))
                       training x
  | ECAModule => ECAModule.forward ECAModule.init training x
  | SSEModule => SSEModule.forward (SSEModule.init channels) training x
  | SCSEModule => SCSEModule.forward (SCSEModule.init channels) training x
  | Identity => ret x
  end.

(** *** Shapes of any rank

    The attention modules reshape to three axes, so their shapes are lists
    of sizes.  The layers of the engine are applied to four axes as in the
    shape engine above. *)

Definition GShape : Type := list Z.

Definition numel (s : GShape) : Z := fold_right Z.mul 1 s.

Definition of_shape (x : Shape) : GShape := [dimN x; dimC x; dimH x; dimW x].

Definition to_shape (s : GShape) : Res Shape :=
  match s with
  | [n; c; h; w] => Ok {| dimN := n; dimC := c; dimH := h; dimW := w |}
  | _ => shape_error "expected a 4-D input"
  end.

(** Broadcasting, on the shapes read from the last axis backwards. *)
Fixpoint broadcast_rev (a b : list Z) : Res (list Z) :=
  match a, b with
  | [], _ => Ok b
  | _, [] => Ok a
  | x :: a', y :: b' =>
      res_bind (broadcast_dim x y) (fun d =>
      res_bind (broadcast_rev a' b') (fun r => Ok (d :: r)))
  end.

Definition broadcast_gshape (a b : GShape) : Res GShape :=
  res_map (@rev Z) (broadcast_rev (rev a) (rev b)).

(** Expanding [a] to the sizes of [b], read from the last axis backwards: an
    axis keeps its size or grows from 1, and axes can only be added in
    front. *)
Fixpoint expand_rev (a b : list Z) : Res (list Z) :=
  match a, b with
  | [], _ => Ok b
  | _ :: _, [] => shape_error "the number of sizes provided must be greater or equal"
  | x :: a', y :: b' =>
      if (x =? y) || (x =? 1)
      then res_bind (expand_rev a' b') (fun r => Ok (y :: r))
      else shape_error "the expanded size of the tensor must match the existing size"
  end.

(** [view]: the sizes must multiply to the number of elements; one size may
    be -1 and is then inferred, unless the others multiply to 0. *)
Definition view_gshape (s : GShape) (shape : list Z) : Res GShape :=
  if existsb (fun d => d <? -1) shape then shape_error "invalid shape dimension"
  else
    let known := List.filter (fun d => negb (d =? -1)) shape in
    let others := fold_right Z.mul 1 known in
    match (length shape - length known)%nat with
    | O => if others =? numel s then Ok shape else shape_error "shape is invalid for input"
    | S O =>
        if others =? 0 then shape_error "the unspecified dimension size -1 is ambiguous"
        else if numel s mod others =? 0
             then Ok (map (fun d => if d =? -1 then numel s / others else d) shape)
             else shape_error "shape is invalid for input"
    | _ => shape_error "only one dimension can be inferred"
    end.

Definition conv1d_gshape (c : Conv1d) (s : GShape) : Res GShape :=
  match s with
  | [n; ch; l] =>
      if negb (ch =? conv1d_in_channels c)
      then shape_error "input channels do not match the weight"
      else if conv1d_stride c <=? 0 then shape_error "non-positive stride is not supported"
      else
        let l' := conv_out l (conv1d_kernel_size c) (conv1d_stride c) (conv1d_padding c)
                           (conv1d_dilation c) in
        if l' <=? 0 then shape_error "output size is too small"
        else Ok [n; conv1d_out_channels c; l']
  | _ => shape_error "expected a 3-D input"
  end.

(** Modelled from the spec: [FastGlobalAvgPool2d] (pytorch_tools.modules) is
    not part of this file; it is the global-average-pooling operation, which
    averages each channel of an NCHW tensor over its spatial axes and keeps
    them with size 1. *)
Definition pool2d_gshape (s : GShape) : Res GShape :=
  match s with
  | [n; c; h; w] => Ok [n; c; 1; 1]
  | _ => shape_error "expected a 4-D input"
  end.

Definition cat_gshapes (xs : list GShape) : Res GShape :=
  match xs with
  | (n :: c :: rest) :: others =>
      if forallb (fun s => match s with
                           | n' :: _ :: rest' =>
                               (n' =? n) && bool_decide (rest' = rest)
                           | _ => false
                           end) others
      then Ok (n :: fold_left Z.add (map (fun s => nth 1 s 0) others) c :: rest)
      else shape_error "Sizes of tensors must match except in dimension 1"
  | _ => shape_error "torch.cat(): expected a non-empty list of Tensors with a dimension 1"
  end.

#[export] Instance gshape_arith : TensorArith GShape unit := {
  size0 s := hd 0 s;
  rand '(n, c, h, w) := ret [n; c; h; w];
  radd _ x := x;
  tfloor x := x;
  tdiv x _ := x;
  tmul := broadcast_gshape
}.

#[export] Instance gshape_torch : Torch GShape unit := {
  call name l training s := fun u =>
    res_bind (to_shape s) (fun x =>
    res_map (fun r => (of_shape (fst r), snd r)) (call name l training x u));
  add a b := lift (broadcast_gshape a b)
}.

#[export] Instance gshape_channels : ChannelOps GShape := {
  chunk chunks s :=
    match s with
    | n :: c :: rest => map (fun c' => n :: c' :: rest) (chunk_sizes chunks c)
    | _ => []
    end;
  cat := cat_gshapes
}.

#[export] Instance gshape_attention : AttentionOps GShape unit := {
  pool2d s := lift (pool2d_gshape s);
  call_conv1d _ c _ s := lift (conv1d_gshape c s);
  sigmoid s := s;
  view := view_gshape;
  expand_as a b := res_map (@rev Z) (expand_rev (rev a) (rev b))
}.

(** *** DepthwiseSeparableConv *)

Module DepthwiseSeparableConv.

(** An [nn.Sequential] of three modules; its forward pass is the inherited
    one. *)
Definition init (in_channels out_channels stride dilation : Z)
    (norm_layer : Z -> string -> Layer) (norm_act : string) (use_norm : bool) : Layer :=
  LSequential [
    conv3x3 in_channels in_channels stride in_channels dilation false;
    conv1x1 in_channels out_channels 1 true;
    if use_norm then norm_layer out_channels norm_act else LIdentity
  ].

End DepthwiseSeparableConv.

(** *** TBasicBlock and TBottleneck

    Both constructors take [**kwargs] and hand them to the base class, which
    fills in its defaults; the arguments are written out here.
    [kwargs.get("attn_type")] is the argument, or [None] when it is left
    out. *)

(** [nn.ReLU(inplace=True)], held as the activation named "relu". *)
Definition nn_ReLU : Layer := LActivation "relu".

(** [kwargs.get("attn_type") == "se"] *)
Definition attn_type_is_se (attn_type : option string) : bool :=
  match attn_type with
  | Some s => String.eqb s "se"
  | None => false
  end.

Module TBasicBlock.

(** The inherited attributes, and the [activation_param] written on [bn1]. *)
Record t := {
  block : BasicBlock.t;
  bn1_activation_param : Q
}.

Definition init (inplanes planes stride : Z) (downsample : option Layer)
    (groups base_width : Z) (attn_type : option string) (dilation : Z)
    (norm_layer : Z -> string -> Layer) (norm_act : string)
    (antialias : bool) (keep_prob : Q) : Res t :=
  res_bind (BasicBlock.init inplanes planes stride downsample groups base_width attn_type
                            dilation norm_layer norm_act antialias keep_prob) (fun b =>
  Ok {| block :=
          {| BasicBlock.conv1 := BasicBlock.conv1 b;
             BasicBlock.bn1 := BasicBlock.bn1 b;
             BasicBlock.conv2 := BasicBlock.conv2 b;
             BasicBlock.bn2 := BasicBlock.bn2 b;
             BasicBlock.se_module :=
               if attn_type_is_se attn_type
               then LSEModule planes (Z.max (planes / 4) 64) "relu"
               else BasicBlock.se_module b;
             BasicBlock.final_act := nn_ReLU;
             BasicBlock.downsample := BasicBlock.downsample b;
             BasicBlock.blurpool := BasicBlock.blurpool b;
             BasicBlock.antialias := BasicBlock.antialias b;
             BasicBlock.drop_connect := BasicBlock.drop_connect b |};
        bn1_activation_param := 1 # 1000 |}).

(** The forward pass is inherited from [BasicBlock]. *)
Definition forward {T W} `{Torch T W} (self : t) (training : bool) (x : T) : M W T :=
  BasicBlock.forward (block self) training x.

End TBasicBlock.

Module TBottleneck.

Record t := {
  block : Bottleneck.t;
  bn1_activation_param : Q;
  bn2_activation_param : Q
}.

Definition init (inplanes planes stride : Z) (downsample : option Layer)
    (groups base_width : Z) (attn_type : option string) (dilation : Z)
    (norm_layer : Z -> string -> Layer) (norm_act : string)
    (antialias : bool) (keep_prob : Q) : Res t :=
  res_bind (Bottleneck.init inplanes planes stride downsample groups base_width attn_type
                            dilation norm_layer norm_act antialias keep_prob) (fun b =>
  let reduce_planes := Z.max (planes * Bottleneck.expansion / 8) 64 in
  Ok {| block :=
          {| Bottleneck.conv1 := Bottleneck.conv1 b;
             Bottleneck.bn1 := Bottleneck.bn1 b;
             Bottleneck.conv2 := Bottleneck.conv2 b;
             Bottleneck.bn2 := Bottleneck.bn2 b;
             Bottleneck.conv3 := Bottleneck.conv3 b;
             Bottleneck.bn3 := Bottleneck.bn3 b;
             Bottleneck.se_module :=
               if attn_type_is_se attn_type
               then LSEModule planes reduce_planes "relu"
               else Bottleneck.se_module b;
             Bottleneck.final_act := nn_ReLU;
             Bottleneck.downsample := Bottleneck.downsample b;
             Bottleneck.blurpool := Bottleneck.blurpool b;
             Bottleneck.antialias := Bottleneck.antialias b;
             Bottleneck.drop_connect := Bottleneck.drop_connect b |};
        bn1_activation_param := 1 # 1000;
        bn2_activation_param := 1 # 1000 |}).

Definition forward {T W} `{Torch T W} (self : t) (training : bool) (x : T) : M W T :=
  let self := block self in
  residual <- match Bottleneck.downsample self with
              | Some d => call "downsample" d training x
              | None => ret x
              end ;;
  out <- call "conv1" (Bottleneck.conv1 self) training x ;;
  out <- call "bn1" (Bottleneck.bn1 self) training out ;;
  out <- call "conv2" (Bottleneck.conv2 self) training out ;;
  out <- call "bn2" (Bottleneck.bn2 self) training out ;;
  out <- (if Bottleneck.antialias self
          then call "blurpool" (Bottleneck.blurpool self) training out
          else ret out) ;;
  out <- call "se_module" (Bottleneck.se_module self) training out ;;
  out <- call "conv3" (Bottleneck.conv3 self) training out ;;
  out <- call "bn3" (Bottleneck.bn3 self) training out ;;
  out <- call "drop_connect" (Bottleneck.drop_connect self) training out ;;
  out <- add out residual ;;
  call "final_act" (Bottleneck.final_act self) training out.

End TBottleneck.

(** *** SimpleStage *)

(** The block classes of this file, as the values [block_fn] can take. *)
Inductive BlockClass :=
| InvertedResidualClass
| BasicBlockClass
| BottleneckClass
| TBasicBlockClass
| TBottleneckClass
| DarkBasicBlockClass
| CSPDarkBasicBlockClass
| SimpleBottleneckClass
| SimplePreActBottleneckClass.

Definition BasicBlock_params : list string :=
  ["inplanes"; "planes"; "stride"; "downsample"; "groups"; "base_width"; "attn_type";
   "dilation"; "norm_layer"; "norm_act"; "antialias"; "keep_prob"].

(** The keyword arguments a constructor accepts; the two TResNet classes
    pass theirs on to the base class. *)
Definition init_params (c : BlockClass) : list string :=
  match c with
  | InvertedResidualClass =>
      ["in_channels"; "out_channels"; "dw_kernel_size"; "stride"; "dilation"; "attn_type";
       "expand_ratio"; "keep_prob"; "noskip"; "norm_layer"; "norm_act"]
  | BasicBlockClass | BottleneckClass | TBasicBlockClass | TBottleneckClass =>
      BasicBlock_params
  | DarkBasicBlockClass =>
      ["in_channels"; "out_channels"; "bottle_ratio"; "attn_type"; "norm_layer"; "norm_act";
       "keep_prob"]
  | CSPDarkBasicBlockClass =>
      ["in_channels"; "out_channels"; "attn_type"; "norm_layer"; "norm_act"; "keep_prob"]
  | SimpleBottleneckClass =>
      ["in_chs"; "mid_chs"; "out_chs"; "stride"; "groups"; "groups_width"; "norm_layer";
       "norm_act"; "keep_prob"]
  | SimplePreActBottleneckClass =>
      ["in_chs"; "mid_chs"; "out_chs"; "stride"; "norm_layer"; "norm_act"; "groups";
       "groups_width"]
  end.

Definition as_block_fn (c : BlockClass) : option BlockFn :=
  match c with
  | SimpleBottleneckClass => Some SimpleBottleneckFn
  | SimplePreActBottleneckClass => Some SimplePreActBottleneckFn
  | _ => None
  end.

(** The keys of [**block_kwargs]. *)
Definition kwargs_keys (kw : BlockKwargs) : list string :=
  (match kw_groups kw with Some _ => ["groups"] | None => [] end
   ++ match kw_groups_width kw with Some _ => ["groups_width"] | None => [] end)%list.

(** Binding keyword arguments: the first one the constructor does not know
    raises [TypeError]. *)
Definition bind_keywords (params keys : list string) : Res unit :=
  match find (fun k => negb (existsb (String.eqb k) params)) keys with
  | Some k => Raise (TypeError ("__init__() got an unexpected keyword argument " ++ k))
  | None => Ok tt
  end.

(** [block_fn(in_chs=.., mid_chs=.., out_chs=.., [stride=..,] norm_layer=..,
    norm_act=.., **block_kwargs)]; [stride] is [None] when it is left out
    and the constructor's default of 1 applies. *)
Definition block_call (block_fn : BlockClass) (in_chs mid_chs out_chs : Z)
    (stride : option Z) (norm_layer : Z -> string -> Layer) (norm_act : string)
    (kw : BlockKwargs) : Res Block :=
  let keys := (["in_chs"; "mid_chs"; "out_chs"]
               ++ match stride with Some _ => ["stride"] | None => [] end
               ++ ["norm_layer"; "norm_act"] ++ kwargs_keys kw)%list in
  res_bind (bind_keywords (init_params block_fn) keys) (fun _ =>
  match as_block_fn block_fn with
  | Some fn =>
      block_built
        (block_new fn in_chs mid_chs out_chs (default 1 stride) norm_layer norm_act kw)
  | None => Raise (TypeError "__init__() missing required positional arguments")
  end).

Module SimpleStage.

Record t := { blocks : list Block }.

Definition init (in_chs out_chs num_blocks stride : Z) (bottle_ratio : PyNum)
    (antialias : bool) (block_fn : BlockClass) (attn_type : option string)
    (norm_layer : Z -> string -> Layer) (norm_act : string) (keep_prob : Q)
    (block_kwargs : BlockKwargs) : Res t :=
  res_bind (int_scaled out_chs bottle_ratio) (fun width =>
  let mid_chs := Z.max width 64 in
  res_bind (block_call block_fn in_chs mid_chs out_chs (Some stride) norm_layer norm_act
                       block_kwargs) (fun first =>
  res_bind (mapM (fun _ => block_call block_fn out_chs mid_chs out_chs None norm_layer
                                      norm_act block_kwargs)
                 (py_range (num_blocks - 1))) (fun rest =>
  Ok {| blocks := first :: rest |}))).

Definition forward {T W} `{Torch T W} (self : t) (training : bool) (x : T) : M W T :=
  sequential (blocks self) training x.

End SimpleStage.

(** * Properties *)

(** ** Results and the monad *)

Lemma bind_ok {W A B} (m : M W A) (k : A -> M W B) w a w' :
  m w = Ok (a, w') -> bind m k w = k a w'.
Proof. intros E. unfold bind. now rewrite E. Qed.

(** ** Attention lookup *)

Lemma lower_char_cases (b c : ascii) :
  is_lower c = true -> lower_char b = c -> b = c \/ b = upper_char c.
Proof.
  intros Hc <-.
  destruct b as [[] [] [] [] [] [] [] []]; vm_compute in Hc |- *;
    first [discriminate Hc | now left | now right].
Qed.

Lemma ATT_TO_MODULE_keys (k : string) (cls : AttnClass) :
  ATT_TO_MODULE !! k = Some cls -> In (k, cls) attention_names.
Proof.
  unfold ATT_TO_MODULE, attention_names. intros H.
  repeat (apply lookup_insert_Some in H as [[<- <-] | [_ H]]; [simpl; tauto |]).
  now rewrite lookup_empty in H.
Qed.

Lemma lower_is_name (s name : string) (cls : AttnClass) :
  In (name, cls) attention_names -> lower s = name -> In s (letter_cases name).
Proof.
  unfold attention_names. simpl.
  intros [E | [E | [E | [E | []]]]]; inversion E; subst name cls; clear E; intros H;
    repeat match type of H with
    | lower ?s = String _ _ =>
        destruct s as [| ? s]; simpl in H; [discriminate H | injection H as ? H]
    end;
    (destruct s; simpl in H; [clear H | discriminate H]);
    repeat match goal with
    | E : lower_char _ = _ |- _ => apply lower_char_cases in E; [| reflexivity]; destruct E; subst
    end;
    vm_compute; tauto.
Qed.

(** C2: [get_attn] maps "se", "eca", "sse" and "scse", spelt in any letter
    case, to [SEModule], [ECAModule], [SSEModule] and [SCSEModule]; it maps
    the absent name to [nn.Identity], whose instances return their input
    unchanged on every engine; and it raises [KeyError] for every other
    string. *)
Theorem C2_get_attn_lookup :
  (forall name cls s,
      In (name, cls) attention_names -> In s (letter_cases name) ->
      get_attn (Some s) = Ok cls) /\
  (get_attn None = Ok Identity /\
   forall T W (A : TensorArith T W) (ext : Layer -> bool -> T -> M W T)
          (channels reduction_channels : Z) (norm_act : option string)
          (training : bool) (x : T) (w : W),
     call_module ext (attn_new Identity channels reduction_channels norm_act) training x w
     = Ok (x, w)) /\
  (forall s,
      (forall name cls, In (name, cls) attention_names -> ~ In s (letter_cases name)) ->
      get_attn (Some s) = Raise (KeyError (lower s))).
Proof.
  split; [| split; [split |]].
  - unfold attention_names. simpl.
    intros name cls s [E | [E | [E | [E | []]]]]; inversion E; subst name cls; clear E;
      simpl; intros H;
      repeat (destruct H as [<- | H]; [vm_compute; reflexivity |]); destruct H.
  - reflexivity.
  - reflexivity.
  - intros s Hs. unfold get_attn.
    destruct (ATT_TO_MODULE !! lower s) as [cls |] eqn:E; [| reflexivity].
    exfalso. apply ATT_TO_MODULE_keys in E.
    apply (Hs (lower s) cls E). now apply (lower_is_name s (lower s) cls).
Qed.

Lemma C2_get_attn_lookup_witness :
  get_attn (Some "ScSe") = Ok SCSEModule /\
  get_attn (Some "resnet") = Raise (KeyError "resnet").
Proof.
  split.
  - apply (proj1 C2_get_attn_lookup "scse" SCSEModule "ScSe"); vm_compute; tauto.
  - apply (proj2 (proj2 C2_get_attn_lookup) "resnet").
    intros name cls H. vm_compute in H.
    destruct H as [E | [E | [E | [E | []]]]]; inversion E; subst; vm_compute;
      intros F; repeat (destruct F as [F | F]; [discriminate F |]); exact F.
Defined.

(** ** DropConnect in inference mode *)

(** C3: with the training flag off, [DropConnect.forward] returns its input
    unchanged and leaves the engine's state alone, for every keep
    probability, every tensor and every engine; so does the [drop_connect]
    attribute of a block, whichever of [DropConnect] and [nn.Identity] the
    constructor chose for it. *)
Theorem C3_drop_connect_inference_identity :
  forall T W (A : TensorArith T W) (keep_prob : Q) (x : T) (w : W),
    DropConnect.forward (DropConnect.init keep_prob) false x w = Ok (x, w) /\
    forall ext : Layer -> bool -> T -> M W T,
      call_module ext (new_drop_connect keep_prob) false x w = Ok (x, w).
Proof.
  intros. split; [reflexivity |].
  intros ext. unfold new_drop_connect. destruct (Qltb keep_prob 1); reflexivity.
Qed.

(** ** CSPDarkBasicBlock cannot be constructed *)

Lemma bottle_ratio_unbound : load_global "bottle_ratio" = Raise (NameError "bottle_ratio").
Proof. vm_compute. reflexivity. Qed.

(** C9: the constructor of [CSPDarkBasicBlock] raises [NameError] for
    [bottle_ratio] whatever its arguments, so no instance exists on which a
    forward pass could run. *)
Theorem C9_CSPDarkBasicBlock_init_raises :
  forall (in_channels out_channels : Z) (attn_type : option string)
         (norm_layer : Z -> string -> Layer) (norm_act : string) (keep_prob : Q),
    CSPDarkBasicBlock.init in_channels out_channels attn_type norm_layer norm_act keep_prob
    = Raise (NameError "bottle_ratio").
Proof.
  intros. unfold CSPDarkBasicBlock.init. now rewrite bottle_ratio_unbound.
Qed.

(** ** CrossStage outside its two split ratios *)

Lemma Qeq_bool_false (a b : Q) : ~ (a == b)%Q -> Qeq_bool a b = false.
Proof.
  intros H. destruct (Qeq_bool a b) eqn:E; [| reflexivity].
  exfalso. apply H. now apply Qeq_bool_iff.
Qed.

(** C10: when [csp_block_ratio] is neither 0.5 nor 0.75, neither branch of
    the split binds [x1] and [x2]; on every engine the forward pass then
    raises: the error of the first block if that one fails, and otherwise
    [UnboundLocalError] at the first read of [x2].  It never returns a
    tensor. *)
Theorem C10_CrossStage_unbound_split :
  forall T W (E : Torch T W) (C : ChannelOps T) (self : CrossStage.t)
         (training : bool) (x : T) (w : W),
    ~ (CrossStage.csp_block_ratio self == 1 # 2)%Q ->
    ~ (CrossStage.csp_block_ratio self == 3 # 4)%Q ->
    CrossStage.forward self training x w =
      match block_forward (CrossStage.first_layer self) training x w with
      | Ok _ => Raise (UnboundLocalError "x2")
      | Raise e => Raise e
      end /\
    succeeds (CrossStage.forward self training x w) = false.
Proof.
  intros T W E C self training x w H1 H2.
  apply Qeq_bool_false in H1. apply Qeq_bool_false in H2.
  assert (Heq : CrossStage.forward self training x w =
      match block_forward (CrossStage.first_layer self) training x w with
      | Ok _ => Raise (UnboundLocalError "x2")
      | Raise e => Raise e
      end).
  { unfold CrossStage.forward, bind.
    destruct (block_forward (CrossStage.first_layer self) training x w) as [[y w'] | e];
      [| reflexivity].
    rewrite H1, H2. reflexivity. }
  split; [exact Heq |].
  rewrite Heq.
  now destruct (block_forward (CrossStage.first_layer self) training x w).
Qed.

Lemma C10_CrossStage_unbound_split_witness :
  CrossStage.forward
    (CrossStage.init 3 64 3 2 (1 # 2) false SimpleBottleneckFn None ABN "leaky_relu" 1
                     (1 # 4) true no_kwargs)
    false {| dimN := 2; dimC := 3; dimH := 32; dimW := 32 |} tt
  = Raise (UnboundLocalError "x2").
Proof.
  refine (eq_trans (proj1 (C10_CrossStage_unbound_split Shape unit _ _
    (CrossStage.init 3 64 3 2 (1 # 2) false SimpleBottleneckFn None ABN "leaky_relu" 1
                     (1 # 4) true no_kwargs)
    false {| dimN := 2; dimC := 3; dimH := 32; dimW := 32 |} tt _ _)) _).
  - simpl. intros H. vm_compute in H. discriminate H.
  - simpl. intros H. vm_compute in H. discriminate H.
  - vm_compute. reflexivity.
Defined.

(** ** When the residual addition happens *)

Section ResidualRule.

Variable training : bool.




End ResidualRule.

(** What a convolution that was built satisfies. *)
Lemma Conv2d_check_ok (c : Conv2d) (u : unit) :
  Conv2d_check c = Ok u ->
  0 < groups c /\ (groups c | in_channels c) /\ (groups c | out_channels c) /\
  0 <= in_channels c /\ 0 <= out_channels c.
Proof.
  unfold Conv2d_check.
  destruct (groups c <=? 0) eqn:Hg; [discriminate |].
  destruct (in_channels c mod groups c =? 0) eqn:Hi; [| discriminate].
  destruct (out_channels c mod groups c =? 0) eqn:Ho; [| discriminate].
  destruct ((out_channels c <? 0) || (in_channels c <? 0)) eqn:Hn; [discriminate |].
  intros _. apply Z.leb_gt in Hg. apply Z.eqb_eq in Hi, Ho.
  apply orb_false_iff in Hn as [Hn1 Hn2]. apply Z.ltb_ge in Hn1, Hn2.
  repeat split; try assumption.
  - apply Z.mod_divide; [lia | exact Hi].
  - apply Z.mod_divide; [lia | exact Ho].
Qed.

Lemma Conv2d_check_pass (c : Conv2d) :
  0 < groups c -> (groups c | in_channels c) -> (groups c | out_channels c) ->
  0 <= in_channels c -> 0 <= out_channels c ->
  Conv2d_check c = Ok tt.
Proof.
  intros Hg Hi Ho Hni Hno. unfold Conv2d_check.
  replace (groups c <=? 0) with false by (symmetry; apply Z.leb_gt; lia).
  apply Z.mod_divide in Hi, Ho; try lia.
  rewrite Hi, Ho. cbn [Z.eqb negb].
  replace (out_channels c <? 0) with false by (symmetry; apply Z.ltb_ge; lia).
  replace (in_channels c <? 0) with false by (symmetry; apply Z.ltb_ge; lia).
  reflexivity.
Qed.

Lemma built_ok (l l' : Layer) : built l = Ok l' -> l' = l.
Proof.
  destruct l; cbn; try (intros E; injection E as <-; reflexivity).
  - destruct (Conv2d_check c); cbn; [intros E; injection E as <-; reflexivity | discriminate].
  - destruct (num_features <? 0); [discriminate | intros E; injection E as <-; reflexivity].
Qed.

Lemma built_ABN (n : Z) (activation : string) :
  0 <= n -> built (ABN n activation) = Ok (ABN n activation).
Proof.
  intros Hn. cbn. now replace (n <? 0) with false by (symmetry; apply Z.ltb_ge; exact Hn).
Qed.

Lemma built_conv (c : Conv2d) (l : Layer) :
  built (LConv2d c) = Ok l -> Conv2d_check c = Ok tt.
Proof. cbn. destruct (Conv2d_check c) as [[] |]; [reflexivity | discriminate]. Qed.

(** The constructor of [DarkBasicBlock], once it has returned. *)
Lemma DarkBasicBlock_init_ok (i o : Z) (ratio : PyNum) (attn_type : option string)
    (nl : Z -> string -> Layer) (na : string) (kp : Q) (b : DarkBasicBlock.t) :
  DarkBasicBlock.init i o ratio attn_type nl na kp = Ok b ->
  exists mid attn,
    int_scaled i ratio = Ok mid /\ get_attn attn_type = Ok attn /\
    (32 | mid) /\ (32 | o) /\ 0 <= i /\ 0 <= mid /\ 0 <= o /\
    b = {| DarkBasicBlock.bn1 := nl mid na;
           DarkBasicBlock.conv1 := conv1x1 i mid 1 false;
           DarkBasicBlock.bn2 := nl o na;
           DarkBasicBlock.conv2 := conv3x3 mid o 1 32 1 false;
           DarkBasicBlock.attention := attn_new attn o (o / 4) None;
           DarkBasicBlock.drop_connect := new_drop_connect kp |}.
Proof.
  unfold DarkBasicBlock.init. intros Hinit.
  destruct (int_scaled i ratio) as [mid |]; [| discriminate]. cbn [res_bind] in Hinit.
  destruct (built (nl mid na)) as [n1 |] eqn:N1; [| discriminate].
  cbn [res_bind] in Hinit.
  destruct (built (conv1x1 i mid 1 false)) as [c1 |] eqn:E1; [| discriminate].
  cbn [res_bind] in Hinit.
  destruct (built (nl o na)) as [n2 |] eqn:N2; [| discriminate].
  cbn [res_bind] in Hinit.
  destruct (built (conv3x3 mid o 1 32 1 false)) as [c2 |] eqn:E2; [| discriminate].
  cbn [res_bind] in Hinit.
  destruct (get_attn attn_type) as [attn |]; [| discriminate].
  cbn [res_bind] in Hinit. injection Hinit as <-.
  pose proof (built_ok _ _ E1) as ->. pose proof (built_ok _ _ E2) as ->.
  pose proof (built_ok _ _ N1) as ->. pose proof (built_ok _ _ N2) as ->.
  apply built_conv, Conv2d_check_ok in E1, E2. cbn in E1, E2.
  exists mid, attn. repeat split; try reflexivity; tauto.
Qed.






(** ** The data path of DarkBasicBlock *)

(** C5: on the tracing engine the forward pass of any [DarkBasicBlock] first
    calls [bn1] on the input, then computes
    [drop_connect(attention(conv2(bn2(conv1(x))))) + x]: [conv1] reads the
    raw input, the value of [bn1(x)] occurs nowhere in the output, and the
    addition is the last step.  On every engine the result of [bn1(x)] is
    dropped: only its failure or its effect on the engine's state is seen.
    In a block that its constructor has returned, [bn1] is built for the
    width [mid = int(in_channels * bottle_ratio)], [conv1] is the 1x1
    convolution from [in_channels] to [mid] and [conv2] the 3x3 convolution
    from [mid] to [out_channels]. *)
Theorem C5_DarkBasicBlock_data_path :
  (forall (b : DarkBasicBlock.t) (training : bool),
      let branch :=
        ECall "drop_connect" (DarkBasicBlock.drop_connect b)
          (ECall "attention" (DarkBasicBlock.attention b)
            (ECall "conv2" (DarkBasicBlock.conv2 b)
              (ECall "bn2" (DarkBasicBlock.bn2 b)
                (ECall "conv1" (DarkBasicBlock.conv1 b) EInput)))) in
      res_map fst (run (DarkBasicBlock.forward b training)) = Ok (EAdd branch EInput) /\
      res_map (fun r => head (snd r)) (run (DarkBasicBlock.forward b training))
      = Ok (Some (EvCall "bn1" (DarkBasicBlock.bn1 b) EInput)) /\
      res_map (fun r => last (snd r)) (run (DarkBasicBlock.forward b training))
      = Ok (Some (EvAdd branch EInput)) /\
      mentions "bn1" (EAdd branch EInput) = false) /\
  (forall T W (E : Torch T W) (b : DarkBasicBlock.t) (training : bool) (x : T) (w : W),
      DarkBasicBlock.forward b training x w =
        match call "bn1" (DarkBasicBlock.bn1 b) training x w with
        | Raise e => Raise e
        | Ok (_, w1) =>
            (out <- call "conv1" (DarkBasicBlock.conv1 b) training x ;;
             out <- call "bn2" (DarkBasicBlock.bn2 b) training out ;;
             out <- call "conv2" (DarkBasicBlock.conv2 b) training out ;;
             out <- call "attention" (DarkBasicBlock.attention b) training out ;;
             out <- call "drop_connect" (DarkBasicBlock.drop_connect b) training out ;;
             add out x) w1
        end) /\
  (forall i o ratio attn_type nl na kp (b : DarkBasicBlock.t),
      DarkBasicBlock.init i o ratio attn_type nl na kp = Ok b ->
      exists mid,
        int_scaled i ratio = Ok mid /\
        DarkBasicBlock.bn1 b = nl mid na /\
        DarkBasicBlock.conv1 b = conv1x1 i mid 1 false /\
        DarkBasicBlock.conv2 b = conv3x3 mid o 1 32 1 false).
Proof.
  split; [| split].
  - intros b training. cbv zeta. repeat split.
  - intros T W E b training x w. unfold DarkBasicBlock.forward at 1.
    unfold bind at 1.
    destruct (call "bn1" (DarkBasicBlock.bn1 b) training x w) as [[t w1] |]; reflexivity.
  - intros i o ratio attn_type nl na kp b Hinit.
    destruct (DarkBasicBlock_init_ok _ _ _ _ _ _ _ _ Hinit)
      as (mid & attn & Hmid & _ & _ & _ & _ & _ & _ & ->).
    exists mid. repeat split. exact Hmid.
Qed.

Lemma C5_DarkBasicBlock_data_path_witness :
  res_map (fun b => (DarkBasicBlock.bn1 b, DarkBasicBlock.conv1 b, DarkBasicBlock.conv2 b))
          (DarkBasicBlock.init 64 64 (float_lit (1 # 2)) None ABN "leaky_relu" 1)
  = Ok (ABN 32 "leaky_relu", conv1x1 64 32 1 false, conv3x3 32 64 1 32 1 false).
Proof.
  destruct (DarkBasicBlock.init 64 64 (float_lit (1 # 2)) None ABN "leaky_relu" 1)
    as [b |] eqn:E; [| discriminate E].
  destruct (proj2 (proj2 C5_DarkBasicBlock_data_path) 64 64 (float_lit (1 # 2)) None ABN
              "leaky_relu" 1%Q b E) as (mid & Hmid & H0 & H1 & H2).
  cbn [res_map res_bind]. rewrite H0, H1, H2.
  assert (Hm : mid = 32) by (vm_compute in Hmid; now injection Hmid as <-).
  now rewrite Hm.
Defined.

(** ** The order of operations in InvertedResidual *)

(** C8: a constructed [InvertedResidual] computes, in this order: the 1x1
    expansion [conv_pw] and its normalisation [bn1] (only when
    [expand_ratio != 1]); the depthwise convolution [conv_dw] and [bn2]; the
    attention module [se]; the 1x1 projection [conv_pw1]; the normalisation
    [bn3], built with the "identity" activation; and, only when the residual
    is enabled, [drop_connect] on the branch followed by the addition of the
    input.  Nothing is applied after that addition. *)
Theorem C8_InvertedResidual_order :
  forall (md : Q -> Z) (i o k s d : Z) (attn_type : option string) (e kp : Q)
         (noskip : bool) (nl : Z -> string -> Layer) (na : string) (training : bool),
    let mid := md (inject_Z i * e)%Q in
    let pre :=
      if Qeq_bool e 1 then EInput
      else ECall "bn1" (nl mid na) (ECall "conv_pw" (conv1x1 i mid 1 false) EInput) in
    let branch attn :=
      ECall "bn3" (nl o "identity")
        (ECall "conv_pw1" (conv1x1 mid o 1 false)
          (ECall "se" (attn_new attn mid (i / 4) (Some na))
            (ECall "bn2" (nl mid na)
              (ECall "conv_dw" (nn_Conv2d mid mid k s (d * (k - 1) / 2) d mid false) pre)))) in
    res_bind (InvertedResidual.init md i o k s d attn_type e kp noskip nl na)
             (fun b => res_map fst (run (InvertedResidual.forward b training)))
    = res_map (fun attn =>
                 if (i =? o) && (s =? 1) && negb noskip
                 then EAdd (ECall "drop_connect" (new_drop_connect kp) (branch attn)) EInput
                 else branch attn)
              (get_attn attn_type).
Proof.
  intros. unfold InvertedResidual.init.
  destruct (get_attn attn_type) as [attn |]; [| reflexivity].
  subst pre branch mid. unfold run, InvertedResidual.forward. simpl.
  destruct (Qeq_bool e 1), ((i =? o) && (s =? 1) && negb noskip); reflexivity.
Qed.

(** ** Anti-aliasing in BasicBlock and Bottleneck *)

Lemma py_assert_ok (c : bool) (msg : string) (u : unit) : py_assert c msg = Ok u -> c = true.
Proof. unfold py_assert. now destruct c. Qed.

Lemma conv_out_blur_after (size d : Z) :
  conv_out (conv_out size 3 1 d d) 3 2 1 1 = conv_out size 3 2 d d.
Proof. unfold conv_out. rewrite Z.div_1_r. f_equal. f_equal. lia. Qed.

Lemma conv_out_stride1 (size d : Z) : conv_out size 3 1 d d = size.
Proof. unfold conv_out. rewrite Z.div_1_r. lia. Qed.

Lemma conv_out_stride2_small (size d : Z) : (conv_out size 3 2 d d <=? 0) = (size <=? 0).
Proof.
  unfold conv_out. replace (size + 2 * d - d * (3 - 1) - 1) with (size - 1) by lia.
  destruct (Z.leb_spec size 0) as [H | H]; [apply Z.leb_le | apply Z.leb_gt].
  - assert ((size - 1) / 2 < 0) by (apply Z.div_lt_upper_bound; lia). lia.
  - assert (0 <= (size - 1) / 2) by (apply Z.div_pos; lia). lia.
Qed.

(** On shapes, the de-strided 3x3 convolution followed by its normalisation
    and the low-pass filter is the strided convolution followed by its
    normalisation. *)
Lemma blur_carries_stride (inplanes planes g d : Z) (act : string)
    (training : bool) (x : Shape) :
  (y <- call "conv" (conv3x3 inplanes planes 1 g d false) training x ;;
   y <- call "bn" (ABN planes act) training y ;;
   call "blurpool" (LBlurPool planes) training y) tt
  = (y <- call "conv" (conv3x3 inplanes planes 2 g d false) training x ;;
     call "bn" (ABN planes act) training y) tt.
Proof.
  unfold bind, call, shape_torch, call_module, conv3x3, nn_Conv2d, ABN, shape_ext, lift,
    conv_shape; cbn [in_channels out_channels kernel_size stride padding dilation].
  destruct (negb (dimC x =? inplanes)); [reflexivity |].
  cbn [Z.leb Z.compare].
  rewrite !conv_out_stride1, !conv_out_stride2_small.
  destruct ((dimH x <=? 0) || (dimW x <=? 0)); [reflexivity |].
  unfold check_channels, blurpool_shape; cbn [dimN dimC dimH dimW].
  rewrite Z.eqb_refl. cbn [dimN dimC dimH dimW].
  rewrite <- !(conv_out_blur_after _ d), !conv_out_stride1. reflexivity.
Qed.

(** C6, as the code has it: anti-aliasing is in effect exactly when it is
    requested and the stride is 2.  Then the convolution that would have
    strided ([conv1] of [BasicBlock], [conv2] of [Bottleneck]) is built with
    stride 1 and the low-pass filter is applied after that convolution and
    its normalisation, in front of the next convolution, which has stride 1;
    on shapes the filter yields what the strided convolution would have.
    Otherwise the convolution keeps the requested stride, the [blurpool]
    attribute is an identity and is not called. *)
Theorem C6_antialias_placement :
  (forall inplanes planes s downsample groups base_width attn_type d nl na antialias kp
          (training : bool) (b : BasicBlock.t),
      BasicBlock.init inplanes planes s downsample groups base_width attn_type d nl na
                      antialias kp = Ok b ->
      let aa := antialias && (s =? 2) in
      let pre := ECall "bn1" (nl planes na)
                   (ECall "conv1" (conv3x3 inplanes planes (if aa then 1 else s) 1 d false)
                          EInput) in
      let main := ECall "bn2" (BasicBlock.bn2 b)
                    (ECall "conv2" (conv3x3 planes (planes * 1) 1 1 1 false)
                       (if aa then ECall "blurpool" (LBlurPool planes) pre else pre)) in
      let residual := match downsample with
                      | Some m => ECall "downsample" m EInput
                      | None => EInput
                      end in
      BasicBlock.antialias b = aa /\
      BasicBlock.blurpool b = (if aa then LBlurPool planes else LIdentity) /\
      res_map fst (run (BasicBlock.forward b training))
      = Ok (ECall "final_act" (BasicBlock.final_act b)
              (EAdd (ECall "drop_connect" (BasicBlock.drop_connect b)
                       (ECall "se_module" (BasicBlock.se_module b) main)) residual)) /\
      res_map (fun r => called "blurpool" (snd r)) (run (BasicBlock.forward b training))
      = Ok aa) /\
  (forall inplanes planes s downsample groups base_width attn_type d nl na antialias kp
          (training : bool) (b : Bottleneck.t),
      Bottleneck.init inplanes planes s downsample groups base_width attn_type d nl na
                      antialias kp = Ok b ->
      let aa := antialias && (s =? 2) in
      let width := py_floor (inject_Z planes * (inject_Z base_width / 64))%Q * groups in
      let pre := ECall "bn2" (nl width na)
                   (ECall "conv2" (conv3x3 width width (if aa then 1 else s) groups d false)
                      (ECall "bn1" (Bottleneck.bn1 b)
                         (ECall "conv1" (Bottleneck.conv1 b) EInput))) in
      let main := ECall "bn3" (Bottleneck.bn3 b)
                    (ECall "conv3" (conv1x1 width (planes * 4) 1 false)
                       (if aa then ECall "blurpool" (LBlurPool width) pre else pre)) in
      let residual := match downsample with
                      | Some m => ECall "downsample" m EInput
                      | None => EInput
                      end in
      Bottleneck.antialias b = aa /\
      Bottleneck.blurpool b = (if aa then LBlurPool width else LIdentity) /\
      res_map fst (run (Bottleneck.forward b training))
      = Ok (ECall "final_act" (Bottleneck.final_act b)
              (EAdd (ECall "drop_connect" (Bottleneck.drop_connect b)
                       (ECall "se_module" (Bottleneck.se_module b) main)) residual)) /\
      res_map (fun r => called "blurpool" (snd r)) (run (Bottleneck.forward b training))
      = Ok aa) /\
  (forall inplanes planes groups d act (training : bool) (x : Shape),
      (y <- call "conv" (conv3x3 inplanes planes 1 groups d false) training x ;;
       y <- call "bn" (ABN planes act) training y ;;
       call "blurpool" (LBlurPool planes) training y) tt
      = (y <- call "conv" (conv3x3 inplanes planes 2 groups d false) training x ;;
         call "bn" (ABN planes act) training y) tt).
Proof.
  split; [| split].
  - intros inplanes planes s downsample groups base_width attn_type d nl na antialias kp
      training b. unfold BasicBlock.init.
    destruct (py_assert (groups =? 1) _) as [[] |] eqn:Hg; [| discriminate].
    apply py_assert_ok in Hg. apply Z.eqb_eq in Hg. subst groups.
    destruct (py_assert (base_width =? 64) _) as [[] |]; [| discriminate].
    destruct (get_attn attn_type) as [attn |]; [| discriminate].
    simpl. intros [= <-]. unfold run, BasicBlock.forward. simpl.
    destruct (antialias && (s =? 2)), downsample; repeat split.
  - intros inplanes planes s downsample groups base_width attn_type d nl na antialias kp
      training b. unfold Bottleneck.init.
    destruct (get_attn attn_type) as [attn |]; [| discriminate].
    simpl. intros [= <-]. unfold run, Bottleneck.forward. simpl.
    destruct (antialias && (s =? 2)), downsample; repeat split.
  - intros. apply blur_carries_stride.
Qed.

Lemma C6_antialias_placement_witness :
  res_map (fun b => res_map fst (run (BasicBlock.forward b false)))
    (BasicBlock.init 64 64 2 (Some (conv1x1 64 64 2 false)) 1 64 None 1 ABN "relu" true 1%Q)
  = Ok (Ok
      (ECall "final_act" (LActivation "relu")
        (EAdd
          (ECall "drop_connect" LIdentity
            (ECall "se_module" LIdentity
              (ECall "bn2" (LABN 64 "identity")
                (ECall "conv2" (conv3x3 64 64 1 1 1 false)
                  (ECall "blurpool" (LBlurPool 64)
                    (ECall "bn1" (LABN 64 "relu")
                      (ECall "conv1" (conv3x3 64 64 1 1 1 false) EInput)))))))
          (ECall "downsample" (conv1x1 64 64 2 false) EInput)))) /\
  res_map (fun b => res_map (fun r => called "blurpool" (snd r))
                            (run (Bottleneck.forward b false)))
    (Bottleneck.init 64 16 1 None 1 64 None 1 ABN "relu" true 1%Q)
  = Ok (Ok false).
Proof.
  split.
  - destruct (BasicBlock.init 64 64 2 (Some (conv1x1 64 64 2 false)) 1 64 None 1 ABN "relu"
                true 1%Q) as [b |] eqn:E; [| discriminate E].
    simpl.
    destruct (proj1 C6_antialias_placement 64 64 2 (Some (conv1x1 64 64 2 false)) 1 64 None 1
                ABN "relu" true 1%Q false b E) as (_ & _ & H & _).
    rewrite H. injection E as <-. reflexivity.
  - destruct (Bottleneck.init 64 16 1 None 1 64 None 1 ABN "relu" true 1%Q)
      as [b |] eqn:E; [| discriminate E].
    simpl.
    destruct (proj1 (proj2 C6_antialias_placement) 64 16 1 None 1 64 None 1
                ABN "relu" true 1%Q false b E) as (_ & _ & _ & H).
    rewrite H. reflexivity.
Defined.

(** C6, counterexample: in a [BasicBlock] and in a [Bottleneck] built with
    stride 2 and anti-aliasing requested, the low-pass filter is applied, but
    no convolution with a stride other than 1 is applied after it: the
    filter follows the de-strided convolution, and the convolution it feeds
    has stride 1. *)
Lemma C6_antialias_placement_counterexample :
  res_map (fun b =>
             (BasicBlock.antialias b,
              res_map (fun r => (has_blur (fst r), blur_before_strided_conv (fst r)))
                      (run (BasicBlock.forward b false))))
          (BasicBlock.init 64 128 2 (Some (conv1x1 64 128 2 false)) 1 64 None 1 ABN "relu"
                           true 1%Q)
  = Ok (true, Ok (true, false)) /\
  res_map (fun b =>
             (Bottleneck.antialias b,
              res_map (fun r => (has_blur (fst r), blur_before_strided_conv (fst r)))
                      (run (Bottleneck.forward b false))))
          (Bottleneck.init 64 32 2 (Some (conv1x1 64 128 2 false)) 1 64 None 1 ABN "relu"
                           true 1%Q)
  = Ok (true, Ok (true, false)).
Proof. split; vm_compute; reflexivity. Qed.

(** ** DropConnect in training mode, on binary32 tensors *)




Section Scaling.

Variable keep_prob : Q.

Let kp : float32 := f32_scalar keep_prob.





End Scaling.





(** *** Rounding

    The number of binary digits of a mantissa and the right shift that keeps
    the two bits used for rounding; from them, the bound on a rounded
    binary32 sum, the canonical form of every binary32 quotient, and the
    exact binary64 product of a small [int] and 0.5. *)

Lemma digits2_bounds (p : positive) :
  2 ^ (Z.pos (digits2_pos p) - 1) <= Z.pos p < 2 ^ Z.pos (digits2_pos p).
Proof.
  induction p as [p IH | p IH |]; cbn [digits2_pos]; [| | cbn; lia];
    rewrite Pos2Z.inj_succ;
    replace (Z.succ (Z.pos (digits2_pos p)) - 1) with (Z.succ (Z.pos (digits2_pos p) - 1)) by lia;
    rewrite !Z.pow_succ_r by lia; lia.
Qed.

Lemma shr_1_m (mrs : shr_record) : 0 <= shr_m mrs -> shr_m (shr_1 mrs) = shr_m mrs / 2.
Proof.
  destruct mrs as [[| [p | p |] | p] r s]; cbn [shr_m shr_1]; intros H;
    try lia; rewrite <- Z.div2_div; reflexivity.
Qed.

Lemma shr_1_r (mrs : shr_record) : 0 <= shr_m mrs -> shr_r (shr_1 mrs) = Z.odd (shr_m mrs).
Proof.
  destruct mrs as [[| [p | p |] | p] r s]; cbn [shr_m shr_r shr_1]; intros H;
    try lia; reflexivity.
Qed.

Lemma shr_1_s (mrs : shr_record) : shr_s (shr_1 mrs) = shr_r mrs || shr_s mrs.
Proof. destruct mrs as [[| [p | p |] | [p | p |]] r s]; reflexivity. Qed.

Lemma iter_pos_nat {A} (f : A -> A) (p : positive) (x : A) :
  SpecFloat.iter_pos f p x = Nat.iter (Pos.to_nat p) f x.
Proof.
  revert x. induction p as [p IH | p IH |]; intros x; cbn [SpecFloat.iter_pos].
  - rewrite !IH, Pos2Nat.inj_xI. rewrite <- Nat.iter_add.
    replace (S (2 * Pos.to_nat p)) with (S (Pos.to_nat p + Pos.to_nat p)) by lia.
    now rewrite Nat.iter_succ_r.
  - rewrite !IH, Pos2Nat.inj_xO. rewrite <- Nat.iter_add.
    now replace (2 * Pos.to_nat p)%nat with (Pos.to_nat p + Pos.to_nat p)%nat by lia.
  - reflexivity.
Qed.

(** [k] right shifts divide by [2^k]; the two rounding bits are clear when
    the division is exact. *)
Lemma shr_iter (k : nat) (M : Z) :
  0 <= M ->
  let mrs := Nat.iter k shr_1 {| shr_m := M; shr_r := false; shr_s := false |} in
  shr_m mrs = M / 2 ^ Z.of_nat k /\
  (M mod 2 ^ Z.of_nat k = 0 -> shr_r mrs = false /\ shr_s mrs = false).
Proof.
  intros HM. induction k as [| k IH].
  - cbn. rewrite Z.div_1_r. tauto.
  - cbn zeta in IH |- *. rewrite Nat.iter_succ.
    set (mrs := Nat.iter k shr_1 _) in *.
    destruct IH as [Hm Hrs].
    assert (Hp : 0 < 2 ^ Z.of_nat k) by (apply Z.pow_pos_nonneg; lia).
    assert (H0 : 0 <= shr_m mrs) by (rewrite Hm; apply Z.div_pos; lia).
    rewrite Nat2Z.inj_succ, Z.pow_succ_r by lia.
    rewrite shr_1_m, shr_1_r, shr_1_s by exact H0. split.
    + rewrite Hm, Z.div_div by lia. f_equal. lia.
    + intros Hmod. apply Z.mod_divide in Hmod; [| lia].
      destruct Hmod as [q Hq].
      assert (Hk : M mod 2 ^ Z.of_nat k = 0).
      { apply Z.mod_divide; [lia |]. exists (2 * q). lia. }
      destruct (Hrs Hk) as [-> ->]. split; [| reflexivity].
      rewrite Hm. replace M with (2 * q * 2 ^ Z.of_nat k) by lia.
      rewrite Z.div_mul by lia. rewrite Z.odd_mul. reflexivity.
Qed.


Lemma pow2_split (a b : Z) : 0 <= a -> 0 <= b -> 2 ^ (a + b) = 2 ^ a * 2 ^ b.
Proof. intros. now apply Z.pow_add_r. Qed.




Lemma shr_some (M e n : Z) :
  0 <= M -> 0 < n ->
  exists mrs,
    shr {| shr_m := M; shr_r := false; shr_s := false |} e n = (mrs, e + n) /\
    shr_m mrs = M / 2 ^ n /\
    (M mod 2 ^ n = 0 -> shr_r mrs = false /\ shr_s mrs = false).
Proof.
  intros HM Hn. destruct n as [| p |]; try lia.
  unfold shr. rewrite iter_pos_nat.
  pose proof (shr_iter (Pos.to_nat p) M HM) as H. cbn zeta in H.
  rewrite positive_nat_Z in H. eexists. split; [reflexivity | exact H].
Qed.


Lemma shl_align_le (m : positive) (e e' : Z) :
  e' <= e ->
  exists p, shl_align m e e' = (p, e') /\ Z.pos p = Z.pos m * 2 ^ (e - e').
Proof.
  intros H. unfold shl_align. destruct (e' - e) as [| d | d] eqn:Hd; try lia.
  - exists m. replace e' with e by lia. rewrite Z.sub_diag. split; [reflexivity | lia].
  - exists (Pos.iter xO m d). split; [reflexivity |].
    change (Pos.iter xO m d) with (shift_pos d m).
    rewrite shift_pos_correct, Z.pow_pos_fold.
    replace (e - e') with (Z.pos d) by lia. lia.
Qed.






Lemma digits2_unique (p : positive) (d : Z) :
  2 ^ (d - 1) <= Z.pos p < 2 ^ d -> Z.pos (digits2_pos p) = d.
Proof.
  intros [H1 H2]. pose proof (digits2_bounds p) as [B1 B2].
  assert (0 < d).
  { destruct (Z_lt_le_dec 0 d) as [H | H]; [exact H |].
    assert (2 ^ d <= 2 ^ 0) by (apply Z.pow_le_mono_r; lia). lia. }
  assert (Z.pos (digits2_pos p) - 1 < d).
  { apply (Z.pow_lt_mono_r_iff 2); lia. }
  assert (d - 1 < Z.pos (digits2_pos p)).
  { apply (Z.pow_lt_mono_r_iff 2); lia. }
  lia.
Qed.

Lemma digits2_shift (p q : positive) (k : Z) :
  0 <= k -> Z.pos q = Z.pos p * 2 ^ k ->
  Z.pos (digits2_pos q) = Z.pos (digits2_pos p) + k.
Proof.
  intros Hk Hq. pose proof (digits2_bounds p) as [B1 B2].
  assert (0 < 2 ^ k) by (apply Z.pow_pos_nonneg; lia).
  apply digits2_unique. rewrite Hq.
  replace (Z.pos (digits2_pos p) + k - 1) with ((Z.pos (digits2_pos p) - 1) + k) by lia.
  rewrite !pow2_split by lia. nia.
Qed.

(** A number in canonical form is rounded to itself. *)
Lemma round_aux_canonical (prec emax : Z) (s : bool) (m : positive) (e : Z) :
  bounded prec emax m e = true ->
  binary_round_aux prec emax s (Z.pos m) e loc_Exact = S754_finite s m e.
Proof.
  unfold bounded, canonical_mantissa. intros H. apply andb_true_iff in H as [Hc Hb].
  apply Z.eqb_eq in Hc.
  unfold binary_round_aux, shr_fexp. cbn [Zdigits2 shr_record_of_loc].
  rewrite Hc, Z.sub_diag. cbn [shr shr_m loc_of_shr_record round_nearest_even Zdigits2
    shr_record_of_loc].
  rewrite Hc, Z.sub_diag. cbn [shr shr_m]. now rewrite Hb.
Qed.

Lemma fexp64 (x : Z) : fexp 53 1024 x = Z.max (x - 53) (-1074).
Proof. reflexivity. Qed.

(** [float(n)] is exact below [2^53]. *)
Lemma int_to_float_exact (n : positive) :
  Z.pos n < 2 ^ 53 ->
  exists m e,
    int_to_float (Z.pos n) = Ok (S754_finite false m e) /\
    -52 <= e <= 0 /\ Z.pos (digits2_pos m) = 53 /\ Z.pos m = Z.pos n * 2 ^ (- e).
Proof.
  intros Hn. pose proof (digits2_bounds n) as [B1 B2].
  set (d := Z.pos (digits2_pos n)) in *.
  assert (Hd : 1 <= d <= 53).
  { split; [unfold d; lia |].
    assert (d - 1 < 53); [| lia]. apply (Z.pow_lt_mono_r_iff 2); lia. }
  unfold int_to_float. cbn [binary_normalize]. unfold binary_round.
  rewrite Z.add_0_r. fold d. rewrite fexp64.
  replace (Z.max (d - 53) (-1074)) with (d - 53) by lia.
  destruct (shl_align_le n 0 (d - 53)) as (m & -> & Hm); [lia |].
  replace (0 - (d - 53)) with (53 - d) in Hm by lia.
  assert (Hdm : Z.pos (digits2_pos m) = 53).
  { rewrite (digits2_shift n m (53 - d)) by (try lia; exact Hm). fold d. lia. }
  rewrite round_aux_canonical.
  - exists m, (d - 53). split; [reflexivity |]. split; [lia |]. split; [exact Hdm |].
    rewrite Hm. f_equal. f_equal. lia.
  - unfold bounded, canonical_mantissa. rewrite Hdm, fexp64.
    apply andb_true_iff. split; [apply Z.eqb_eq | apply Z.leb_le]; lia.
Qed.

(** With the default ratio the width [int(n * 0.5)] is [n // 2]. *)
Lemma half_width (i : Z) :
  0 <= i < 2 ^ 53 -> int_scaled i (float_lit (1 # 2)) = Ok (i / 2).
Proof.
  intros [H0 Hi]. destruct i as [| n |]; [reflexivity | | lia].
  destruct (int_to_float_exact n Hi) as (m & e & Hf & He & Hd & Hm).
  unfold int_scaled, int_mul.
  change (float_lit (1 # 2)) with (PyFloat (S754_finite false 4503599627370496 (-53))).
  rewrite Hf. cbn [res_map res_bind SFmul xorb].
  assert (Hp : Z.pos (m * 4503599627370496) = Z.pos m * 2 ^ 52) by reflexivity.
  unfold binary_round_aux, shr_fexp. cbn [Zdigits2 shr_record_of_loc].
  rewrite (digits2_shift m (m * 4503599627370496) 52) by (try lia; exact Hp).
  rewrite Hd, fexp64.
  replace (Z.max (53 + 52 + (e + -53) - 53) (-1074) - (e + -53)) with 52 by lia.
  destruct (shr_some (Z.pos (m * 4503599627370496)) (e + -53) 52) as (mrs & -> & Hsm & Hrs);
    [lia | lia |].
  rewrite Hp, Z.div_mul in Hsm by lia.
  rewrite Hp, Z.mod_mul in Hrs by lia. destruct (Hrs eq_refl) as [Hr Hs].
  destruct mrs as [mm r s]. cbn [shr_m shr_r shr_s] in Hsm, Hr, Hs. subst mm r s.
  cbn [shr_m loc_of_shr_record round_nearest_even Zdigits2 shr_record_of_loc].
  rewrite Hd, fexp64.
  replace (Z.max (53 + (e + -53 + 52) - 53) (-1074) - (e + -53 + 52)) with 0 by lia.
  cbn [shr shr_m].
  replace (e + -53 + 52 <=? 1024 - 53) with true by (symmetry; apply Z.leb_le; lia).
  cbn [res_bind int_of_num cond_Zopp]. f_equal.
  rewrite Z.shiftl_div_pow2 by lia. rewrite Hm.
  replace (- (e + -53 + 52)) with (Z.succ (- e)) by lia.
  rewrite Z.pow_succ_r by lia.
  assert (0 < 2 ^ (- e)) by (apply Z.pow_pos_nonneg; lia).
  rewrite (Z.mul_comm 2), Z.mul_comm, <- Z.div_div by lia.
  rewrite (Z.mul_comm (2 ^ (- e))), Z.div_mul by lia. reflexivity.
Qed.













(** ** CrossStage on shapes *)

Lemma div_bounds (a b : Z) : 0 < b -> b * (a / b) <= a < b * (a / b) + b.
Proof.
  intros Hb. pose proof (Z.mul_div_le a b Hb). pose proof (Z.mul_succ_div_gt a b Hb). lia.
Qed.

Lemma broadcast_shape_same (a b : Shape) :
  dimN a = dimN b -> dimC a = dimC b -> dimH a = dimH b -> dimW a = dimW b ->
  broadcast_shape a b = Ok a.
Proof.
  destruct a, b. simpl. intros -> -> -> ->.
  unfold broadcast_shape, broadcast_dim. simpl. now rewrite !Z.eqb_refl.
Qed.

Lemma conv_out_pos (size s : Z) : 0 < size -> 1 <= s -> 0 < conv_out size 3 s 1 1.
Proof.
  intros H Hs. unfold conv_out.
  assert (0 <= (size + 2 * 1 - 1 * (3 - 1) - 1) / s) by (apply Z.div_pos; lia). lia.
Qed.

Ltac shape_step lem :=
  rewrite lem by (try reflexivity; try assumption; try lia); cbv beta iota.

Section ShapeRun.

Variable training : bool.

Lemma strided_dims (x : Shape) (o s : Z) :
  0 < dimH x -> 0 < dimW x -> 1 <= s ->
  0 < dimH (strided x o s) /\ 0 < dimW (strided x o s).
Proof. intros. simpl. split; now apply conv_out_pos. Qed.

Lemma strided_1 (x : Shape) : strided x (dimC x) 1 = x.
Proof. destruct x. unfold strided. simpl. now rewrite !conv_out_stride1. Qed.

Lemma conv_shape_ok (c : Conv2d) (x : Shape) :
  dimC x = in_channels c -> 1 <= stride c ->
  0 < conv_out (dimH x) (kernel_size c) (stride c) (padding c) (dilation c) ->
  0 < conv_out (dimW x) (kernel_size c) (stride c) (padding c) (dilation c) ->
  conv_shape c x
  = Ok {| dimN := dimN x; dimC := out_channels c;
          dimH := conv_out (dimH x) (kernel_size c) (stride c) (padding c) (dilation c);
          dimW := conv_out (dimW x) (kernel_size c) (stride c) (padding c) (dilation c) |}.
Proof.
  intros Hc Hs Hh Hw. unfold conv_shape.
  rewrite Hc, Z.eqb_refl. cbn [negb].
  replace (stride c <=? 0) with false by (symmetry; apply Z.leb_gt; lia).
  apply Z.leb_gt in Hh, Hw. now rewrite Hh, Hw.
Qed.

Lemma conv_out_1x1 (size : Z) : conv_out size 1 1 0 1 = size.
Proof. unfold conv_out. rewrite Z.div_1_r. lia. Qed.

Lemma call_conv1x1 (name : string) (i o : Z) (x : Shape) :
  dimC x = i -> 0 < dimH x -> 0 < dimW x ->
  call name (conv1x1 i o 1 false) training x tt = Ok (with_channels x o, tt).
Proof.
  intros Hc Hh Hw.
  unfold call, shape_torch, call_module, conv1x1, nn_Conv2d, shape_ext.
  rewrite conv_shape_ok;
    cbn [in_channels stride kernel_size padding dilation out_channels];
    rewrite ?conv_out_1x1; try assumption; [reflexivity | lia].
Qed.

Lemma call_conv3x3 (name : string) (i o s g : Z) (x : Shape) :
  dimC x = i -> 1 <= s -> 0 < dimH x -> 0 < dimW x ->
  call name (conv3x3 i o s g 1 false) training x tt = Ok (strided x o s, tt).
Proof.
  intros Hc Hs Hh Hw.
  unfold call, shape_torch, call_module, conv3x3, nn_Conv2d, shape_ext.
  rewrite conv_shape_ok;
    cbn [in_channels stride kernel_size padding dilation out_channels];
    try assumption; [reflexivity | now apply conv_out_pos ..].
Qed.

Lemma call_ABN (name : string) (n : Z) (act : string) (x : Shape) :
  dimC x = n -> call name (ABN n act) training x tt = Ok (x, tt).
Proof. intros Hc. cbn. unfold check_channels. now rewrite Hc, Z.eqb_refl. Qed.

Lemma block_forward_shape (fn : BlockFn) (i o s : Z) (na : string) (kw : BlockKwargs)
    (x : Shape) :
  dimC x = i -> 1 <= s -> 0 < dimH x -> 0 < dimW x ->
  block_forward (block_new fn i o o s ABN na kw) training x tt = Ok (strided x o s, tt).
Proof.
  intros Hc Hs Hh Hw.
  destruct (strided_dims x o s Hh Hw Hs) as [Hh' Hw'].
  assert (Hadd : (i =? o) && (s =? 1) = true -> add (strided x o s) x tt = Ok (strided x o s, tt)).
  { intros H. apply andb_true_iff in H as [Hi H1].
    apply Z.eqb_eq in Hi, H1. subst o s.
    cbn. rewrite broadcast_shape_same; [reflexivity | simpl ..]; try reflexivity;
      try (symmetry; assumption); apply conv_out_stride1. }
  destruct fn; cbn [block_new block_forward].
  - unfold SimpleBottleneck.forward, SimpleBottleneck.init.
    cbn [SimpleBottleneck.conv1 SimpleBottleneck.bn1 SimpleBottleneck.conv2
         SimpleBottleneck.bn2 SimpleBottleneck.conv3 SimpleBottleneck.bn3
         SimpleBottleneck.has_residual].
    unfold bind at 1 2 3 4 5.
    shape_step call_conv1x1. shape_step call_ABN. shape_step call_conv3x3.
    change (strided (with_channels x o) o s) with (strided x o s).
    shape_step call_ABN. shape_step call_conv1x1.
    change (with_channels (strided x o s) o) with (strided x o s).
    destruct ((i =? o) && (s =? 1)) eqn:Hres.
    + unfold bind. shape_step call_ABN. now apply Hadd.
    + now apply call_ABN.
  - unfold SimplePreActBottleneck.forward, SimplePreActBottleneck.init.
    cbn [SimplePreActBottleneck.conv1 SimplePreActBottleneck.bn1 SimplePreActBottleneck.conv2
         SimplePreActBottleneck.bn2 SimplePreActBottleneck.conv3 SimplePreActBottleneck.bn3
         SimplePreActBottleneck.has_residual].
    unfold bind at 1 2 3 4 5.
    shape_step call_ABN. shape_step call_conv1x1. shape_step call_ABN.
    shape_step call_conv3x3.
    change (strided (with_channels x o) o s) with (strided x o s).
    shape_step call_ABN.
    destruct ((i =? o) && (s =? 1)) eqn:Hres.
    + unfold bind. shape_step call_conv1x1. now apply Hadd.
    + now apply call_conv1x1.
Qed.

Lemma sequential_shape (A : Type) (l : list A) (fn : BlockFn) (k : Z) (na : string)
    (kw : BlockKwargs) (x : Shape) :
  dimC x = k -> 0 < dimH x -> 0 < dimW x ->
  sequential (map (fun _ => block_new fn k k k 1 ABN na kw) l) training x tt = Ok (x, tt).
Proof.
  intros Hc Hh Hw. subst k. induction l as [| a l IH]; [reflexivity |].
  cbn [map sequential].
  rewrite (bind_ok _ _ _ _ _
             (block_forward_shape fn _ _ 1 na kw x eq_refl ltac:(lia) Hh Hw)).
  rewrite strided_1. exact IH.
Qed.

Lemma transition_shape (x2t : bool) (k : Z) (x : Shape) :
  dimC x = k -> 0 < dimH x -> 0 < dimW x ->
  call "x2_transition"
       (if x2t then LSequential [conv1x1 k k 1 false; ABN k "identity"] else LIdentity)
       training x tt
  = Ok (x, tt).
Proof.
  intros Hc Hh Hw. destruct x2t; [| reflexivity].
  pose proof (call_conv1x1 "0" k k x Hc Hh Hw) as H1.
  pose proof (call_ABN "1" k "identity" (with_channels x k) eq_refl) as H2.
  cbn in H1, H2 |- *. unfold bind. rewrite H1, H2.
  destruct x. simpl in Hc. subst k. reflexivity.
Qed.

End ShapeRun.

Lemma bind_lift_ok {W A B} (a : A) (k : A -> M W B) (w : W) : bind (lift (Ok a)) k w = k a w.
Proof. reflexivity. Qed.

Lemma bind_ret {W A B} (a : A) (k : A -> M W B) (w : W) : bind (ret a) k w = k a w.
Proof. reflexivity. Qed.

Lemma ratio_half (r : Q) :
  (r == 1 # 2)%Q -> Qeq_bool r (1 # 2) = true.
Proof. apply Qeq_bool_iff. Qed.

Lemma ratio_three_quarters (r : Q) :
  (r == 3 # 4)%Q -> Qeq_bool r (1 # 2) = false /\ Qeq_bool r (3 # 4) = true.
Proof.
  intros H. split; [| now apply Qeq_bool_iff].
  apply Qeq_bool_false. intros E. rewrite H in E. discriminate E.
Qed.

Lemma cat_shapes_pair (a b : Shape) :
  dimN a = dimN b -> dimH a = dimH b -> dimW a = dimW b ->
  cat_shapes [a; b] = Ok (with_channels a (dimC a + dimC b)).
Proof.
  intros Hn Hh Hw. unfold cat_shapes, same_but_channels. cbn [forallb].
  now rewrite Hn, Hh, Hw, !Z.eqb_refl.
Qed.

Lemma py_int_floor (q : Q) : (0 <= q)%Q -> py_int q = Qfloor q.
Proof.
  destruct q as [n d]. unfold Qle, py_int, Qfloor. cbn [Qnum Qden].
  intros H. apply Z.quot_div_nonneg; lia.
Qed.

Lemma half_of (r : Q) (c : Z) : 0 <= c -> (r == 1 # 2)%Q -> py_int (r * inject_Z c) = c / 2.
Proof.
  intros Hc Hr.
  assert (E : (r * inject_Z c == (1 # 2) * inject_Z c)%Q) by now rewrite Hr.
  rewrite py_int_floor.
  - rewrite (Qfloor_comp _ _ E). unfold Qfloor, Qmult, inject_Z. cbn [Qnum Qden].
    f_equal; lia.
  - rewrite E. unfold Qle, Qmult, inject_Z. cbn [Qnum Qden]. lia.
Qed.

Lemma three_quarters_of (r : Q) (c : Z) :
  0 <= c -> (r == 3 # 4)%Q -> py_int (r * inject_Z c) = 3 * c / 4.
Proof.
  intros Hc Hr.
  assert (E : (r * inject_Z c == (3 # 4) * inject_Z c)%Q) by now rewrite Hr.
  rewrite py_int_floor.
  - rewrite (Qfloor_comp _ _ E). unfold Qfloor, Qmult, inject_Z. cbn [Qnum Qden].
    f_equal; lia.
  - rewrite E. unfold Qle, Qmult, inject_Z. cbn [Qnum Qden]. lia.
Qed.

Lemma chunk_sizes_two (c : Z) : 2 <= c -> chunk_sizes 2 c = [(c + 1) / 2; c / 2].
Proof.
  intros Hc. unfold chunk_sizes.
  replace (c + 2 - 1) with (c + 1) by lia.
  pose proof (div_bounds c 2 ltac:(lia)) as Hhalf.
  pose proof (div_bounds (c + 1) 2 ltac:(lia)) as Hq.
  set (q := (c + 1) / 2) in *.
  replace (q =? 0) with false by (symmetry; apply Z.eqb_neq; lia).
  cbn [andb].
  replace ((c + q - 1) / q) with 2
    by (apply (Z.div_unique _ _ _ (c - q - 1)); lia).
  rewrite Z.max_l by lia. change (py_range (2 - 1)) with [0%nat].
  cbn [map app]. do 2 f_equal. lia.
Qed.

Lemma chunk_sizes_four (c : Z) :
  4 <= c -> c <> 5 -> c <> 6 -> c <> 9 ->
  chunk_sizes 4 c = [(c + 3) / 4; (c + 3) / 4; (c + 3) / 4; c - 3 * ((c + 3) / 4)].
Proof.
  intros Hc H5 H6 H9. unfold chunk_sizes.
  replace (c + 4 - 1) with (c + 3) by lia.
  pose proof (div_bounds (c + 3) 4 ltac:(lia)) as Hq.
  set (q := (c + 3) / 4) in *.
  replace (q =? 0) with false by (symmetry; apply Z.eqb_neq; lia).
  cbn [andb].
  replace ((c + q - 1) / q) with 4
    by (apply (Z.div_unique _ _ _ (c - 3 * q - 1)); lia).
  rewrite Z.max_l by lia. change (py_range (4 - 1)) with [0%nat; 1%nat; 2%nat].
  cbn [map app]. do 4 f_equal. lia.
Qed.

Lemma cat_shapes_three (a : Shape) (k1 k2 k3 : Z) :
  cat_shapes [with_channels a k1; with_channels a k2; with_channels a k3]
  = Ok (with_channels a (k1 + k2 + k3)).
Proof.
  unfold cat_shapes, same_but_channels. cbn [forallb with_channels dimN dimH dimW dimC].
  rewrite !Z.eqb_refl. reflexivity.
Qed.

Section CrossStageChannels.

Variables (in_chs c num_blocks s : Z) (bottle_ratio : Q) (antialias : bool) (fn : BlockFn).
Variables (attn_type : option string) (na : string) (keep_prob r : Q) (x2t : bool).
Variables (training : bool) (x : Shape).

Hypothesis Hs : 1 <= s.
Hypothesis Hc : dimC x = in_chs.
Hypothesis Hh : 0 < dimH x.
Hypothesis Hw : 0 < dimW x.

Lemma CrossStage_half_any (kw : BlockKwargs) :
  2 <= c -> (r == 1 # 2)%Q ->
  CrossStage.forward
    (CrossStage.init in_chs c num_blocks s bottle_ratio antialias fn attn_type ABN na
                     keep_prob r x2t kw) training x tt
  = Ok (strided x c s, tt).
Proof.
  intros Hk Hr. destruct (strided_dims x c s Hh Hw Hs) as [Hh' Hw'].
  unfold CrossStage.forward, CrossStage.init.
  cbn [CrossStage.first_layer CrossStage.blocks CrossStage.x2_transition
       CrossStage.csp_block_ratio].
  rewrite (bind_ok _ _ _ _ _ (block_forward_shape training fn in_chs c s na kw x
                                 Hc Hs Hh Hw)).
  rewrite (ratio_half r Hr), (half_of r c ltac:(lia) Hr).
  cbn [chunk shape_channels strided dimC]. rewrite (chunk_sizes_two c Hk).
  cbn [map unpack2 res_bind]. rewrite bind_lift_ok. cbn [snd fst load_local].
  rewrite bind_ret.
  erewrite bind_ok by (apply sequential_shape; [reflexivity | exact Hh' | exact Hw']).
  erewrite bind_ok by (apply transition_shape; [reflexivity | exact Hh' | exact Hw']).
  rewrite bind_ret. cbn [cat shape_channels].
  rewrite cat_shapes_pair by reflexivity.
  unfold lift, with_channels, strided. cbn [dimN dimC dimH dimW]. do 3 f_equal.
  pose proof (div_bounds c 2 ltac:(lia)). pose proof (div_bounds (c + 1) 2 ltac:(lia)). lia.
Qed.

Lemma CrossStage_three_quarters_any (kw : BlockKwargs) :
  4 <= c -> c <> 5 -> c <> 6 -> c <> 9 -> (r == 3 # 4)%Q ->
  CrossStage.forward
    (CrossStage.init in_chs c num_blocks s bottle_ratio antialias fn attn_type ABN na
                     keep_prob r x2t kw) training x tt
  = Ok (strided x c s, tt).
Proof.
  intros Hk H5 H6 H9 Hr. destruct (strided_dims x c s Hh Hw Hs) as [Hh' Hw'].
  destruct (ratio_three_quarters r Hr) as [R1 R2].
  unfold CrossStage.forward, CrossStage.init.
  cbn [CrossStage.first_layer CrossStage.blocks CrossStage.x2_transition
       CrossStage.csp_block_ratio].
  rewrite (bind_ok _ _ _ _ _ (block_forward_shape training fn in_chs c s na kw x
                                 Hc Hs Hh Hw)).
  rewrite R1, R2, (three_quarters_of r c ltac:(lia) Hr).
  cbn [chunk shape_channels strided dimC]. rewrite (chunk_sizes_four c Hk H5 H6 H9).
  cbn [map unpack4 res_bind cat]. rewrite cat_shapes_three.
  assert (Hsum : (c + 3) / 4 + (c + 3) / 4 + (c - 3 * ((c + 3) / 4)) = 3 * c / 4).
  { pose proof (div_bounds (c + 3) 4 ltac:(lia)). pose proof (div_bounds (3 * c) 4 ltac:(lia)).
    lia. }
  rewrite Hsum.
  cbn [res_bind]. rewrite bind_lift_ok. cbn [snd fst load_local].
  rewrite bind_ret.
  erewrite bind_ok by (apply sequential_shape; [reflexivity | exact Hh' | exact Hw']).
  erewrite bind_ok by (apply transition_shape; [reflexivity | exact Hh' | exact Hw']).
  rewrite bind_ret. cbn [cat shape_channels].
  rewrite cat_shapes_pair by reflexivity.
  unfold lift, with_channels, strided. cbn [dimN dimC dimH dimW]. do 3 f_equal.
  pose proof (div_bounds (c + 3) 4 ltac:(lia)). pose proof (div_bounds (3 * c) 4 ltac:(lia)).
  lia.
Qed.

Lemma CrossStage_three_quarters_short (kw : BlockKwargs) :
  c = 2 \/ c = 3 \/ c = 5 \/ c = 6 \/ c = 9 -> (r == 3 # 4)%Q ->
  CrossStage.forward
    (CrossStage.init in_chs c num_blocks s bottle_ratio antialias fn attn_type ABN na
                     keep_prob r x2t kw) training x tt
  = Raise (ValueError "not enough values to unpack").
Proof.
  intros Hk Hr.
  destruct (ratio_three_quarters r Hr) as [R1 R2].
  unfold CrossStage.forward, CrossStage.init.
  cbn [CrossStage.first_layer CrossStage.blocks CrossStage.x2_transition
       CrossStage.csp_block_ratio].
  rewrite (bind_ok _ _ _ _ _ (block_forward_shape training fn in_chs c s na kw x
                                 Hc Hs Hh Hw)).
  rewrite R1, R2.
  cbn [chunk shape_channels strided dimC].
  destruct Hk as [-> | [-> | [-> | [-> | ->]]]]; reflexivity.
Qed.

End CrossStageChannels.

Lemma chunk_sizes_single (chunks : Z) : 1 <= chunks -> chunk_sizes chunks 1 = [1].
Proof.
  intros Hc. unfold chunk_sizes.
  replace ((1 + chunks - 1) / chunks) with 1
    by (apply (Z.div_unique _ _ _ 0); lia).
  reflexivity.
Qed.

Section CrossStageSingle.

Variables (in_chs num_blocks s : Z) (bottle_ratio : Q) (antialias : bool) (fn : BlockFn).
Variables (attn_type : option string) (na : string) (keep_prob r : Q) (x2t : bool).
Variables (kw : BlockKwargs) (training : bool) (x : Shape).

Hypothesis Hs : 1 <= s.
Hypothesis Hc : dimC x = in_chs.
Hypothesis Hh : 0 < dimH x.
Hypothesis Hw : 0 < dimW x.

Lemma CrossStage_single_channel :
  (r == 1 # 2)%Q \/ (r == 3 # 4)%Q ->
  CrossStage.forward
    (CrossStage.init in_chs 1 num_blocks s bottle_ratio antialias fn attn_type ABN na
                     keep_prob r x2t kw) training x tt
  = Raise (ValueError "not enough values to unpack").
Proof.
  intros Hr.
  unfold CrossStage.forward, CrossStage.init.
  cbn [CrossStage.first_layer CrossStage.blocks CrossStage.x2_transition
       CrossStage.csp_block_ratio].
  rewrite (bind_ok _ _ _ _ _ (block_forward_shape training fn in_chs 1 s na kw x
                                 Hc Hs Hh Hw)).
  destruct Hr as [Hr | Hr].
  - rewrite (ratio_half r Hr). reflexivity.
  - destruct (ratio_three_quarters r Hr) as [R1 R2]. rewrite R1, R2. reflexivity.
Qed.

End CrossStageSingle.

Lemma built_conv1x1 (i o s : Z) (b : bool) :
  0 <= i -> 0 <= o -> built (conv1x1 i o s b) = Ok (conv1x1 i o s b).
Proof.
  intros Hi Ho. unfold built, conv1x1, nn_Conv2d.
  rewrite Conv2d_check_pass; cbn; try lia; try reflexivity.
  - exists i. lia.
  - exists o. lia.
Qed.

Lemma built_conv3x3 (i o s g d : Z) (b : bool) :
  0 <= i -> 0 <= o -> 1 <= g -> (g | i) -> (g | o) ->
  built (conv3x3 i o s g d b) = Ok (conv3x3 i o s g d b).
Proof.
  intros Hi Ho Hg Hgi Hgo. unfold built, conv3x3, nn_Conv2d.
  rewrite Conv2d_check_pass; cbn; try lia; try assumption. reflexivity.
Qed.

Lemma built_conv3x3_groups (i o s g d : Z) (b : bool) :
  (g <= 0 ->
   built (conv3x3 i o s g d b) = Raise (ValueError "groups must be a positive integer")) /\
  (1 <= g -> ~ (g | i) ->
   built (conv3x3 i o s g d b) = Raise (ValueError "in_channels must be divisible by groups")).
Proof.
  unfold built, conv3x3, nn_Conv2d, Conv2d_check, res_map.
  cbn [groups in_channels out_channels]. split.
  - intros Hg. replace (g <=? 0) with true by (symmetry; apply Z.leb_le; lia). reflexivity.
  - intros Hg Hnd. replace (g <=? 0) with false by (symmetry; apply Z.leb_gt; lia).
    destruct (i mod g =? 0) eqn:E; [| reflexivity].
    exfalso. apply Hnd. apply Z.mod_divide; [lia | now apply Z.eqb_eq].
Qed.

(** When the constructor of a simple bottleneck returns, and when it raises
    on its groups. *)
Lemma block_built_groups (fn : BlockFn) (i m o s : Z) (nl : Z -> string -> Layer)
    (na : string) (kw : BlockKwargs) :
  let g := pick_groups m (default 1 (kw_groups kw)) (kw_groups_width kw) in
  0 <= i -> 0 <= m -> 0 <= o ->
  (1 <= g -> (g | m) ->
   block_built (block_new fn i m o s nl na kw) = Ok (block_new fn i m o s nl na kw)) /\
  (g <= 0 ->
   block_built (block_new fn i m o s nl na kw)
   = Raise (ValueError "groups must be a positive integer")) /\
  (1 <= g -> ~ (g | m) ->
   block_built (block_new fn i m o s nl na kw)
   = Raise (ValueError "in_channels must be divisible by groups")).
Proof.
  intros g Hi Hm Ho.
  destruct (built_conv3x3_groups m m s g 1 false) as [Hneg Hnd].
  unfold block_built.
  destruct fn; cbn [block_new block_convs];
    unfold SimpleBottleneck.init, SimplePreActBottleneck.init;
    cbn [SimpleBottleneck.conv1 SimpleBottleneck.conv2 SimpleBottleneck.conv3
         SimplePreActBottleneck.conv1 SimplePreActBottleneck.conv2
         SimplePreActBottleneck.conv3 mapM];
    fold g; rewrite (built_conv1x1 i m 1 false Hi Hm); cbn [res_bind];
    (split; [| split]).
  all: try (intros Hg Hd; rewrite (built_conv3x3 m m s g 1 false) by assumption;
            cbn [res_bind]; rewrite (built_conv1x1 m o 1 false Hm Ho); reflexivity).
  all: try (intros Hg; rewrite (Hneg Hg); reflexivity).
  all: intros Hg Hd; rewrite (Hnd Hg Hd); reflexivity.
Qed.

(** The engine accepts every convolution of a stage whose groups are
    positive and divide its widths. *)
Lemma CrossStage_built (in_chs c num_blocks s : Z) (bottle_ratio : Q) (antialias : bool)
    (fn : BlockFn) (attn_type : option string) (nl : Z -> string -> Layer) (na : string)
    (keep_prob r : Q) (x2t : bool) (kw : BlockKwargs) :
  let stage :=
    CrossStage.init in_chs c num_blocks s bottle_ratio antialias fn attn_type nl na
                    keep_prob r x2t kw in
  let block_chs := py_int (r * inject_Z c)%Q in
  let g1 := pick_groups c (default 1 (kw_groups kw)) (kw_groups_width kw) in
  let g2 := pick_groups block_chs (default 1 (kw_groups kw)) (kw_groups_width kw) in
  0 <= in_chs -> 0 <= c -> 0 <= block_chs ->
  1 <= g1 -> (g1 | c) -> 1 <= g2 -> (g2 | block_chs) ->
  block_built (CrossStage.first_layer stage) = Ok (CrossStage.first_layer stage) /\
  Forall (fun b => block_built b = Ok b) (CrossStage.blocks stage).
Proof.
  intros stage block_chs g1 g2 Hi Hc Hb Hg1 Hd1 Hg2 Hd2. split.
  - apply (proj1 (block_built_groups fn in_chs c c s nl na kw Hi Hc Hc)); assumption.
  - apply List.Forall_forall. intros b Hin.
    unfold stage, CrossStage.init in Hin. cbn [CrossStage.blocks] in Hin.
    apply in_map_iff in Hin as (k & <- & _).
    apply (proj1 (block_built_groups fn block_chs block_chs block_chs 1 nl na kw Hb Hb Hb));
      assumption.
Qed.

(** C7, as the code has it.  On every engine, once the first block has
    produced the post-transition tensor: with ratio 0.5 and a chunk of two
    pieces, the first piece is passed on untouched and only the second goes
    through the inner blocks and [x2_transition] before the two are
    concatenated; with ratio 0.75 and a chunk of four pieces, the last three
    are concatenated into the one tensor that takes that path.  On shapes,
    for a tensor of [c] channels: the two-way chunk has the pieces
    [ceil(c / 2)] and [c // 2] when [c >= 2] (equal halves exactly when [c]
    is even) and a single piece when [c = 1]; the four-way chunk has four
    pieces, of which the last three hold [3 * c // 4] channels together, when
    [c >= 4] is none of 5, 6, 9 (equal quarters when [c] is a multiple of
    four), and fewer than four pieces otherwise.  For a stage whose groups
    are positive and divide its widths, the engine accepts the convolutions
    of the first block and of the inner blocks, and the stage accordingly
    returns [c] channels at the strided resolution in the first cases and
    raises [ValueError] at the unpacking in the others. *)
Theorem C7_CrossStage_split :
  (forall T W (E : Torch T W) (C : ChannelOps T) (self : CrossStage.t) (training : bool)
          (x y : T) (w w1 : W),
      block_forward (CrossStage.first_layer self) training x w = Ok (y, w1) ->
      ((CrossStage.csp_block_ratio self == 1 # 2)%Q ->
       forall x1 x2, chunk 2 y = [x1; x2] ->
         CrossStage.forward self training x w
         = (x2 <- sequential (CrossStage.blocks self) training x2 ;;
            x2 <- call "x2_transition" (CrossStage.x2_transition self) training x2 ;;
            lift (cat [x1; x2])) w1) /\
      ((CrossStage.csp_block_ratio self == 3 # 4)%Q ->
       forall x1 x2 x3 x4 x234, chunk 4 y = [x1; x2; x3; x4] -> cat [x2; x3; x4] = Ok x234 ->
         CrossStage.forward self training x w
         = (x2 <- sequential (CrossStage.blocks self) training x234 ;;
            x2 <- call "x2_transition" (CrossStage.x2_transition self) training x2 ;;
            lift (cat [x1; x2])) w1)) /\
  (forall (y : Shape) (c : Z),
      dimC y = c ->
      (2 <= c ->
       chunk 2 y = [with_channels y ((c + 1) / 2); with_channels y (c / 2)] /\
       (c + 1) / 2 + c / 2 = c /\
       ((c + 1) / 2 = c / 2 <-> c mod 2 = 0)) /\
      (c = 1 -> chunk 2 y = [y] /\ chunk 4 y = [y]) /\
      (4 <= c -> c <> 5 -> c <> 6 -> c <> 9 ->
       let q := (c + 3) / 4 in
       chunk 4 y = [with_channels y q; with_channels y q; with_channels y q;
                    with_channels y (c - 3 * q)] /\
       cat [with_channels y q; with_channels y q; with_channels y (c - 3 * q)]
       = Ok (with_channels y (3 * c / 4)) /\
       q + 3 * c / 4 = c /\
       (c mod 4 = 0 -> q = c / 4 /\ c - 3 * q = c / 4)) /\
      (c = 2 \/ c = 3 \/ c = 5 \/ c = 6 \/ c = 9 -> (length (chunk 4 y) < 4)%nat)) /\
  (forall in_chs c num_blocks s bottle_ratio antialias fn attn_type na keep_prob r x2t kw
          (training : bool) (x : Shape),
      let stage :=
        CrossStage.init in_chs c num_blocks s bottle_ratio antialias fn attn_type ABN na
                        keep_prob r x2t kw in
      let block_chs := py_int (r * inject_Z c)%Q in
      let g1 := pick_groups c (default 1 (kw_groups kw)) (kw_groups_width kw) in
      let g2 := pick_groups block_chs (default 1 (kw_groups kw)) (kw_groups_width kw) in
      1 <= s -> dimC x = in_chs -> 0 < dimH x -> 0 < dimW x ->
      1 <= in_chs -> 1 <= c ->
      1 <= g1 -> (g1 | c) -> 1 <= g2 -> (g2 | block_chs) ->
      ((r == 1 # 2)%Q \/ (r == 3 # 4)%Q ->
       block_built (CrossStage.first_layer stage) = Ok (CrossStage.first_layer stage) /\
       Forall (fun b => block_built b = Ok b) (CrossStage.blocks stage)) /\
      ((r == 1 # 2)%Q ->
       (2 <= c -> CrossStage.forward stage training x tt = Ok (strided x c s, tt)) /\
       (c = 1 ->
        CrossStage.forward stage training x tt
        = Raise (ValueError "not enough values to unpack"))) /\
      ((r == 3 # 4)%Q ->
       (4 <= c -> c <> 5 -> c <> 6 -> c <> 9 ->
        CrossStage.forward stage training x tt = Ok (strided x c s, tt)) /\
       (c = 1 \/ c = 2 \/ c = 3 \/ c = 5 \/ c = 6 \/ c = 9 ->
        CrossStage.forward stage training x tt
        = Raise (ValueError "not enough values to unpack")))).
Proof.
  split; [| split].
  - intros T W E C self training x y w w1 Hfirst. split.
    + intros Hr x1 x2 Hchunk. unfold CrossStage.forward.
      rewrite (bind_ok _ _ _ _ _ Hfirst), (ratio_half _ Hr), Hchunk. reflexivity.
    + intros Hr x1 x2 x3 x4 x234 Hchunk Hcat. unfold CrossStage.forward.
      destruct (ratio_three_quarters _ Hr) as [R1 R2].
      rewrite (bind_ok _ _ _ _ _ Hfirst), R1, R2, Hchunk. cbn [unpack4 res_bind].
      rewrite Hcat. reflexivity.
  - intros y c Hc. split; [| split; [| split]].
    + intros H2.
      pose proof (div_bounds c 2 ltac:(lia)) as B1.
      pose proof (div_bounds (c + 1) 2 ltac:(lia)) as B2.
      split; [| split].
      * cbn [chunk shape_channels]. now rewrite Hc, chunk_sizes_two.
      * lia.
      * pose proof (Z.mod_pos_bound c 2 ltac:(lia)) as B3.
        pose proof (Z.div_mod c 2 ltac:(lia)) as B4. lia.
    + intros ->. cbn [chunk shape_channels]. rewrite Hc.
      rewrite !chunk_sizes_single by lia. cbn [map].
      destruct y as [n ch h w]. cbn in Hc. subst ch. split; reflexivity.
    + intros H4 H5 H6 H9 q.
      pose proof (div_bounds (c + 3) 4 ltac:(lia)) as B1.
      pose proof (div_bounds (3 * c) 4 ltac:(lia)) as B2.
      pose proof (div_bounds c 4 ltac:(lia)) as B3.
      fold q in B1.
      split; [| split; [| split]].
      * cbn [chunk shape_channels]. now rewrite Hc, chunk_sizes_four.
      * cbn [cat shape_channels]. rewrite cat_shapes_three. do 2 f_equal. lia.
      * lia.
      * intros Hm. pose proof (Z.div_mod c 4 ltac:(lia)) as B4. lia.
    + intros Hshort. cbn [chunk shape_channels]. rewrite Hc, length_map.
      destruct Hshort as [-> | [-> | [-> | [-> | ->]]]]; vm_compute; lia.
  - intros in_chs c num_blocks s bottle_ratio antialias fn attn_type na keep_prob r x2t kw
      training x stage block_chs g1 g2 Hs Hc Hh Hw Hi Hc1 Hg1 Hd1 Hg2 Hd2.
    split.
    { intros Hr. apply CrossStage_built; try assumption; try lia.
      unfold block_chs. destruct Hr as [Hr | Hr].
      - rewrite (half_of r c ltac:(lia) Hr). apply Z.div_pos; lia.
      - rewrite (three_quarters_of r c ltac:(lia) Hr). apply Z.div_pos; lia. }
    split; intros Hr; split.
    + intros H2. now apply CrossStage_half_any.
    + intros ->. apply CrossStage_single_channel; try assumption. now left.
    + intros H4 H5 H6 H9. now apply CrossStage_three_quarters_any.
    + intros [-> | Hshort].
      * apply CrossStage_single_channel; try assumption. now right.
      * now apply CrossStage_three_quarters_short.
Qed.

Lemma C7_CrossStage_split_witness :
  let x := {| dimN := 2; dimC := 3; dimH := 32; dimW := 32 |} in
  let y c := {| dimN := 2; dimC := c; dimH := 16; dimW := 16 |} in
  let stage out_chs ratio :=
    CrossStage.init 3 out_chs 3 2 (1 # 2) false SimpleBottleneckFn None ABN "leaky_relu" 1
                    ratio true no_kwargs in
  CrossStage.forward (stage 64 (1 # 2)) false x tt = Ok (y 64, tt) /\
  CrossStage.forward (stage 7 (3 # 4)) false x tt = Ok (y 7, tt) /\
  CrossStage.forward (stage 1 (1 # 2)) false x tt
  = Raise (ValueError "not enough values to unpack") /\
  chunk 2 (y 7) = [with_channels (y 7) 4; with_channels (y 7) 3] /\
  chunk 4 (y 64)
  = [with_channels (y 64) 16; with_channels (y 64) 16; with_channels (y 64) 16;
     with_channels (y 64) 16] /\
  CrossStage.forward (stage 64 (1 # 2)) false x tt
  = (x2 <- sequential (CrossStage.blocks (stage 64 (1 # 2))) false (with_channels (y 64) 32) ;;
     x2 <- call "x2_transition" (CrossStage.x2_transition (stage 64 (1 # 2))) false x2 ;;
     lift (cat [with_channels (y 64) 32; x2])) tt.
Proof.
  intros x y stage.
  assert (D1 : forall n : Z, (1 | n)) by (intros n; exists n; lia).
  split; [| split; [| split; [| split; [| split]]]].
  - refine (eq_trans (proj1 (proj1 (proj2 (proj2 (proj2 C7_CrossStage_split) 3 64 3 2
      (1 # 2)%Q false SimpleBottleneckFn None "leaky_relu" 1%Q (1 # 2)%Q true no_kwargs false x
      _ _ _ _ _ _ _ (D1 _) _ (D1 _))) _) _) _);
      first [reflexivity | discriminate].
  - refine (eq_trans (proj1 (proj2 (proj2 (proj2 (proj2 C7_CrossStage_split) 3 7 3 2
      (1 # 2)%Q false SimpleBottleneckFn None "leaky_relu" 1%Q (3 # 4)%Q true no_kwargs false x
      _ _ _ _ _ _ _ (D1 _) _ (D1 _))) _) _ _ _ _) _);
      first [reflexivity | discriminate].
  - refine (proj2 (proj1 (proj2 (proj2 (proj2 C7_CrossStage_split) 3 1 3 2 (1 # 2)%Q false
      SimpleBottleneckFn None "leaky_relu" 1%Q (1 # 2)%Q true no_kwargs false x
      _ _ _ _ _ _ _ (D1 _) _ (D1 _))) _) _);
      first [reflexivity | discriminate].
  - refine (eq_trans (proj1 (proj1 (proj1 (proj2 C7_CrossStage_split) (y 7) 7 eq_refl) _)) _);
      first [reflexivity | discriminate].
  - refine (eq_trans (proj1 (proj1 (proj2 (proj2 (proj1 (proj2 C7_CrossStage_split)
      (y 64) 64 eq_refl))) _ _ _ _)) _);
      first [reflexivity | discriminate].
  - assert (Hfirst : block_forward (CrossStage.first_layer (stage 64 (1 # 2))) false x tt
                     = Ok (y 64, tt)) by (vm_compute; reflexivity).
    apply (proj1 (proj1 C7_CrossStage_split Shape unit _ _ (stage 64 (1 # 2)) false x (y 64)
                    tt tt Hfirst)); reflexivity.
Defined.

(** C7, counterexample: with ratio 0.5 and 5 output channels the stage runs
    and returns 5 channels, but the two pieces of the chunk have 3 and 2
    channels; with ratio 0.75 and 6 output channels the chunk yields three
    pieces of 2 channels, and unpacking them into four names raises. *)
Lemma C7_CrossStage_split_counterexample :
  let x := {| dimN := 2; dimC := 3; dimH := 32; dimW := 32 |} in
  let stage out_chs ratio :=
    CrossStage.init 3 out_chs 3 2 (1 # 2) false SimpleBottleneckFn None ABN "leaky_relu" 1
                    ratio true no_kwargs in
  res_map (fun r => map dimC (chunk 2 (fst r)))
          (block_forward (CrossStage.first_layer (stage 5 (1 # 2))) false x tt)
  = Ok [3; 2] /\
  CrossStage.forward (stage 5 (1 # 2)) false x tt
  = Ok ({| dimN := 2; dimC := 5; dimH := 16; dimW := 16 |}, tt) /\
  res_map (fun r => map dimC (chunk 4 (fst r)))
          (block_forward (CrossStage.first_layer (stage 6 (3 # 4))) false x tt)
  = Ok [2; 2; 2] /\
  CrossStage.forward (stage 6 (3 # 4)) false x tt
  = Raise (ValueError "not enough values to unpack").
Proof. repeat split. Qed.

(** * Further properties of the catalogue *)

(** ** Convolution helpers on shapes *)

Lemma conv_out_3x3_dilation (size s d : Z) : conv_out size 3 s d d = conv_out size 3 s 1 1.
Proof. unfold conv_out. do 2 f_equal. lia. Qed.

Lemma conv_out_1x1_stride (size s : Z) : conv_out size 1 s 0 1 = conv_out size 3 s 1 1.
Proof. unfold conv_out. do 2 f_equal. lia. Qed.

Lemma strided_strided_1 (x : Shape) (o o' s : Z) :
  strided (strided x o s) o' 1 = strided x o' s.
Proof. unfold strided. cbn [dimN dimC dimH dimW]. now rewrite !conv_out_stride1. Qed.

Lemma strided_is_with_channels (x : Shape) (o : Z) : strided x o 1 = with_channels x o.
Proof. unfold strided, with_channels. now rewrite !conv_out_stride1. Qed.

Lemma broadcast_dim_one_r (a : Z) : broadcast_dim a 1 = Ok a.
Proof. unfold broadcast_dim. destruct (a =? 1); reflexivity. Qed.

Lemma broadcast_dim_same (a : Z) : broadcast_dim a a = Ok a.
Proof. unfold broadcast_dim. now rewrite Z.eqb_refl. Qed.

Section ShapeContracts.

Variable training : bool.

Lemma call_conv3x3_any (name : string) (i o s g d : Z) (b : bool) (x : Shape) :
  dimC x = i -> 1 <= s -> 0 < dimH x -> 0 < dimW x ->
  call name (conv3x3 i o s g d b) training x tt = Ok (strided x o s, tt).
Proof.
  intros Hc Hs Hh Hw.
  unfold call, shape_torch, call_module, conv3x3, nn_Conv2d, shape_ext.
  rewrite conv_shape_ok;
    cbn [in_channels stride kernel_size padding dilation out_channels];
    try rewrite (conv_out_3x3_dilation (dimH x));
    try rewrite (conv_out_3x3_dilation (dimW x)); try assumption;
    [reflexivity | now apply conv_out_pos ..].
Qed.

Lemma call_conv1x1_any (name : string) (i o s : Z) (b : bool) (x : Shape) :
  dimC x = i -> 1 <= s -> 0 < dimH x -> 0 < dimW x ->
  call name (conv1x1 i o s b) training x tt = Ok (strided x o s, tt).
Proof.
  intros Hc Hs Hh Hw.
  unfold call, shape_torch, call_module, conv1x1, nn_Conv2d, shape_ext.
  rewrite conv_shape_ok;
    cbn [in_channels stride kernel_size padding dilation out_channels];
    try rewrite (conv_out_1x1_stride (dimH x));
    try rewrite (conv_out_1x1_stride (dimW x)); try assumption;
    [reflexivity | now apply conv_out_pos ..].
Qed.

Lemma call_conv_wrong_channels (name : string) (c : Conv2d) (x : Shape) :
  dimC x <> in_channels c ->
  call name (LConv2d c) training x tt
  = Raise (RuntimeError "input channels do not match the weight").
Proof.
  intros Hc. unfold call, shape_torch, call_module, shape_ext, conv_shape.
  apply Z.eqb_neq in Hc. now rewrite Hc.
Qed.

Lemma call_activation (name a : string) (x : Shape) :
  call name (LActivation a) training x tt = Ok (x, tt).
Proof. reflexivity. Qed.

Lemma call_blurpool (name : string) (c o : Z) (x : Shape) :
  call name (LBlurPool c) training (strided x o 1) tt = Ok (strided x o 2, tt).
Proof.
  unfold call, shape_torch, call_module, shape_ext, blurpool_shape, strided, lift.
  cbn [dimN dimC dimH dimW]. now rewrite !(conv_out_blur_after _ 1).
Qed.

Lemma eca_shape_ok (x : Shape) : 1 <= dimN x -> 1 <= dimC x -> eca_shape x = Ok x.
Proof.
  intros Hn Hc. unfold eca_shape.
  replace (dimN x <=? 0) with false by (symmetry; apply Z.leb_gt; lia).
  replace (dimC x <=? 0) with false by (symmetry; apply Z.leb_gt; lia).
  reflexivity.
Qed.

Lemma call_attention (name : string) (cls : AttnClass) (ch r : Z) (na : option string)
    (x : Shape) :
  dimC x = ch -> 1 <= dimN x -> 1 <= ch -> 1 <= r ->
  call name (attn_new cls ch r na) training x tt = Ok (x, tt).
Proof.
  intros Hc Hn Hch Hr. subst ch.
  destruct cls; cbn; unfold se_shape, check_channels;
    rewrite ?Z.eqb_refl; cbn [res_bind]; rewrite ?eca_shape_ok by assumption;
    try reflexivity.
  replace (r <=? 0) with false by (symmetry; apply Z.leb_gt; lia). reflexivity.
Qed.

Lemma quarter_pos (n : Z) : 4 <= n -> 1 <= n / 4.
Proof. intros H. apply Z.div_le_lower_bound; lia. Qed.

Lemma call_drop_connect (name : string) (kp : Q) (x : Shape) :
  call name (new_drop_connect kp) training x tt = Ok (x, tt).
Proof.
  unfold new_drop_connect. destruct (Qltb kp 1); [| reflexivity].
  destruct training; [| reflexivity].
  destruct x as [n c h w]. cbn. unfold broadcast_shape. cbn [dimN dimC dimH dimW].
  now rewrite broadcast_dim_same, !broadcast_dim_one_r.
Qed.

Lemma add_same_shape (x : Shape) : add x x tt = Ok (x, tt).
Proof. cbn. now rewrite broadcast_shape_same. Qed.

End ShapeContracts.

(** X1: on shapes, [conv3x3] built with stride [s >= 1] (and with groups
    that divide both channel counts, as the engine requires) maps an input
    with the channel count it was built for to [out_planes] channels and
    spatial sizes [(H - 1) / s + 1] and [(W - 1) / s + 1], whatever the
    dilation, the groups and the bias (the padding it sets equals the
    dilation); with stride 1 only the channel count changes.  [conv1x1] does
    the same.  An input with another channel count is refused. *)
Theorem X1_conv_helpers_shape :
  forall (training : bool) (name : string) (i o s g d : Z) (b : bool) (x : Shape),
    1 <= i -> 1 <= o -> 1 <= d -> 1 <= g -> (g | i) -> (g | o) ->
    (dimC x = i -> 1 <= s -> 0 < dimH x -> 0 < dimW x ->
     call name (conv3x3 i o s g d b) training x tt = Ok (strided x o s, tt) /\
     call name (conv1x1 i o s b) training x tt = Ok (strided x o s, tt) /\
     dimH (strided x o s) = (dimH x - 1) / s + 1 /\
     dimW (strided x o s) = (dimW x - 1) / s + 1 /\
     strided x o 1 = with_channels x o) /\
    (dimC x <> i ->
     succeeds (call name (conv3x3 i o s g d b) training x tt) = false /\
     succeeds (call name (conv1x1 i o s b) training x tt) = false).
Proof.
  intros training name i o s g d b x _ _ _ _ _ _. split.
  - intros Hc Hs Hh Hw. split; [now apply call_conv3x3_any |].
    split; [now apply call_conv1x1_any |].
    unfold strided, conv_out. cbn [dimH dimW].
    repeat split; try (do 2 f_equal; lia).
    apply strided_is_with_channels.
  - intros Hc. unfold conv3x3, conv1x1, nn_Conv2d.
    now rewrite !call_conv_wrong_channels.
Qed.

Lemma X1_conv_helpers_shape_witness :
  call "conv" (conv3x3 16 32 2 4 3 false) false
       {| dimN := 2; dimC := 16; dimH := 9; dimW := 12 |} tt
  = Ok ({| dimN := 2; dimC := 32; dimH := 5; dimW := 6 |}, tt) /\
  succeeds (call "conv" (conv1x1 16 32 1 true) false
                 {| dimN := 2; dimC := 8; dimH := 9; dimW := 12 |} tt) = false.
Proof.
  assert (H4 : (4 | 16)) by (exists 4; reflexivity).
  assert (H8 : (4 | 32)) by (exists 8; reflexivity).
  split.
  - refine (eq_trans (proj1 (proj1 (X1_conv_helpers_shape false "conv" 16 32 2 4 3 false
      {| dimN := 2; dimC := 16; dimH := 9; dimW := 12 |} _ _ _ _ H4 H8) _ _ _ _)) _);
      try reflexivity; discriminate.
  - refine (proj2 (proj2 (X1_conv_helpers_shape false "conv" 16 32 1 4 1 true
      {| dimN := 2; dimC := 8; dimH := 9; dimW := 12 |} _ _ _ _ H4 H8) _)); discriminate.
Defined.

(** ** DepthwiseSeparableConv on shapes *)

Ltac mstep lem :=
  erewrite bind_ok by (apply lem; first [assumption | reflexivity | lia]).

Lemma call_sequential_cons (training : bool) (name : string) (l : Layer) (ls : list Layer)
    (x : Shape) :
  call name (LSequential (l :: ls)) training x tt
  = (y <- call name l training x ;; call name (LSequential ls) training y) tt.
Proof. reflexivity. Qed.

(** X2: on shapes, [DepthwiseSeparableConv] maps [in_channels] channels to
    [out_channels] channels and each spatial size [H] to [(H - 1) / stride + 1],
    for every dilation and with or without the final normalisation. *)
Theorem X2_DepthwiseSeparableConv_shape :
  forall (training : bool) (name : string) (i o s d : Z) (na : string) (use_norm : bool)
         (x : Shape),
    1 <= i -> 1 <= o -> 1 <= d ->
    dimC x = i -> 1 <= s -> 0 < dimH x -> 0 < dimW x ->
    call name (DepthwiseSeparableConv.init i o s d ABN na use_norm) training x tt
    = Ok (strided x o s, tt).
Proof.
  intros training name i o s d na use_norm x _ _ _ Hc Hs Hh Hw.
  destruct (strided_dims x i s Hh Hw Hs) as [Hh' Hw'].
  unfold DepthwiseSeparableConv.init.
  rewrite call_sequential_cons. mstep call_conv3x3_any.
  rewrite call_sequential_cons. mstep call_conv1x1_any.
  rewrite strided_strided_1, call_sequential_cons.
  destruct use_norm.
  - mstep call_ABN. reflexivity.
  - reflexivity.
Qed.

Lemma X2_DepthwiseSeparableConv_shape_witness :
  call "conv" (DepthwiseSeparableConv.init 32 64 2 3 ABN "relu" false) true
       {| dimN := 2; dimC := 32; dimH := 9; dimW := 9 |} tt
  = Ok ({| dimN := 2; dimC := 64; dimH := 5; dimW := 5 |}, tt).
Proof.
  refine (eq_trans (X2_DepthwiseSeparableConv_shape true "conv" 32 64 2 3 "relu" false
    {| dimN := 2; dimC := 32; dimH := 9; dimW := 9 |} _ _ _ _ _ _ _) _);
    try reflexivity; discriminate.
Defined.

(** ** The attention modules on shapes *)

Lemma gshape_call_conv1x1 (training : bool) (name : string) (i o : Z) (b : bool)
    (n h w : Z) :
  0 < h -> 0 < w ->
  call name (conv1x1 i o 1 b) training [n; i; h; w] tt = Ok ([n; o; h; w], tt).
Proof.
  intros Hh Hw. cbn [call gshape_torch to_shape res_bind].
  rewrite (call_conv1x1_any training name i o 1 b
             {| dimN := n; dimC := i; dimH := h; dimW := w |})
    by (cbn; first [reflexivity | lia]).
  rewrite strided_is_with_channels. reflexivity.
Qed.

Lemma gshape_call_conv_wrong (training : bool) (name : string) (c : Conv2d) (n ch h w : Z) :
  ch <> in_channels c ->
  succeeds (call name (LConv2d c) training [n; ch; h; w] tt) = false.
Proof.
  intros Hc. cbn [call gshape_torch to_shape res_bind].
  now rewrite call_conv_wrong_channels.
Qed.

Lemma broadcast_gate (n c h w : Z) :
  broadcast_gshape [n; c; h; w] [n; c; 1; 1] = Ok [n; c; h; w].
Proof.
  unfold broadcast_gshape. cbn [rev app broadcast_rev].
  now rewrite !broadcast_dim_one_r, !broadcast_dim_same.
Qed.

Lemma broadcast_spatial_gate (n c h w : Z) :
  broadcast_gshape [n; c; h; w] [n; 1; h; w] = Ok [n; c; h; w].
Proof.
  unfold broadcast_gshape. cbn [rev app broadcast_rev].
  now rewrite !broadcast_dim_one_r, !broadcast_dim_same.
Qed.

Lemma broadcast_gshape_same (n c h w : Z) :
  broadcast_gshape [n; c; h; w] [n; c; h; w] = Ok [n; c; h; w].
Proof.
  unfold broadcast_gshape. cbn [rev app broadcast_rev].
  now rewrite !broadcast_dim_same.
Qed.

Lemma view_to_channel_axis (n c : Z) :
  1 <= n -> view_gshape [n; c; 1; 1] [n; 1; -1] = Ok [n; 1; c].
Proof.
  intros Hn. unfold view_gshape.
  assert (E1 : (n <? -1) = false) by (apply Z.ltb_ge; lia).
  assert (E2 : (n =? -1) = false) by (apply Z.eqb_neq; lia).
  cbn [existsb List.filter map fold_right length numel negb]. rewrite E1, E2.
  cbn [existsb List.filter map fold_right length numel negb orb Z.ltb Z.eqb Z.compare
       Pos.compare Pos.compare_cont Nat.sub Pos.eqb].
  replace (n * (1 * 1)) with n by lia. replace (n * (c * (1 * (1 * 1)))) with (c * n) by lia.
  replace (n =? 0) with false by (symmetry; apply Z.eqb_neq; lia).
  rewrite Z.mod_mul, Z.div_mul by lia. reflexivity.
Qed.

Lemma view_from_channel_axis (n c : Z) :
  1 <= n -> view_gshape [n; 1; c] [n; -1; 1; 1] = Ok [n; c; 1; 1].
Proof.
  intros Hn. unfold view_gshape.
  assert (E1 : (n <? -1) = false) by (apply Z.ltb_ge; lia).
  assert (E2 : (n =? -1) = false) by (apply Z.eqb_neq; lia).
  cbn [existsb List.filter map fold_right length numel negb]. rewrite E1, E2.
  cbn [existsb List.filter map fold_right length numel negb orb Z.ltb Z.eqb Z.compare
       Pos.compare Pos.compare_cont Nat.sub Pos.eqb].
  replace (n * (1 * (1 * 1))) with n by lia. replace (n * (1 * (c * 1))) with (c * n) by lia.
  replace (n =? 0) with false by (symmetry; apply Z.eqb_neq; lia).
  rewrite Z.mod_mul, Z.div_mul by lia. reflexivity.
Qed.

Lemma view_empty_batch (c : Z) :
  view_gshape [0; c; 1; 1] [0; 1; -1]
  = Raise (RuntimeError "the unspecified dimension size -1 is ambiguous").
Proof. reflexivity. Qed.

Lemma expand_gate (n c h w : Z) :
  expand_as [n; c; 1; 1] [n; c; h; w] = Ok [n; c; h; w].
Proof.
  cbn [expand_as gshape_attention rev app expand_rev].
  change (1 =? 1) with true. rewrite !orb_true_r, !Z.eqb_refl. reflexivity.
Qed.

Section AttentionShapes.

Variables (training : bool) (n c h w : Z).

Hypothesis Hn : 1 <= n.
Hypothesis Hc : 1 <= c.
Hypothesis Hh : 1 <= h.
Hypothesis Hw : 1 <= w.

Lemma SEModule_keeps_shape (r : Z) (na : string) :
  SEModule.forward (SEModule.init c r na) training [n; c; h; w] tt = Ok ([n; c; h; w], tt).
Proof.
  unfold SEModule.forward, SEModule.init.
  cbn [SEModule.fc1 SEModule.act1 SEModule.fc2 sigmoid gshape_attention].
  erewrite bind_ok by reflexivity.
  erewrite bind_ok by (apply gshape_call_conv1x1; first [reflexivity | lia]).
  erewrite bind_ok by reflexivity.
  erewrite bind_ok by (apply gshape_call_conv1x1; first [reflexivity | lia]).
  cbn [tmul gshape_arith]. now rewrite broadcast_gate.
Qed.

Lemma SEModule_wrong_channels (ch r : Z) (na : string) :
  c <> ch ->
  succeeds (SEModule.forward (SEModule.init ch r na) training [n; c; h; w] tt) = false.
Proof.
  intros Hne. unfold SEModule.forward, SEModule.init.
  cbn [SEModule.fc1 SEModule.act1 SEModule.fc2].
  erewrite bind_ok by reflexivity.
  unfold bind at 1.
  pose proof (gshape_call_conv_wrong training "fc1"
                {| in_channels := ch; out_channels := r; kernel_size := 1; stride := 1;
                   padding := 0; groups := 1; bias := true; dilation := 1 |}
                n c 1 1 Hne) as E.
  unfold conv1x1, nn_Conv2d.
  destruct (call "fc1" _ training [n; c; 1; 1] tt) as [[y u] |]; [discriminate E | reflexivity].
Qed.

Lemma ECAModule_keeps_shape :
  ECAModule.forward ECAModule.init training [n; c; h; w] tt = Ok ([n; c; h; w], tt).
Proof.
  unfold ECAModule.forward, ECAModule.init.
  cbn [ECAModule.conv sigmoid gshape_attention size0 gshape_arith hd view].
  erewrite bind_ok by reflexivity.
  rewrite (view_to_channel_axis n c Hn), bind_lift_ok.
  assert (Hconv : call_conv1d "conv"
                    {| conv1d_in_channels := 1; conv1d_out_channels := 1;
                       conv1d_kernel_size := 3; conv1d_stride := 1; conv1d_padding := 1;
                       conv1d_dilation := 1; conv1d_bias := false |} training [n; 1; c] tt
                  = Ok ([n; 1; c], tt)).
  { cbn [call_conv1d gshape_attention conv1d_gshape conv1d_in_channels conv1d_stride
         conv1d_kernel_size conv1d_padding conv1d_dilation conv1d_out_channels].
    rewrite conv_out_stride1.
    replace (c <=? 0) with false by (symmetry; apply Z.leb_gt; lia). reflexivity. }
  rewrite (bind_ok _ _ _ _ _ Hconv).
  rewrite (view_from_channel_axis n c Hn), bind_lift_ok.
  rewrite expand_gate, bind_lift_ok.
  cbn [tmul gshape_arith]. now rewrite broadcast_gshape_same.
Qed.

Lemma SSEModule_keeps_shape :
  SSEModule.forward (SSEModule.init c) training [n; c; h; w] tt = Ok ([n; c; h; w], tt).
Proof.
  unfold SSEModule.forward, SSEModule.init.
  cbn [SSEModule.conv sigmoid gshape_attention].
  erewrite bind_ok by (apply gshape_call_conv1x1; first [reflexivity | lia]).
  cbn [tmul gshape_arith]. now rewrite broadcast_spatial_gate.
Qed.

Lemma SSEModule_wrong_channels (ch : Z) :
  c <> ch ->
  succeeds (SSEModule.forward (SSEModule.init ch) training [n; c; h; w] tt) = false.
Proof.
  intros Hne. unfold SSEModule.forward, SSEModule.init. cbn [SSEModule.conv].
  unfold bind at 1.
  pose proof (gshape_call_conv_wrong training "conv"
                {| in_channels := ch; out_channels := 1; kernel_size := 1; stride := 1;
                   padding := 0; groups := 1; bias := true; dilation := 1 |}
                n c h w Hne) as E.
  unfold conv1x1, nn_Conv2d.
  destruct (call "conv" _ training [n; c; h; w] tt) as [[y u] |]; [discriminate E | reflexivity].
Qed.

Lemma SCSEModule_keeps_shape :
  SCSEModule.forward (SCSEModule.init c) training [n; c; h; w] tt = Ok ([n; c; h; w], tt).
Proof.
  unfold SCSEModule.forward, SCSEModule.init.
  cbn [SCSEModule.sse SCSEModule.cse SCSEModule.reduction_conv].
  rewrite (bind_ok _ _ _ _ _ SSEModule_keeps_shape).
  rewrite (bind_ok _ _ _ _ _ ECAModule_keeps_shape).
  assert (Hcat : cat [[n; c; h; w]; [n; c; h; w]] = Ok [n; c * 2; h; w]).
  { cbn [cat gshape_channels cat_gshapes forallb map fold_left nth].
    rewrite Z.eqb_refl, bool_decide_eq_true_2 by reflexivity.
    cbn [andb]. do 3 f_equal. lia. }
  rewrite Hcat, bind_lift_ok.
  apply gshape_call_conv1x1; lia.
Qed.

End AttentionShapes.

(** X3: on shapes, [SEModule] returns a tensor of the shape of its input
    when the input has the channel count the module was built for, whatever
    the (positive) reduced channel count and the activation; with any other
    channel count the first 1x1 convolution refuses the pooled tensor. *)
Theorem X3_SEModule_shape :
  forall (training : bool) (channels r : Z) (na : string) (n c h w : Z),
    1 <= channels -> 1 <= r ->
    1 <= n -> 1 <= c -> 1 <= h -> 1 <= w ->
    (c = channels ->
     SEModule.forward (SEModule.init channels r na) training [n; c; h; w] tt
     = Ok ([n; c; h; w], tt)) /\
    (c <> channels ->
     succeeds (SEModule.forward (SEModule.init channels r na) training [n; c; h; w] tt)
     = false).
Proof.
  intros training channels r na n c h w _ _ Hn Hc Hh Hw. split.
  - intros <-. now apply SEModule_keeps_shape.
  - intros Hne. now apply SEModule_wrong_channels.
Qed.

Lemma X3_SEModule_shape_witness :
  SEModule.forward (SEModule.init 64 16 "relu") false [2; 64; 8; 8] tt
  = Ok ([2; 64; 8; 8], tt) /\
  succeeds (SEModule.forward (SEModule.init 64 16 "relu") false [2; 32; 8; 8] tt) = false.
Proof.
  split.
  - apply (proj1 (X3_SEModule_shape false 64 16 "relu" 2 64 8 8
                    ltac:(discriminate) ltac:(discriminate)
                    ltac:(discriminate) ltac:(discriminate) ltac:(discriminate)
                    ltac:(discriminate))). reflexivity.
  - apply (proj2 (X3_SEModule_shape false 64 16 "relu" 2 32 8 8
                    ltac:(discriminate) ltac:(discriminate)
                    ltac:(discriminate) ltac:(discriminate) ltac:(discriminate)
                    ltac:(discriminate))). discriminate.
Defined.

(** X4: on shapes, [ECAModule] returns a tensor of the shape of its input for
    every channel count, provided the batch is not empty; on an empty batch
    the size that its first [view] leaves to be inferred is ambiguous, and the
    forward pass raises. *)
Theorem X4_ECAModule_shape :
  forall (training : bool) (n c h w : Z),
    (1 <= n -> 1 <= c -> 1 <= h -> 1 <= w ->
     ECAModule.forward ECAModule.init training [n; c; h; w] tt = Ok ([n; c; h; w], tt)) /\
    (n = 0 ->
     ECAModule.forward ECAModule.init training [n; c; h; w] tt
     = Raise (RuntimeError "the unspecified dimension size -1 is ambiguous")).
Proof.
  intros training n c h w. split.
  - intros. now apply ECAModule_keeps_shape.
  - intros ->. reflexivity.
Qed.

Lemma X4_ECAModule_shape_witness :
  ECAModule.forward ECAModule.init true [2; 48; 7; 5] tt = Ok ([2; 48; 7; 5], tt) /\
  ECAModule.forward ECAModule.init true [0; 48; 7; 5] tt
  = Raise (RuntimeError "the unspecified dimension size -1 is ambiguous").
Proof.
  split.
  - apply (proj1 (X4_ECAModule_shape true 2 48 7 5)); discriminate.
  - apply (proj2 (X4_ECAModule_shape true 0 48 7 5)). reflexivity.
Defined.

(** X5: on shapes, [SSEModule] returns a tensor of the shape of its input
    when the input has the channel count the module was built for, and
    raises otherwise. *)
Theorem X5_SSEModule_shape :
  forall (training : bool) (in_ch n c h w : Z),
    1 <= in_ch ->
    1 <= n -> 1 <= c -> 1 <= h -> 1 <= w ->
    (c = in_ch ->
     SSEModule.forward (SSEModule.init in_ch) training [n; c; h; w] tt
     = Ok ([n; c; h; w], tt)) /\
    (c <> in_ch ->
     succeeds (SSEModule.forward (SSEModule.init in_ch) training [n; c; h; w] tt) = false).
Proof.
  intros training in_ch n c h w _ Hn Hc Hh Hw. split.
  - intros <-. now apply SSEModule_keeps_shape.
  - intros Hne. now apply SSEModule_wrong_channels.
Qed.

Lemma X5_SSEModule_shape_witness :
  SSEModule.forward (SSEModule.init 64) false [2; 64; 8; 8] tt = Ok ([2; 64; 8; 8], tt) /\
  succeeds (SSEModule.forward (SSEModule.init 64) false [2; 32; 8; 8] tt) = false.
Proof.
  split.
  - apply (proj1 (X5_SSEModule_shape false 64 2 64 8 8 ltac:(discriminate)
                    ltac:(discriminate) ltac:(discriminate) ltac:(discriminate)
                    ltac:(discriminate))). reflexivity.
  - apply (proj2 (X5_SSEModule_shape false 64 2 32 8 8 ltac:(discriminate)
                    ltac:(discriminate) ltac:(discriminate) ltac:(discriminate)
                    ltac:(discriminate))). discriminate.
Defined.

(** X6: on shapes, [SCSEModule] returns as many channels as it received: the
    spatial and the channel branch are concatenated to twice the channel
    count and the reduction convolution brings it back, so the output has
    the shape of the input. *)
Theorem X6_SCSEModule_shape :
  forall (training : bool) (n c h w : Z),
    1 <= n -> 1 <= c -> 1 <= h -> 1 <= w ->
    SCSEModule.forward (SCSEModule.init c) training [n; c; h; w] tt
    = Ok ([n; c; h; w], tt) /\
    (a <- SSEModule.forward (SCSEModule.sse (SCSEModule.init c)) training [n; c; h; w] ;;
     b <- ECAModule.forward (SCSEModule.cse (SCSEModule.init c)) training [n; c; h; w] ;;
     lift (cat [a; b])) tt
    = Ok ([n; c * 2; h; w], tt).
Proof.
  intros training n c h w Hn Hc Hh Hw. split; [now apply SCSEModule_keeps_shape |].
  cbn [SCSEModule.init SCSEModule.sse SCSEModule.cse].
  erewrite bind_ok by (apply SSEModule_keeps_shape; assumption).
  erewrite bind_ok by (apply ECAModule_keeps_shape; assumption).
  cbn [cat gshape_channels cat_gshapes forallb map fold_left nth lift].
  rewrite Z.eqb_refl, bool_decide_eq_true_2 by reflexivity.
  cbn [andb]. replace (c + c) with (c * 2) by lia. reflexivity.
Qed.

Lemma X6_SCSEModule_shape_witness :
  SCSEModule.forward (SCSEModule.init 64) false [2; 64; 8; 8] tt = Ok ([2; 64; 8; 8], tt).
Proof.
  apply (proj1 (X6_SCSEModule_shape false 2 64 8 8
                  ltac:(discriminate) ltac:(discriminate) ltac:(discriminate)
                  ltac:(discriminate))).
Defined.

(** X7: whichever class [get_attn] selects, the module built for a channel
    count [c] (and a reduced channel count of at least 1) maps a non-empty
    tensor of [c] channels to a tensor of the same shape; the rule by which
    the shape engine treats such a module as one layer of a block gives the
    same answer. *)
Theorem X7_attention_preserves_shape :
  forall (attn_type : option string) (cls : AttnClass) (training : bool) (name : string)
         (r : Z) (na : option string) (n c h w : Z),
    get_attn attn_type = Ok cls -> 1 <= r ->
    1 <= n -> 1 <= c -> 1 <= h -> 1 <= w ->
    attention_forward cls c r na training [n; c; h; w] tt = Ok ([n; c; h; w], tt) /\
    call name (attn_new cls c r na) training
         {| dimN := n; dimC := c; dimH := h; dimW := w |} tt
    = Ok ({| dimN := n; dimC := c; dimH := h; dimW := w |}, tt).
Proof.
  intros attn_type cls training name r na n c h w _ Hr Hn Hc Hh Hw. split.
  - destruct cls; cbn [attention_forward].
    + now apply SEModule_keeps_shape.
    + now apply ECAModule_keeps_shape.
    + now apply SSEModule_keeps_shape.
    + now apply SCSEModule_keeps_shape.
    + reflexivity.
  - apply call_attention; first [reflexivity | assumption].
Qed.

Lemma X7_attention_preserves_shape_witness :
  attention_forward SCSEModule 64 16 None false [2; 64; 8; 8] tt = Ok ([2; 64; 8; 8], tt).
Proof.
  apply (proj1 (X7_attention_preserves_shape (Some "scSE") SCSEModule false "se" 16 None
                  2 64 8 8 ltac:(vm_compute; reflexivity) ltac:(discriminate)
                  ltac:(discriminate) ltac:(discriminate) ltac:(discriminate)
                  ltac:(discriminate))).
Defined.

(** ** The shape contract of the blocks *)

Lemma antialias_stride (antialias : bool) (s : Z) : antialias && (s =? 2) = true -> s = 2.
Proof. intros H. apply andb_true_iff in H as [_ H]. now apply Z.eqb_eq. Qed.

(** X8: on shapes and for a non-empty batch, a [BasicBlock] of at least 4
    planes (so that the squeeze width [planes // 4] is positive) maps
    [inplanes] channels to [planes] channels and each spatial size [H] to
    [(H - 1) / stride + 1], with or without anti-aliasing, for every
    attention class, dilation, keep probability and mode, provided the
    residual has that shape too: either a [downsample] module produces it,
    or there is none, the channel counts agree and the stride is 1. *)
Theorem X8_BasicBlock_shape :
  forall (training : bool) (inplanes planes s : Z) (downsample : option Layer)
         (groups base_width : Z) (attn_type : option string) (d : Z) (na : string)
         (antialias : bool) (kp : Q) (b : BasicBlock.t) (x : Shape),
    BasicBlock.init inplanes planes s downsample groups base_width attn_type d ABN na
                    antialias kp = Ok b ->
    1 <= inplanes -> 4 <= planes -> 1 <= d -> 1 <= dimN x ->
    dimC x = inplanes -> 1 <= s -> 0 < dimH x -> 0 < dimW x ->
    match downsample with
    | Some m => call "downsample" m training x tt = Ok (strided x planes s, tt)
    | None => inplanes = planes /\ s = 1
    end ->
    BasicBlock.forward b training x tt = Ok (strided x planes s, tt).
Proof.
  intros training inplanes planes s downsample groups base_width attn_type d na antialias kp
    b x Hinit _ Hp _ Hn Hc Hs Hh Hw Hres.
  pose proof (quarter_pos planes Hp) as Hr.
  unfold BasicBlock.init in Hinit.
  destruct (py_assert (groups =? 1) _) as [[] |] eqn:Hg; [| discriminate].
  apply py_assert_ok in Hg. apply Z.eqb_eq in Hg. subst groups.
  destruct (py_assert (base_width =? 64) _) as [[] |]; [| discriminate].
  destruct (get_attn attn_type) as [attn |]; [| discriminate].
  cbn [res_bind] in Hinit. injection Hinit as <-.
  unfold BasicBlock.expansion. rewrite Z.mul_1_r.
  destruct (strided_dims x planes s Hh Hw Hs) as [Hh' Hw'].
  assert (Hresidual :
    forall k : Shape -> M unit Shape,
      bind (match downsample with
            | Some m => call "downsample" m training x
            | None => ret x
            end) k tt = k (strided x planes s) tt).
  { intros k. destruct downsample as [m |].
    - now rewrite (bind_ok _ _ _ _ _ Hres).
    - destruct Hres as [-> ->]. rewrite bind_ret, <- Hc, strided_1. reflexivity. }
  unfold BasicBlock.forward.
  cbn [BasicBlock.conv1 BasicBlock.bn1 BasicBlock.conv2 BasicBlock.bn2 BasicBlock.se_module
       BasicBlock.final_act BasicBlock.downsample BasicBlock.blurpool BasicBlock.antialias
       BasicBlock.drop_connect].
  rewrite Hresidual.
  assert (Hmain :
    forall k : Shape -> M unit Shape,
      (out <- call "conv1"
                   (conv3x3 inplanes planes (if antialias && (s =? 2) then 1 else s) 1 d false)
                   training x ;;
       out <- call "bn1" (ABN planes na) training out ;;
       out <- (if antialias && (s =? 2)
               then call "blurpool"
                         (if antialias && (s =? 2) then LBlurPool planes else LIdentity)
                         training out
               else ret out) ;;
       k out) tt = k (strided x planes s) tt).
  { intros k. destruct (antialias && (s =? 2)) eqn:Haa.
    - apply antialias_stride in Haa. subst s.
      mstep call_conv3x3_any. mstep call_ABN. mstep call_blurpool. reflexivity.
    - mstep call_conv3x3_any. mstep call_ABN. rewrite bind_ret. reflexivity. }
  rewrite Hmain.
  mstep call_conv3x3_any. rewrite strided_strided_1.
  mstep call_ABN. mstep call_attention. mstep call_drop_connect.
  erewrite bind_ok by apply add_same_shape.
  apply call_activation.
Qed.

Lemma X8_BasicBlock_shape_witness :
  res_map (fun b => BasicBlock.forward b true
                      {| dimN := 2; dimC := 64; dimH := 32; dimW := 32 |} tt)
    (BasicBlock.init 64 128 2 (Some (conv1x1 64 128 2 false)) 1 64 (Some "scse") 1 ABN "relu"
                     true (1 # 2))
  = Ok (Ok ({| dimN := 2; dimC := 128; dimH := 16; dimW := 16 |}, tt)).
Proof.
  destruct (BasicBlock.init 64 128 2 (Some (conv1x1 64 128 2 false)) 1 64 (Some "scse") 1 ABN
              "relu" true (1 # 2)) as [b |] eqn:E; [| discriminate E].
  cbn [res_map res_bind]. f_equal.
  refine (eq_trans (X8_BasicBlock_shape true 64 128 2 (Some (conv1x1 64 128 2 false)) 1 64
    (Some "scse") 1 "relu" true (1 # 2) b
    {| dimN := 2; dimC := 64; dimH := 32; dimW := 32 |} E _ _ _ _ _ _ _ _ _) _);
    try reflexivity; discriminate.
Defined.

(** The main path of a [Bottleneck] and of a [TBottleneck] up to the point
    where the anti-aliasing filter may sit. *)
Lemma bottleneck_main_shape (training : bool) (inplanes width s groups d : Z) (na : string)
    (antialias : bool) (x : Shape) (k : Shape -> M unit Shape) :
  dimC x = inplanes -> 1 <= s -> 0 < dimH x -> 0 < dimW x ->
  (out <- call "conv1" (conv1x1 inplanes width 1 false) training x ;;
   out <- call "bn1" (ABN width na) training out ;;
   out <- call "conv2"
               (conv3x3 width width (if antialias && (s =? 2) then 1 else s) groups d false)
               training out ;;
   out <- call "bn2" (ABN width na) training out ;;
   out <- (if antialias && (s =? 2)
           then call "blurpool"
                     (if antialias && (s =? 2) then LBlurPool width else LIdentity)
                     training out
           else ret out) ;;
   k out) tt = k (strided x width s) tt.
Proof.
  intros Hc Hs Hh Hw.
  mstep call_conv1x1_any. mstep call_ABN. rewrite strided_is_with_channels.
  change (strided x width s) with (strided (with_channels x width) width s).
  destruct (antialias && (s =? 2)) eqn:Haa.
  - apply antialias_stride in Haa. subst s.
    mstep call_conv3x3_any. mstep call_ABN. mstep call_blurpool. reflexivity.
  - mstep call_conv3x3_any. mstep call_ABN. rewrite bind_ret. reflexivity.
Qed.

(** X9: on shapes and for a non-empty batch, a [Bottleneck] of at least 4
    planes maps [inplanes] channels to [4 * planes] channels and each
    spatial size [H] to [(H - 1) / stride + 1], with or without
    anti-aliasing, for every positive width ([base_width], [groups]),
    attention class, dilation, keep probability and mode, provided the
    residual has that shape too. *)
Theorem X9_Bottleneck_shape :
  forall (training : bool) (inplanes planes s : Z) (downsample : option Layer)
         (groups base_width : Z) (attn_type : option string) (d : Z) (na : string)
         (antialias : bool) (kp : Q) (b : Bottleneck.t) (x : Shape),
    Bottleneck.init inplanes planes s downsample groups base_width attn_type d ABN na
                    antialias kp = Ok b ->
    1 <= inplanes -> 4 <= planes -> 1 <= d -> 1 <= groups ->
    1 <= py_floor (inject_Z planes * (inject_Z base_width / 64))%Q ->
    1 <= dimN x ->
    dimC x = inplanes -> 1 <= s -> 0 < dimH x -> 0 < dimW x ->
    match downsample with
    | Some m => call "downsample" m training x tt = Ok (strided x (planes * 4) s, tt)
    | None => inplanes = planes * 4 /\ s = 1
    end ->
    Bottleneck.forward b training x tt = Ok (strided x (planes * 4) s, tt).
Proof.
  intros training inplanes planes s downsample groups base_width attn_type d na antialias kp
    b x Hinit _ Hp _ _ _ Hn Hc Hs Hh Hw Hres.
  pose proof (quarter_pos planes Hp) as Hr.
  unfold Bottleneck.init in Hinit.
  destruct (get_attn attn_type) as [attn |]; [| discriminate].
  cbn [res_bind] in Hinit. injection Hinit as <-.
  unfold Bottleneck.expansion.
  set (width := py_floor (inject_Z planes * (inject_Z base_width / 64))%Q * groups).
  destruct (strided_dims x width s Hh Hw Hs) as [Hh' Hw'].
  assert (Hresidual :
    forall k : Shape -> M unit Shape,
      bind (match downsample with
            | Some m => call "downsample" m training x
            | None => ret x
            end) k tt = k (strided x (planes * 4) s) tt).
  { intros k. destruct downsample as [m |].
    - now rewrite (bind_ok _ _ _ _ _ Hres).
    - destruct Hres as [E ->]. rewrite bind_ret, <- E, <- Hc, strided_1. reflexivity. }
  unfold Bottleneck.forward.
  cbn [Bottleneck.conv1 Bottleneck.bn1 Bottleneck.conv2 Bottleneck.bn2 Bottleneck.conv3
       Bottleneck.bn3 Bottleneck.se_module Bottleneck.final_act Bottleneck.downsample
       Bottleneck.blurpool Bottleneck.antialias Bottleneck.drop_connect].
  rewrite Hresidual.
  rewrite (bottleneck_main_shape training inplanes width s groups d na antialias x _
             Hc Hs Hh Hw).
  mstep call_conv1x1_any. rewrite strided_strided_1.
  mstep call_ABN. mstep call_attention. mstep call_drop_connect.
  erewrite bind_ok by apply add_same_shape.
  apply call_activation.
Qed.

Lemma X9_Bottleneck_shape_witness :
  res_map (fun b => Bottleneck.forward b false
                      {| dimN := 2; dimC := 64; dimH := 32; dimW := 32 |} tt)
    (Bottleneck.init 64 16 1 None 1 64 (Some "se") 1 ABN "relu" false 1%Q)
  = Ok (Ok ({| dimN := 2; dimC := 64; dimH := 32; dimW := 32 |}, tt)).
Proof.
  destruct (Bottleneck.init 64 16 1 None 1 64 (Some "se") 1 ABN "relu" false 1%Q)
    as [b |] eqn:E; [| discriminate E].
  cbn [res_map res_bind]. f_equal.
  refine (eq_trans (X9_Bottleneck_shape false 64 16 1 None 1 64 (Some "se") 1 "relu" false
    1%Q b {| dimN := 2; dimC := 64; dimH := 32; dimW := 32 |} E _ _ _ _ _ _ _ _ _ _ _) _);
    try reflexivity; try discriminate. split; reflexivity.
Defined.

Lemma call_depthwise (training : bool) (name : string) (m j s d : Z) (x : Shape) :
  dimC x = m -> 0 <= j -> 1 <= s -> 0 < dimH x -> 0 < dimW x ->
  call name (nn_Conv2d m m (2 * j + 1) s (d * (2 * j + 1 - 1) / 2) d m false) training x tt
  = Ok (strided x m s, tt).
Proof.
  intros Hc Hj Hs Hh Hw.
  replace (d * (2 * j + 1 - 1) / 2) with (d * j)
    by (replace (d * (2 * j + 1 - 1)) with (d * j * 2) by lia; now rewrite Z.div_mul).
  assert (E : forall size, conv_out size (2 * j + 1) s (d * j) d = conv_out size 3 s 1 1).
  { intros size. unfold conv_out. do 2 f_equal. lia. }
  unfold call, shape_torch, call_module, nn_Conv2d, shape_ext.
  rewrite conv_shape_ok;
    cbn [in_channels stride kernel_size padding dilation out_channels];
    rewrite ?E; try assumption; [reflexivity | now apply conv_out_pos ..].
Qed.

(** X10: on shapes and for a non-empty batch, an [InvertedResidual] with an
    odd depthwise kernel (and positive channel counts, [in_channels // 4]
    included, so [in_channels >= 4]) maps [in_channels] channels to
    [out_channels] channels and each spatial size [H] to
    [(H - 1) / stride + 1], whatever the dilation, the attention class,
    [noskip], the keep probability and the mode: the padding it computes
    undoes the kernel and the dilation.  With an expansion
    ([expand_ratio != 1]) this holds for every rounding of the expanded width;
    without one the depthwise convolution is built for the rounded
    [in_channels] and the block runs only if the rounding leaves
    [in_channels] unchanged, and raises otherwise. *)
Theorem X10_InvertedResidual_shape :
  forall (training : bool) (md : Q -> Z) (i o j s d : Z) (attn_type : option string)
         (e kp : Q) (noskip : bool) (na : string) (b : InvertedResidual.t) (x : Shape),
    InvertedResidual.init md i o (2 * j + 1) s d attn_type e kp noskip ABN na = Ok b ->
    4 <= i -> 1 <= o -> 1 <= d -> 1 <= md (inject_Z i * e)%Q -> 1 <= dimN x ->
    0 <= j -> dimC x = i -> 1 <= s -> 0 < dimH x -> 0 < dimW x ->
    (Qeq_bool e 1 = false \/ md (inject_Z i * e)%Q = i ->
     InvertedResidual.forward b training x tt = Ok (strided x o s, tt)) /\
    (Qeq_bool e 1 = true -> md (inject_Z i * e)%Q <> i ->
     InvertedResidual.forward b training x tt
     = Raise (RuntimeError "input channels do not match the weight")).
Proof.
  intros training md i o j s d attn_type e kp noskip na b x Hinit Hi _ _ Hmp Hn Hj Hc Hs Hh
    Hw.
  pose proof (quarter_pos i Hi) as Hr.
  unfold InvertedResidual.init in Hinit.
  destruct (get_attn attn_type) as [attn |]; [| discriminate].
  cbn [res_bind] in Hinit. injection Hinit as <-.
  set (mid := md (inject_Z i * e)%Q).
  destruct (strided_dims x mid s Hh Hw Hs) as [Hh' Hw'].
  unfold InvertedResidual.forward.
  cbn [InvertedResidual.has_residual InvertedResidual.has_expansion InvertedResidual.conv_pw
       InvertedResidual.bn1 InvertedResidual.conv_dw InvertedResidual.bn2 InvertedResidual.se
       InvertedResidual.conv_pw1 InvertedResidual.bn3 InvertedResidual.drop_connect].
  assert (Htail :
    forall y : Shape,
      dimC y = mid -> strided y mid s = strided x mid s ->
      0 < dimH y -> 0 < dimW y ->
      1 <= dimN y ->
      (y <- call "conv_dw" (nn_Conv2d mid mid (2 * j + 1) s (d * (2 * j + 1 - 1) / 2) d mid
                                      false) training y ;;
       y <- call "bn2" (ABN mid na) training y ;;
       y <- call "se" (attn_new attn mid (i / 4) (Some na)) training y ;;
       y <- call "conv_pw1" (conv1x1 mid o 1 false) training y ;;
       y <- call "bn3" (ABN o "identity") training y ;;
       (if (i =? o) && (s =? 1) && negb noskip
        then z <- call "drop_connect" (new_drop_connect kp) training y ;; add z x
        else ret y)) tt = Ok (strided x o s, tt)).
  { intros y Hy Hsame Hyh Hyw Hyn.
    mstep call_depthwise. rewrite Hsame.
    mstep call_ABN. mstep call_attention. mstep call_conv1x1_any.
    rewrite strided_strided_1. mstep call_ABN.
    destruct ((i =? o) && (s =? 1) && negb noskip) eqn:Hres; [| reflexivity].
    apply andb_true_iff in Hres as [Hres _]. apply andb_true_iff in Hres as [Hio Hs1].
    apply Z.eqb_eq in Hio, Hs1. subst o s.
    mstep call_drop_connect. rewrite <- Hc, strided_1. apply add_same_shape. }
  split.
  - intros Hexp. destruct (Qeq_bool e 1) eqn:He; cbn [negb].
    + destruct Hexp as [Hexp | Hexp]; [discriminate Hexp |].
      rewrite bind_ret. apply Htail; try assumption; [congruence | reflexivity].
    + assert (Hpre :
        (conv_pw <- getattr "conv_pw" (Some (conv1x1 i mid 1 false)) ;;
         y <- call "conv_pw" conv_pw training x ;;
         bn1 <- getattr "bn1" (Some (ABN mid na)) ;;
         call "bn1" bn1 training y) tt = Ok (with_channels x mid, tt)).
      { cbn [getattr]. rewrite bind_ret. mstep call_conv1x1_any.
        rewrite bind_ret, strided_is_with_channels. now apply call_ABN. }
      rewrite (bind_ok _ _ _ _ _ Hpre).
      apply Htail; first [reflexivity | assumption].
  - intros He Hmid. rewrite He. cbn [negb]. rewrite bind_ret.
    unfold bind at 1. unfold nn_Conv2d.
    rewrite call_conv_wrong_channels; [reflexivity |].
    cbn [in_channels]. congruence.
Qed.

Lemma X10_InvertedResidual_shape_witness :
  res_map (fun b => InvertedResidual.forward b true
                      {| dimN := 2; dimC := 32; dimH := 9; dimW := 9 |} tt)
    (InvertedResidual.init (fun q => Qceiling q) 32 32 (2 * 2 + 1) 1 2 (Some "scse") 6
                           (1 # 2) false ABN "relu")
  = Ok (Ok ({| dimN := 2; dimC := 32; dimH := 9; dimW := 9 |}, tt)) /\
  res_map (fun b => InvertedResidual.forward b true
                      {| dimN := 2; dimC := 30; dimH := 9; dimW := 9 |} tt)
    (InvertedResidual.init (fun _ => 32) 30 32 (2 * 1 + 1) 1 1 None 1 1 false ABN "relu")
  = Ok (Raise (RuntimeError "input channels do not match the weight")).
Proof.
  split.
  - destruct (InvertedResidual.init (fun q => Qceiling q) 32 32 (2 * 2 + 1) 1 2 (Some "scse")
                6 (1 # 2) false ABN "relu") as [b |] eqn:E; [| discriminate E].
    cbn [res_map res_bind]. f_equal.
    refine (eq_trans (proj1 (X10_InvertedResidual_shape true (fun q => Qceiling q) 32 32 2 1 2
      (Some "scse") 6 (1 # 2) false "relu" b
      {| dimN := 2; dimC := 32; dimH := 9; dimW := 9 |} E _ _ _ _ _ _ _ _ _ _) _) _);
      try reflexivity; try discriminate. left. reflexivity.
  - destruct (InvertedResidual.init (fun _ => 32) 30 32 (2 * 1 + 1) 1 1 None 1 1 false ABN
                "relu") as [b |] eqn:E; [| discriminate E].
    cbn [res_map res_bind]. f_equal.
    apply (proj2 (X10_InvertedResidual_shape true (fun _ => 32) 30 32 1 1 1 None 1 1 false
      "relu" b {| dimN := 2; dimC := 30; dimH := 9; dimW := 9 |} E
      ltac:(discriminate) ltac:(discriminate) ltac:(discriminate) ltac:(discriminate)
      ltac:(discriminate) ltac:(discriminate) eq_refl ltac:(discriminate) eq_refl eq_refl));
      [reflexivity | discriminate].
Defined.

Lemma call_ABN_wrong (training : bool) (name : string) (n : Z) (act : string) (x : Shape) :
  dimC x <> n ->
  call name (ABN n act) training x tt
  = Raise (RuntimeError "channel count does not match the module").
Proof.
  intros H. cbn. unfold check_channels. apply Z.eqb_neq in H. now rewrite H.
Qed.

Lemma DarkBasicBlock_init_refused (i o mid : Z) (ratio : PyNum) (attn_type : option string)
    (na : string) (kp : Q) :
  int_scaled i ratio = Ok mid -> 0 <= i -> 0 <= mid -> 0 <= o ->
  (~ (32 | mid) ->
   DarkBasicBlock.init i o ratio attn_type ABN na kp
   = Raise (ValueError "in_channels must be divisible by groups")) /\
  ((32 | mid) -> ~ (32 | o) ->
   DarkBasicBlock.init i o ratio attn_type ABN na kp
   = Raise (ValueError "out_channels must be divisible by groups")).
Proof.
  intros Hmid Hi Hm Ho. unfold DarkBasicBlock.init. rewrite Hmid. cbn [res_bind].
  rewrite (built_ABN mid na Hm). cbn [res_bind].
  assert (H1 : built (conv1x1 i mid 1 false) = Ok (conv1x1 i mid 1 false)).
  { unfold built, conv1x1, nn_Conv2d. rewrite Conv2d_check_pass; cbn; try lia; try reflexivity.
    - exists i. lia.
    - exists mid. lia. }
  rewrite H1. cbn [res_bind].
  rewrite (built_ABN o na Ho). cbn [res_bind].
  unfold built, conv3x3, nn_Conv2d, Conv2d_check, res_map.
  cbn [groups in_channels out_channels]. change (32 <=? 0) with false. cbv iota.
  split.
  - intros Hnd. destruct (mid mod 32 =? 0) eqn:E; [| reflexivity].
    exfalso. apply Hnd. apply Z.mod_divide; [lia | now apply Z.eqb_eq].
  - intros Hd Hnd. apply Z.mod_divide in Hd; [| lia]. rewrite Hd. cbn [Z.eqb negb].
    destruct (o mod 32 =? 0) eqn:E; [| reflexivity].
    exfalso. apply Hnd. apply Z.mod_divide; [lia | now apply Z.eqb_eq].
Qed.

(** X11: the constructor of [DarkBasicBlock] gives its 3x3 convolution 32
    groups, so (for positive channel counts) it raises [ValueError] unless
    both the width [mid = int(in_channels * bottle_ratio)] and
    [out_channels] are multiples of 32.  On shapes and for a non-empty
    batch, the forward pass of a block
    that was built (with [out_channels >= 4], so that the squeeze width
    [out_channels // 4] is positive) runs only when [mid], [in_channels] and
    [out_channels] all agree, and then returns the shape of its input: [bn1]
    is built for [mid] but applied to the block's input, and [bn2] is built
    for [out_channels] but applied to the output of [conv1], so the forward
    pass raises at [bn1] when [mid] differs from [in_channels] and at [bn2]
    when only [out_channels] differs.  With the default ratio 0.5 the width
    is [in_channels // 2] for every [in_channels] below [2^53], which is never
    [in_channels]. *)
Theorem X11_DarkBasicBlock_shape :
  forall (training : bool) (i o mid : Z) (ratio : PyNum) (attn_type : option string)
         (na : string) (kp : Q),
    int_scaled i ratio = Ok mid -> 1 <= i -> 1 <= mid -> 1 <= o ->
    (~ (32 | mid) ->
     DarkBasicBlock.init i o ratio attn_type ABN na kp
     = Raise (ValueError "in_channels must be divisible by groups")) /\
    ((32 | mid) -> ~ (32 | o) ->
     DarkBasicBlock.init i o ratio attn_type ABN na kp
     = Raise (ValueError "out_channels must be divisible by groups")) /\
    (forall (b : DarkBasicBlock.t) (x : Shape),
        DarkBasicBlock.init i o ratio attn_type ABN na kp = Ok b ->
        4 <= o -> 1 <= dimN x -> dimC x = i -> 0 < dimH x -> 0 < dimW x ->
        (32 | mid) /\ (32 | o) /\
        (mid <> i ->
         DarkBasicBlock.forward b training x tt
         = Raise (RuntimeError "channel count does not match the module")) /\
        (mid = i -> o <> i ->
         DarkBasicBlock.forward b training x tt
         = Raise (RuntimeError "channel count does not match the module")) /\
        (mid = i -> o = i -> DarkBasicBlock.forward b training x tt = Ok (x, tt))) /\
    (i < 2 ^ 53 -> ratio = float_lit (1 # 2) -> mid = i / 2 /\ mid <> i).
Proof.
  intros training i o mid ratio attn_type na kp Hmid Hi Hm Ho1.
  destruct (DarkBasicBlock_init_refused i o mid ratio attn_type na kp Hmid
              ltac:(lia) ltac:(lia) ltac:(lia)) as [Hr1 Hr2].
  split; [exact Hr1 |]. split; [exact Hr2 |]. split.
  - intros b x Hinit Ho Hn Hc Hh Hw.
    destruct (DarkBasicBlock_init_ok _ _ _ _ _ _ _ _ Hinit)
      as (mid' & attn & Hmid' & _ & Hd1 & Hd2 & _ & _ & _ & ->).
    rewrite Hmid in Hmid'. injection Hmid' as <-.
    pose proof (quarter_pos o Ho) as Hq.
    split; [exact Hd1 |]. split; [exact Hd2 |].
    assert (Hx : strided x i 1 = x) by (rewrite <- Hc; apply strided_1).
    unfold DarkBasicBlock.forward.
    cbn [DarkBasicBlock.bn1 DarkBasicBlock.conv1 DarkBasicBlock.bn2 DarkBasicBlock.conv2
         DarkBasicBlock.attention DarkBasicBlock.drop_connect].
    split; [| split].
    + intros Hne. unfold bind at 1. rewrite call_ABN_wrong; [reflexivity | congruence].
    + intros He Hne. rewrite He.
      mstep call_ABN. mstep call_conv1x1_any. rewrite Hx.
      unfold bind at 1. rewrite call_ABN_wrong; [reflexivity | congruence].
    + intros He Hoi. rewrite He. subst o.
      mstep call_ABN. mstep call_conv1x1_any. rewrite Hx.
      mstep call_ABN. mstep call_conv3x3_any. rewrite Hx.
      mstep call_attention. mstep call_drop_connect. apply add_same_shape.
  - intros Hle ->. rewrite half_width in Hmid by lia. injection Hmid as <-.
    split; [reflexivity |].
    pose proof (div_bounds i 2 ltac:(lia)). lia.
Qed.

Lemma X11_DarkBasicBlock_shape_witness :
  res_map (fun b => DarkBasicBlock.forward b false
                      {| dimN := 2; dimC := 64; dimH := 8; dimW := 8 |} tt)
    (DarkBasicBlock.init 64 64 (float_lit (1 # 2)) None ABN "leaky_relu" 1)
  = Ok (Raise (RuntimeError "channel count does not match the module")) /\
  res_map (fun b => DarkBasicBlock.forward b false
                      {| dimN := 2; dimC := 64; dimH := 8; dimW := 8 |} tt)
    (DarkBasicBlock.init 64 64 (PyInt 1) None ABN "leaky_relu" 1)
  = Ok (Ok ({| dimN := 2; dimC := 64; dimH := 8; dimW := 8 |}, tt)) /\
  DarkBasicBlock.init 32 32 (float_lit (1 # 2)) None ABN "leaky_relu" 1
  = Raise (ValueError "in_channels must be divisible by groups").
Proof.
  split; [| split].
  - destruct (DarkBasicBlock.init 64 64 (float_lit (1 # 2)) None ABN "leaky_relu" 1)
      as [b |] eqn:E; [| discriminate E].
    cbn [res_map res_bind]. f_equal.
    refine (proj1 (proj2 (proj2 (proj1 (proj2 (proj2
      (X11_DarkBasicBlock_shape false 64 64 32 (float_lit (1 # 2)) None "leaky_relu" 1
         _ _ _ _)))
      b {| dimN := 2; dimC := 64; dimH := 8; dimW := 8 |} E _ _ _ _ _))) _);
      first [reflexivity | discriminate].
  - destruct (DarkBasicBlock.init 64 64 (PyInt 1) None ABN "leaky_relu" 1)
      as [b |] eqn:E; [| discriminate E].
    cbn [res_map res_bind]. f_equal.
    refine (proj2 (proj2 (proj2 (proj2 (proj1 (proj2 (proj2
      (X11_DarkBasicBlock_shape false 64 64 64 (PyInt 1) None "leaky_relu" 1 _ _ _ _)))
      b {| dimN := 2; dimC := 64; dimH := 8; dimW := 8 |} E _ _ _ _ _)))) _ _);
      first [reflexivity | discriminate].
  - refine (proj1 (X11_DarkBasicBlock_shape false 32 32 16 (float_lit (1 # 2)) None
                     "leaky_relu" 1 _ _ _ _) _);
      first [reflexivity | discriminate | idtac].
    intros [k Hk]. lia.
Defined.

(** ** The TResNet variants *)

(** X12: the TResNet blocks replace the squeeze-and-excitation module only
    when [attn_type] is spelt exactly "se", although [get_attn] accepts the
    name in any letter case.  For the exact spelling the module is built for
    [planes] channels with a squeeze width of at least 64; for any other
    spelling that [get_attn] resolves to [SEModule], the block keeps the
    module of the base class, built for the block's output channels with
    squeeze width [planes // 4].  In both blocks the final activation is
    [nn.ReLU], whatever [norm_act] is. *)
Theorem X12_TResNet_se_override_is_case_sensitive :
  forall (inplanes planes s : Z) (downsample : option Layer) (groups base_width : Z)
         (name : string) (d : Z) (nl : Z -> string -> Layer) (na : string)
         (antialias : bool) (kp : Q),
    get_attn (Some name) = Ok SEModule ->
    (forall b,
        TBasicBlock.init inplanes planes s downsample groups base_width (Some name) d nl na
                         antialias kp = Ok b ->
        BasicBlock.se_module (TBasicBlock.block b)
        = (if String.eqb name "se"
           then LSEModule planes (Z.max (planes / 4) 64) "relu"
           else LSEModule (planes * 1) (planes / 4) "relu") /\
        BasicBlock.final_act (TBasicBlock.block b) = nn_ReLU) /\
    (forall b,
        TBottleneck.init inplanes planes s downsample groups base_width (Some name) d nl na
                         antialias kp = Ok b ->
        Bottleneck.se_module (TBottleneck.block b)
        = (if String.eqb name "se"
           then LSEModule planes (Z.max (planes * 4 / 8) 64) "relu"
           else LSEModule (planes * 4) (planes / 4) "relu") /\
        Bottleneck.final_act (TBottleneck.block b) = nn_ReLU).
Proof.
  intros inplanes planes s downsample groups base_width name d nl na antialias kp Hattn.
  split; intros b Hinit.
  - unfold TBasicBlock.init, BasicBlock.init in Hinit. rewrite Hattn in Hinit.
    destruct (py_assert (groups =? 1) _) as [[] |]; [| discriminate].
    destruct (py_assert (base_width =? 64) _) as [[] |]; [| discriminate].
    cbn [res_bind] in Hinit. injection Hinit as <-.
    cbn [TBasicBlock.block BasicBlock.se_module BasicBlock.final_act attn_type_is_se attn_new
         default]. split; reflexivity.
  - unfold TBottleneck.init, Bottleneck.init in Hinit. rewrite Hattn in Hinit.
    cbn [res_bind] in Hinit. injection Hinit as <-.
    cbn [TBottleneck.block Bottleneck.se_module Bottleneck.final_act attn_type_is_se attn_new
         default]. split; reflexivity.
Qed.

Lemma X12_TResNet_se_override_is_case_sensitive_witness :
  res_map (fun b => BasicBlock.se_module (TBasicBlock.block b))
          (TBasicBlock.init 64 64 1 None 1 64 (Some "SE") 1 ABN "leaky_relu" false 1)
  = Ok (LSEModule 64 16 "relu") /\
  res_map (fun b => BasicBlock.se_module (TBasicBlock.block b))
          (TBasicBlock.init 64 64 1 None 1 64 (Some "se") 1 ABN "leaky_relu" false 1)
  = Ok (LSEModule 64 64 "relu").
Proof.
  split.
  - destruct (TBasicBlock.init 64 64 1 None 1 64 (Some "SE") 1 ABN "leaky_relu" false 1)
      as [b |] eqn:E; [| discriminate E].
    cbn [res_map res_bind]. f_equal.
    apply (proj1 (proj1 (X12_TResNet_se_override_is_case_sensitive 64 64 1 None 1 64 "SE" 1
                           ABN "leaky_relu" false 1 ltac:(vm_compute; reflexivity)) b E)).
  - destruct (TBasicBlock.init 64 64 1 None 1 64 (Some "se") 1 ABN "leaky_relu" false 1)
      as [b |] eqn:E; [| discriminate E].
    cbn [res_map res_bind]. f_equal.
    apply (proj1 (proj1 (X12_TResNet_se_override_is_case_sensitive 64 64 1 None 1 64 "se" 1
                           ABN "leaky_relu" false 1 ltac:(vm_compute; reflexivity)) b E)).
Defined.

Lemma standard_width (planes : Z) :
  py_floor (inject_Z planes * (inject_Z 64 / 64))%Q * 1 = planes.
Proof.
  rewrite Z.mul_1_r. unfold py_floor.
  assert (E : (inject_Z planes * (inject_Z 64 / 64) == inject_Z planes)%Q).
  { unfold Qeq, Qmult, Qdiv, Qinv, inject_Z. cbn. lia. }
  rewrite E. apply Qfloor_Z.
Qed.

(** X13: on shapes and for a non-empty batch, a [TBottleneck] of the standard
    width ([base_width=64], [groups=1]) and of at least 4 planes applies its
    attention module to the [planes] channels that leave the second
    convolution.  It therefore runs, with the shape contract of
    [Bottleneck], when [attn_type] is absent, is exactly "se", or names the
    efficient channel attention; with any other accepted name (spatial,
    combined, or "se" in another letter case) the module it holds was built
    by the base class for [4 * planes] channels and the forward pass
    raises. *)
Theorem X13_TBottleneck_attention_channels :
  forall (training : bool) (inplanes planes s : Z) (downsample : option Layer)
         (attn_type : option string) (cls : AttnClass) (d : Z) (na : string)
         (antialias : bool) (kp : Q) (b : TBottleneck.t) (x : Shape),
    TBottleneck.init inplanes planes s downsample 1 64 attn_type d ABN na antialias kp
    = Ok b ->
    get_attn attn_type = Ok cls ->
    1 <= inplanes -> 1 <= d -> 1 <= dimN x ->
    4 <= planes -> dimC x = inplanes -> 1 <= s -> 0 < dimH x -> 0 < dimW x ->
    match downsample with
    | Some m => call "downsample" m training x tt = Ok (strided x (planes * 4) s, tt)
    | None => inplanes = planes * 4 /\ s = 1
    end ->
    (attn_type_is_se attn_type = true \/ cls = ECAModule \/ cls = Identity ->
     TBottleneck.forward b training x tt = Ok (strided x (planes * 4) s, tt)) /\
    (attn_type_is_se attn_type = false ->
     cls = SEModule \/ cls = SSEModule \/ cls = SCSEModule ->
     TBottleneck.forward b training x tt
     = Raise (RuntimeError "channel count does not match the module")).
Proof.
  intros training inplanes planes s downsample attn_type cls d na antialias kp b x
    Hinit Hattn _ _ Hn Hp Hc Hs Hh Hw Hres.
  pose proof (quarter_pos planes Hp) as Hr.
  unfold TBottleneck.init, Bottleneck.init, Bottleneck.expansion in Hinit.
  rewrite Hattn, standard_width in Hinit.
  cbn [res_bind] in Hinit. injection Hinit as <-.
  destruct (strided_dims x planes s Hh Hw Hs) as [Hh' Hw'].
  assert (Hresidual :
    forall k : Shape -> M unit Shape,
      bind (match downsample with
            | Some m => call "downsample" m training x
            | None => ret x
            end) k tt = k (strided x (planes * 4) s) tt).
  { intros k. destruct downsample as [m |].
    - now rewrite (bind_ok _ _ _ _ _ Hres).
    - destruct Hres as [E ->]. rewrite bind_ret, <- E, <- Hc, strided_1. reflexivity. }
  unfold TBottleneck.forward.
  cbn [TBottleneck.block Bottleneck.conv1 Bottleneck.bn1 Bottleneck.conv2 Bottleneck.bn2
       Bottleneck.conv3 Bottleneck.bn3 Bottleneck.se_module Bottleneck.final_act
       Bottleneck.downsample Bottleneck.blurpool Bottleneck.antialias Bottleneck.drop_connect].
  rewrite Hresidual.
  rewrite (bottleneck_main_shape training inplanes planes s 1 d na antialias x _ Hc Hs Hh Hw).
  assert (Htail :
    forall se : Layer,
      call "se_module" se training (strided x planes s) tt = Ok (strided x planes s, tt) ->
      (out <- call "se_module" se training (strided x planes s) ;;
       out <- call "conv3" (conv1x1 planes (planes * 4) 1 false) training out ;;
       out <- call "bn3" (ABN (planes * 4) "identity") training out ;;
       out <- call "drop_connect" (new_drop_connect kp) training out ;;
       out <- add out (strided x (planes * 4) s) ;;
       call "final_act" nn_ReLU training out) tt = Ok (strided x (planes * 4) s, tt)).
  { intros se Hse. rewrite (bind_ok _ _ _ _ _ Hse).
    mstep call_conv1x1_any. rewrite strided_strided_1.
    mstep call_ABN. mstep call_drop_connect.
    erewrite bind_ok by apply add_same_shape. apply call_activation. }
  assert (Hbad :
    forall se : Layer,
      call "se_module" se training (strided x planes s) tt
      = Raise (RuntimeError "channel count does not match the module") ->
      (out <- call "se_module" se training (strided x planes s) ;;
       out <- call "conv3" (conv1x1 planes (planes * 4) 1 false) training out ;;
       out <- call "bn3" (ABN (planes * 4) "identity") training out ;;
       out <- call "drop_connect" (new_drop_connect kp) training out ;;
       out <- add out (strided x (planes * 4) s) ;;
       call "final_act" nn_ReLU training out) tt
      = Raise (RuntimeError "channel count does not match the module")).
  { intros se Hse. unfold bind at 1. now rewrite Hse. }
  assert (Hwrong :
      check_channels (planes * 4) (strided x planes s)
      = Raise (RuntimeError "channel count does not match the module")).
  { unfold check_channels. cbn [dimC strided].
    replace (planes =? planes * 4) with false by (symmetry; apply Z.eqb_neq; lia).
    reflexivity. }
  split.
  - intros Hcase. apply Htail. destruct (attn_type_is_se attn_type) eqn:Hse.
    + apply (call_attention training "se_module" SEModule planes _ None);
        [reflexivity | exact Hn | lia | lia].
    + destruct Hcase as [Hcase | [-> | ->]]; [discriminate Hcase | | reflexivity].
      cbn. rewrite eca_shape_ok; [reflexivity | exact Hn | cbn; lia].
  - intros Hse Hcase. rewrite Hse. apply Hbad.
    destruct Hcase as [-> | [-> | ->]]; cbn; unfold se_shape;
      replace (planes / 4 <=? 0) with false by (symmetry; apply Z.leb_gt; lia);
      now rewrite Hwrong.
Qed.

Lemma X13_TBottleneck_attention_channels_witness :
  res_map (fun b => TBottleneck.forward b false
                      {| dimN := 2; dimC := 256; dimH := 8; dimW := 8 |} tt)
    (TBottleneck.init 256 64 1 None 1 64 (Some "se") 1 ABN "relu" false 1)
  = Ok (Ok ({| dimN := 2; dimC := 256; dimH := 8; dimW := 8 |}, tt)) /\
  res_map (fun b => TBottleneck.forward b false
                      {| dimN := 2; dimC := 256; dimH := 8; dimW := 8 |} tt)
    (TBottleneck.init 256 64 1 None 1 64 (Some "SE") 1 ABN "relu" false 1)
  = Ok (Raise (RuntimeError "channel count does not match the module")).
Proof.
  split.
  - destruct (TBottleneck.init 256 64 1 None 1 64 (Some "se") 1 ABN "relu" false 1)
      as [b |] eqn:E; [| discriminate E].
    cbn [res_map res_bind]. f_equal.
    refine (eq_trans (proj1 (X13_TBottleneck_attention_channels false 256 64 1 None
      (Some "se") SEModule 1 "relu" false 1 b
      {| dimN := 2; dimC := 256; dimH := 8; dimW := 8 |} E _ _ _ _ _ _ _ _ _ _) _) _);
      try reflexivity; try discriminate; [split; reflexivity | left; reflexivity].
  - destruct (TBottleneck.init 256 64 1 None 1 64 (Some "SE") 1 ABN "relu" false 1)
      as [b |] eqn:E; [| discriminate E].
    cbn [res_map res_bind]. f_equal.
    refine (proj2 (X13_TBottleneck_attention_channels false 256 64 1 None
      (Some "SE") SEModule 1 "relu" false 1 b
      {| dimN := 2; dimC := 256; dimH := 8; dimW := 8 |} E _ _ _ _ _ _ _ _ _ _) _ _);
      try reflexivity; try discriminate; [split; reflexivity | left; reflexivity].
Defined.

(** ** SimpleStage *)

(** X14: [SimpleStage] computes the width [int(out_chs * bottle_ratio)] and
    then calls [block_fn] with the keywords [in_chs], [mid_chs], [out_chs]
    and [stride].  With a block class whose constructor has no [in_chs]
    parameter the construction of the stage therefore raises [TypeError] as
    soon as the width has been computed (the only other outcome is the error
    of [int] on an infinite or undefined product, so no stage is ever
    returned), and it always does with
    the default ratio 0.5 and fewer than [2^53] output channels;
    [DarkBasicBlock],
    the default of [block_fn], is such a class, and so is every class of
    this file other than the two simple bottlenecks. *)
Theorem X14_SimpleStage_block_fn_keywords :
  forall (c : BlockClass) (in_chs out_chs num_blocks s : Z) (bottle_ratio : PyNum)
         (antialias : bool) (attn_type : option string) (nl : Z -> string -> Layer)
         (na : string) (kp : Q) (kw : BlockKwargs),
    (~ In "in_chs" (init_params c) ->
     SimpleStage.init in_chs out_chs num_blocks s bottle_ratio antialias c attn_type nl na kp kw
     = res_bind (int_scaled out_chs bottle_ratio) (fun _ =>
       Raise (TypeError "__init__() got an unexpected keyword argument in_chs"))) /\
    (~ In "in_chs" (init_params c) ->
     0 <= out_chs < 2 ^ 53 -> bottle_ratio = float_lit (1 # 2) ->
     SimpleStage.init in_chs out_chs num_blocks s bottle_ratio antialias c attn_type nl na kp kw
     = Raise (TypeError "__init__() got an unexpected keyword argument in_chs")) /\
    ~ In "in_chs" (init_params DarkBasicBlockClass) /\
    (In "in_chs" (init_params c) <->
     c = SimpleBottleneckClass \/ c = SimplePreActBottleneckClass) /\
    (~ In "in_chs" (init_params c) ->
     succeeds (SimpleStage.init in_chs out_chs num_blocks s bottle_ratio antialias c attn_type
                                nl na kp kw) = false).
Proof.
  intros c in_chs out_chs num_blocks s bottle_ratio antialias attn_type nl na kp kw.
  assert (Hraise :
    ~ In "in_chs" (init_params c) ->
    SimpleStage.init in_chs out_chs num_blocks s bottle_ratio antialias c attn_type nl na kp kw
    = res_bind (int_scaled out_chs bottle_ratio) (fun _ =>
      Raise (TypeError "__init__() got an unexpected keyword argument in_chs"))).
  { intros Hc. unfold SimpleStage.init.
    destruct (int_scaled out_chs bottle_ratio) as [width |]; [| reflexivity].
    destruct c; try reflexivity; exfalso; apply Hc; cbn; tauto. }
  split; [exact Hraise |]. split; [| split; [| split]].
  - intros Hc Hle ->. rewrite Hraise by exact Hc. now rewrite half_width.
  - cbn. intros H. repeat (destruct H as [H | H]; [discriminate H |]). exact H.
  - split.
    + destruct c; cbn; intros H;
        first [ left; reflexivity | right; reflexivity
              | exfalso; repeat (destruct H as [H | H]; [discriminate H |]); exact H ].
    + intros [-> | ->]; cbn; tauto.
  - intros Hc. rewrite Hraise by exact Hc.
    destruct (int_scaled out_chs bottle_ratio); reflexivity.
Qed.

Lemma X14_SimpleStage_block_fn_keywords_witness :
  SimpleStage.init 3 64 3 2 (float_lit (1 # 2)) false DarkBasicBlockClass None ABN
                   "leaky_relu" 1 no_kwargs
  = Raise (TypeError "__init__() got an unexpected keyword argument in_chs") /\
  SimpleStage.init 3 (2 ^ 1024) 3 2 (float_lit (1 # 2)) false DarkBasicBlockClass None ABN
                   "leaky_relu" 1 no_kwargs
  = Raise (OverflowError "int too large to convert to float").
Proof.
  assert (Hno : ~ In "in_chs" (init_params DarkBasicBlockClass)).
  { apply (proj1 (proj2 (proj2 (X14_SimpleStage_block_fn_keywords DarkBasicBlockClass 3 64 3
                                  2 (float_lit (1 # 2)) false None ABN "leaky_relu" 1
                                  no_kwargs)))). }
  split.
  - refine (proj1 (proj2 (X14_SimpleStage_block_fn_keywords DarkBasicBlockClass 3 64 3 2
                            (float_lit (1 # 2)) false None ABN "leaky_relu" 1 no_kwargs))
                  Hno _ eq_refl).
    split; [discriminate | reflexivity].
  - rewrite (proj1 (X14_SimpleStage_block_fn_keywords DarkBasicBlockClass 3 (2 ^ 1024) 3 2
                      (float_lit (1 # 2)) false None ABN "leaky_relu" 1 no_kwargs) Hno).
    vm_compute. reflexivity.
Defined.

Lemma block_call_simple (fn : BlockFn) (c : BlockClass) (i m o : Z) (stride : option Z)
    (nl : Z -> string -> Layer) (na : string) (kw : BlockKwargs) :
  as_block_fn c = Some fn ->
  block_call c i m o stride nl na kw
  = block_built (block_new fn i m o (default 1 stride) nl na kw).
Proof.
  intros Hc. unfold block_call. rewrite Hc.
  destruct c; try discriminate Hc;
    destruct stride, kw as [[g |] [gw |]]; reflexivity.
Qed.

Lemma mapM_ext {A B} (f g : A -> Res B) (xs : list A) :
  (forall x, f x = g x) -> mapM f xs = mapM g xs.
Proof.
  intros Hf. induction xs as [| x xs IH]; simpl; [reflexivity |].
  now rewrite Hf, IH.
Qed.

Lemma mapM_ext_pure {A B} (f : A -> Res B) (h : A -> B) (xs : list A) :
  (forall x, f x = Ok (h x)) -> mapM f xs = Ok (map h xs).
Proof.
  intros Hf. induction xs as [| x xs IH]; simpl; [reflexivity |].
  now rewrite Hf, IH.
Qed.

Section StageShapes.

Variable training : bool.

Lemma block_forward_shape_mid (fn : BlockFn) (i m o s : Z) (na : string) (kw : BlockKwargs)
    (x : Shape) :
  dimC x = i -> 1 <= s -> 0 < dimH x -> 0 < dimW x ->
  block_forward (block_new fn i m o s ABN na kw) training x tt = Ok (strided x o s, tt).
Proof.
  intros Hc Hs Hh Hw.
  destruct (strided_dims x m s Hh Hw Hs) as [Hh' Hw'].
  assert (Hadd : (i =? o) && (s =? 1) = true -> add (strided x o s) x tt = Ok (strided x o s, tt)).
  { intros H. apply andb_true_iff in H as [Hi H1].
    apply Z.eqb_eq in Hi, H1. subst o s.
    rewrite <- Hc, strided_1. apply add_same_shape. }
  destruct fn; cbn [block_new block_forward].
  - unfold SimpleBottleneck.forward, SimpleBottleneck.init.
    cbn [SimpleBottleneck.conv1 SimpleBottleneck.bn1 SimpleBottleneck.conv2
         SimpleBottleneck.bn2 SimpleBottleneck.conv3 SimpleBottleneck.bn3
         SimpleBottleneck.has_residual].
    mstep call_conv1x1_any. rewrite strided_is_with_channels.
    mstep call_ABN. mstep call_conv3x3_any.
    change (strided (with_channels x m) m s) with (strided x m s).
    mstep call_ABN. mstep call_conv1x1_any. rewrite strided_strided_1.
    destruct ((i =? o) && (s =? 1)) eqn:Hres.
    + mstep call_ABN. now apply Hadd.
    + now apply call_ABN.
  - unfold SimplePreActBottleneck.forward, SimplePreActBottleneck.init.
    cbn [SimplePreActBottleneck.conv1 SimplePreActBottleneck.bn1 SimplePreActBottleneck.conv2
         SimplePreActBottleneck.bn2 SimplePreActBottleneck.conv3 SimplePreActBottleneck.bn3
         SimplePreActBottleneck.has_residual].
    mstep call_ABN. mstep call_conv1x1_any. rewrite strided_is_with_channels.
    mstep call_ABN. mstep call_conv3x3_any.
    change (strided (with_channels x m) m s) with (strided x m s).
    mstep call_ABN.
    destruct ((i =? o) && (s =? 1)) eqn:Hres.
    + mstep call_conv1x1_any. rewrite strided_strided_1. now apply Hadd.
    + rewrite <- (strided_strided_1 x m o s). now apply call_conv1x1_any.
Qed.

Lemma sequential_shape_mid (A : Type) (l : list A) (fn : BlockFn) (m o : Z) (na : string)
    (kw : BlockKwargs) (x : Shape) :
  dimC x = o -> 0 < dimH x -> 0 < dimW x ->
  sequential (map (fun _ => block_new fn o m o 1 ABN na kw) l) training x tt = Ok (x, tt).
Proof.
  intros Hc Hh Hw. subst o. induction l as [| a l IH]; [reflexivity |].
  cbn [map sequential].
  rewrite (bind_ok _ _ _ _ _
             (block_forward_shape_mid fn _ m _ 1 na kw x eq_refl ltac:(lia) Hh Hw)).
  rewrite strided_1. exact IH.
Qed.

End StageShapes.

(** X15: with one of the two simple bottlenecks as [block_fn], a [SimpleStage]
    is built when the groups of the 3x3 convolutions are positive and divide
    the bottleneck width, and its construction raises [ValueError]
    otherwise.  The width is [int(out_chs * bottle_ratio)], the truncation of
    the rounded floating-point product, but never less than 64.  A stage that
    was built always holds at least one block (the strided first block,
    followed by [num_blocks - 1] more when [num_blocks > 1]); on shapes it
    maps [in_chs] channels to [out_chs] channels and each spatial size [H] to
    [(H - 1) / stride + 1]: only the first block changes the shape. *)
Theorem X15_SimpleStage_shape :
  forall (training : bool) (c : BlockClass) (fn : BlockFn) (in_chs out_chs num_blocks s : Z)
         (bottle_ratio : PyNum) (antialias : bool) (attn_type : option string) (na : string)
         (kp : Q) (kw : BlockKwargs) (x : Shape) (width : Z),
    let mid_chs := Z.max width 64 in
    let g := pick_groups mid_chs (default 1 (kw_groups kw)) (kw_groups_width kw) in
    let stage :=
      {| SimpleStage.blocks :=
           block_new fn in_chs mid_chs out_chs s ABN na kw
           :: map (fun _ => block_new fn out_chs mid_chs out_chs 1 ABN na kw)
                  (py_range (num_blocks - 1)) |} in
    let init :=
      SimpleStage.init in_chs out_chs num_blocks s bottle_ratio antialias c attn_type ABN na
                       kp kw in
    int_scaled out_chs bottle_ratio = Ok width ->
    as_block_fn c = Some fn ->
    1 <= in_chs -> 1 <= out_chs ->
    (1 <= g -> (g | mid_chs) ->
     init = Ok stage /\
     length (SimpleStage.blocks stage) = Z.to_nat (Z.max num_blocks 1) /\
     64 <= mid_chs /\
     (dimC x = in_chs -> 1 <= s -> 0 < dimH x -> 0 < dimW x ->
      SimpleStage.forward stage training x tt = Ok (strided x out_chs s, tt))) /\
    (g <= 0 -> init = Raise (ValueError "groups must be a positive integer")) /\
    (1 <= g -> ~ (g | mid_chs) ->
     init = Raise (ValueError "in_channels must be divisible by groups")).
Proof.
  intros training c fn in_chs out_chs num_blocks s bottle_ratio antialias attn_type na kp kw x
    width mid_chs g stage init Hwidth Hc Hi Ho.
  assert (Hm : 0 <= mid_chs) by (unfold mid_chs; lia).
  assert (Hinit :
    init = res_bind (block_built (block_new fn in_chs mid_chs out_chs s ABN na kw)) (fun first =>
           res_bind (mapM (fun _ => block_built (block_new fn out_chs mid_chs out_chs 1 ABN na
                                                           kw))
                          (py_range (num_blocks - 1))) (fun rest =>
           Ok {| SimpleStage.blocks := first :: rest |}))).
  { unfold init, SimpleStage.init. rewrite Hwidth. cbn [res_bind]. fold mid_chs.
    rewrite (block_call_simple fn c _ _ _ (Some s) ABN na kw Hc). cbn [default].
    rewrite (mapM_ext _ (fun _ => block_built (block_new fn out_chs mid_chs out_chs 1 ABN na
                                                         kw))).
    - reflexivity.
    - intros _. apply (block_call_simple fn c _ _ _ None ABN na kw Hc). }
  destruct (block_built_groups fn in_chs mid_chs out_chs s ABN na kw
              ltac:(lia) Hm ltac:(lia)) as [Hok1 [Hneg1 Hnd1]].
  destruct (block_built_groups fn out_chs mid_chs out_chs 1 ABN na kw
              ltac:(lia) Hm ltac:(lia)) as [Hok2 _].
  fold g in Hok1, Hneg1, Hnd1, Hok2.
  split; [| split].
  - intros Hg Hd. split; [| split; [| split]].
    + rewrite Hinit, (Hok1 Hg Hd). cbn [res_bind].
      rewrite (mapM_ext_pure _ (fun _ => block_new fn out_chs mid_chs out_chs 1 ABN na kw)).
      * reflexivity.
      * intros _. exact (Hok2 Hg Hd).
    + cbn [SimpleStage.blocks stage length]. rewrite length_map. unfold py_range.
      rewrite length_seq. lia.
    + unfold mid_chs. lia.
    + intros Hx Hs Hh Hw. unfold SimpleStage.forward.
      cbn [SimpleStage.blocks stage sequential].
      destruct (strided_dims x out_chs s Hh Hw Hs) as [Hh' Hw'].
      rewrite (bind_ok _ _ _ _ _
                 (block_forward_shape_mid training fn in_chs mid_chs out_chs s na kw x
                                          Hx Hs Hh Hw)).
      now apply sequential_shape_mid.
  - intros Hg. now rewrite Hinit, (Hneg1 Hg).
  - intros Hg Hd. now rewrite Hinit, (Hnd1 Hg Hd).
Qed.

Lemma X15_SimpleStage_shape_witness :
  let x := {| dimN := 2; dimC := 32; dimH := 9; dimW := 12 |} in
  int_scaled 200 (float_lit (57 # 100)) = Ok 113 /\
  res_map (fun st => (length (SimpleStage.blocks st), SimpleStage.forward st false x tt))
    (SimpleStage.init 32 200 3 2 (float_lit (57 # 100)) false SimpleBottleneckClass None ABN
                      "leaky_relu" 1 no_kwargs)
  = Ok (3%nat, Ok ({| dimN := 2; dimC := 200; dimH := 5; dimW := 6 |}, tt)) /\
  SimpleStage.init 32 200 3 2 (float_lit (57 # 100)) false SimpleBottleneckClass None ABN
                   "leaky_relu" 1 {| kw_groups := Some 3; kw_groups_width := None |}
  = Raise (ValueError "in_channels must be divisible by groups").
Proof.
  intros x.
  assert (Hw : int_scaled 200 (float_lit (57 # 100)) = Ok 113) by (vm_compute; reflexivity).
  split; [exact Hw |]. split.
  - destruct (proj1 (X15_SimpleStage_shape false SimpleBottleneckClass SimpleBottleneckFn
                       32 200 3 2 (float_lit (57 # 100)) false None "leaky_relu" 1 no_kwargs
                       x 113 Hw eq_refl ltac:(lia) ltac:(lia)))
      as (Hinit & Hlen & _ & Hrun).
    + cbn. lia.
    + exists 113. reflexivity.
    + rewrite Hinit. cbn [res_map res_bind].
      rewrite Hrun by first [reflexivity | cbn; lia]. reflexivity.
  - refine (proj2 (proj2 (X15_SimpleStage_shape false SimpleBottleneckClass
                            SimpleBottleneckFn 32 200 3 2 (float_lit (57 # 100)) false None
                            "leaky_relu" 1 {| kw_groups := Some 3; kw_groups_width := None |}
                            x 113 Hw eq_refl ltac:(lia) ltac:(lia))) _ _).
    + cbn. lia.
    + cbn. intros [k Hk]. lia.
Defined.

(** ** CrossStage for every channel count *)

(** X16: with [csp_block_ratio = 0.5] a [CrossStage] runs for every
    [out_chs >= 2], odd ones included: [torch.chunk] gives the first piece
    the larger half [ceil(out_chs / 2)], the second piece has
    [out_chs // 2 = int(0.5 * out_chs)] channels, which is the channel count
    the inner blocks and [x2_transition] were built for, and the stage
    returns [out_chs] channels at the strided resolution. *)
Theorem X16_CrossStage_half_any_width :
  forall (in_chs c num_blocks s : Z) (bottle_ratio : Q) (antialias : bool) (fn : BlockFn)
         (attn_type : option string) (na : string) (keep_prob r : Q) (x2t training : bool)
         (x : Shape),
    1 <= in_chs -> 2 <= c -> (r == 1 # 2)%Q ->
    1 <= s -> dimC x = in_chs -> 0 < dimH x -> 0 < dimW x ->
    let y := strided x c s in
    chunk 2 y = [with_channels y ((c + 1) / 2); with_channels y (c / 2)] /\
    py_int (r * inject_Z c) = c / 2 /\
    CrossStage.forward
      (CrossStage.init in_chs c num_blocks s bottle_ratio antialias fn attn_type ABN na
                       keep_prob r x2t no_kwargs) training x tt
    = Ok (y, tt).
Proof.
  intros in_chs c num_blocks s bottle_ratio antialias fn attn_type na keep_prob r x2t training
    x _ Hk Hr Hs Hc Hh Hw y.
  split; [| split].
  - cbn [chunk shape_channels]. unfold y at 1. cbn [strided dimC].
    now rewrite chunk_sizes_two.
  - apply half_of; [lia | exact Hr].
  - now apply CrossStage_half_any.
Qed.

Lemma X16_CrossStage_half_any_width_witness :
  CrossStage.forward
    (CrossStage.init 3 7 2 2 (1 # 2) false SimpleBottleneckFn None ABN "leaky_relu" 1 (1 # 2)
                     true no_kwargs) false
    {| dimN := 2; dimC := 3; dimH := 9; dimW := 9 |} tt
  = Ok ({| dimN := 2; dimC := 7; dimH := 5; dimW := 5 |}, tt).
Proof.
  refine (proj2 (proj2
    (X16_CrossStage_half_any_width 3 7 2 2 (1 # 2) false SimpleBottleneckFn None "leaky_relu"
       1 (1 # 2) true false {| dimN := 2; dimC := 3; dimH := 9; dimW := 9 |}
       _ _ _ _ _ _ _))); first [reflexivity | discriminate].
Defined.

(** X17: with [csp_block_ratio = 0.75] a [CrossStage] needs four pieces from
    [torch.chunk], which cuts pieces of [ceil(out_chs / 4)] channels and so
    returns fewer than four when [out_chs] is 2, 3, 5, 6 or 9: the forward
    pass then raises [ValueError] at the unpacking.  For every other
    [out_chs >= 4], multiple of four or not, the three last pieces hold
    [int(0.75 * out_chs)] channels together and the stage returns [out_chs]
    channels at the strided resolution. *)
Theorem X17_CrossStage_three_quarters_widths :
  forall (in_chs c num_blocks s : Z) (bottle_ratio : Q) (antialias : bool) (fn : BlockFn)
         (attn_type : option string) (na : string) (keep_prob r : Q) (x2t training : bool)
         (x : Shape),
    1 <= in_chs -> 2 <= c -> (r == 3 # 4)%Q ->
    1 <= s -> dimC x = in_chs -> 0 < dimH x -> 0 < dimW x ->
    let stage :=
      CrossStage.init in_chs c num_blocks s bottle_ratio antialias fn attn_type ABN na
                      keep_prob r x2t no_kwargs in
    (c = 2 \/ c = 3 \/ c = 5 \/ c = 6 \/ c = 9 ->
     CrossStage.forward stage training x tt
     = Raise (ValueError "not enough values to unpack")) /\
    (4 <= c -> c <> 5 -> c <> 6 -> c <> 9 ->
     CrossStage.forward stage training x tt = Ok (strided x c s, tt)).
Proof.
  intros in_chs c num_blocks s bottle_ratio antialias fn attn_type na keep_prob r x2t training
    x _ Hk Hr Hs Hc Hh Hw stage.
  split.
  - intros Hshort. now apply CrossStage_three_quarters_short.
  - intros H4 H5 H6 H9. now apply CrossStage_three_quarters_any.
Qed.

Lemma X17_CrossStage_three_quarters_widths_witness :
  CrossStage.forward
    (CrossStage.init 3 6 2 2 (1 # 2) false SimpleBottleneckFn None ABN "leaky_relu" 1 (3 # 4)
                     true no_kwargs) false
    {| dimN := 2; dimC := 3; dimH := 9; dimW := 9 |} tt
  = Raise (ValueError "not enough values to unpack") /\
  CrossStage.forward
    (CrossStage.init 3 7 2 2 (1 # 2) false SimpleBottleneckFn None ABN "leaky_relu" 1 (3 # 4)
                     true no_kwargs) false
    {| dimN := 2; dimC := 3; dimH := 9; dimW := 9 |} tt
  = Ok ({| dimN := 2; dimC := 7; dimH := 5; dimW := 5 |}, tt).
Proof.
  split.
  - refine (proj1
      (X17_CrossStage_three_quarters_widths 3 6 2 2 (1 # 2) false SimpleBottleneckFn None
         "leaky_relu" 1 (3 # 4) true false {| dimN := 2; dimC := 3; dimH := 9; dimW := 9 |}
         _ _ _ _ _ _ _) _); first [reflexivity | discriminate | tauto].
  - refine (proj2
      (X17_CrossStage_three_quarters_widths 3 7 2 2 (1 # 2) false SimpleBottleneckFn None
         "leaky_relu" 1 (3 # 4) true false {| dimN := 2; dimC := 3; dimH := 9; dimW := 9 |}
         _ _ _ _ _ _ _) _ _ _ _); first [reflexivity | discriminate].
Defined.

(** ** The simple bottlenecks *)

(** X18: on shapes, [SimpleBottleneck] and [SimplePreActBottleneck] map
    [in_chs] channels to [out_chs] channels and each spatial size [H] to
    [(H - 1) / stride + 1], whatever the bottleneck width [mid_chs] and
    whether or not the residual is added; an input with another channel count
    is refused by the first layer.  When [groups_width] is given (and
    divides [mid_chs]) the 3x3 convolution gets [mid_chs // groups_width]
    groups, so that every group is [groups_width] channels wide; a
    [groups_width] of 0 counts as not given. *)
Theorem X18_simple_bottlenecks_shape :
  forall (training : bool) (fn : BlockFn) (i m o s : Z) (na : string) (kw : BlockKwargs)
         (x : Shape),
    let g := pick_groups m (default 1 (kw_groups kw)) (kw_groups_width kw) in
    1 <= i -> 1 <= m -> 1 <= o -> 1 <= s -> 1 <= g -> (g | m) ->
    0 < dimH x -> 0 < dimW x ->
    (dimC x = i ->
     block_forward (block_new fn i m o s ABN na kw) training x tt = Ok (strided x o s, tt)) /\
    (dimC x <> i ->
     succeeds (block_forward (block_new fn i m o s ABN na kw) training x tt) = false) /\
    (forall gw, kw_groups_width kw = Some gw -> 0 < gw -> (gw | m) -> g * gw = m) /\
    (kw_groups_width kw = Some 0 -> g = default 1 (kw_groups kw)).
Proof.
  intros training fn i m o s na kw x g _ _ _ Hs _ _ Hh Hw.
  split; [| split; [| split]].
  - intros Hc. now apply block_forward_shape_mid.
  - intros Hc. destruct fn; cbn [block_new block_forward].
    + unfold SimpleBottleneck.forward, SimpleBottleneck.init.
      cbn [SimpleBottleneck.conv1]. unfold bind at 1, conv1x1, nn_Conv2d.
      now rewrite call_conv_wrong_channels.
    + unfold SimplePreActBottleneck.forward, SimplePreActBottleneck.init.
      cbn [SimplePreActBottleneck.bn1]. unfold bind at 1.
      now rewrite call_ABN_wrong.
  - intros gw Hgw Hpos [k Hk]. unfold g, pick_groups. rewrite Hgw.
    replace (gw =? 0) with false by (symmetry; apply Z.eqb_neq; lia).
    rewrite Hk, Z.div_mul by lia. reflexivity.
  - intros Hgw. unfold g, pick_groups. now rewrite Hgw.
Qed.

Lemma X18_simple_bottlenecks_shape_witness :
  block_forward
    (block_new SimplePreActBottleneckFn 32 64 128 2 ABN "relu"
               {| kw_groups := None; kw_groups_width := Some 16 |})
    true {| dimN := 2; dimC := 32; dimH := 9; dimW := 12 |} tt
  = Ok ({| dimN := 2; dimC := 128; dimH := 5; dimW := 6 |}, tt).
Proof.
  assert (H4 : (4 | 64)) by (exists 16; reflexivity).
  refine (proj1
    (X18_simple_bottlenecks_shape true SimplePreActBottleneckFn 32 64 128 2 "relu"
       {| kw_groups := None; kw_groups_width := Some 16 |}
       {| dimN := 2; dimC := 32; dimH := 9; dimW := 12 |} _ _ _ _ _ H4 _ _) _);
    first [reflexivity | discriminate].
Defined.

(** ** TBasicBlock on shapes *)

(** X19: unlike [TBottleneck], a [TBasicBlock] (of at least 4 planes, on a
    non-empty batch) keeps the shape contract of [BasicBlock] for every
    attention name that [get_attn] accepts: the squeeze-and-excitation
    module it installs for "se" is built for [planes] channels, which is
    what the second convolution returns. *)
Theorem X19_TBasicBlock_shape :
  forall (training : bool) (inplanes planes s : Z) (downsample : option Layer)
         (groups base_width : Z) (attn_type : option string) (d : Z) (na : string)
         (antialias : bool) (kp : Q) (b : TBasicBlock.t) (x : Shape),
    TBasicBlock.init inplanes planes s downsample groups base_width attn_type d ABN na
                     antialias kp = Ok b ->
    1 <= inplanes -> 4 <= planes -> 1 <= d -> 1 <= dimN x ->
    dimC x = inplanes -> 1 <= s -> 0 < dimH x -> 0 < dimW x ->
    match downsample with
    | Some m => call "downsample" m training x tt = Ok (strided x planes s, tt)
    | None => inplanes = planes /\ s = 1
    end ->
    TBasicBlock.forward b training x tt = Ok (strided x planes s, tt).
Proof.
  intros training inplanes planes s downsample groups base_width attn_type d na antialias kp
    b x Hinit _ Hp _ Hn Hc Hs Hh Hw Hres.
  pose proof (quarter_pos planes Hp) as Hr.
  unfold TBasicBlock.init, BasicBlock.init in Hinit.
  destruct (py_assert (groups =? 1) _) as [[] |] eqn:Hg; [| discriminate].
  apply py_assert_ok in Hg. apply Z.eqb_eq in Hg. subst groups.
  destruct (py_assert (base_width =? 64) _) as [[] |]; [| discriminate].
  destruct (get_attn attn_type) as [attn |]; [| discriminate].
  cbn [res_bind] in Hinit. injection Hinit as <-.
  unfold BasicBlock.expansion. rewrite Z.mul_1_r.
  destruct (strided_dims x planes s Hh Hw Hs) as [Hh' Hw'].
  assert (Hresidual :
    forall k : Shape -> M unit Shape,
      bind (match downsample with
            | Some m => call "downsample" m training x
            | None => ret x
            end) k tt = k (strided x planes s) tt).
  { intros k. destruct downsample as [m |].
    - now rewrite (bind_ok _ _ _ _ _ Hres).
    - destruct Hres as [-> ->]. rewrite bind_ret, <- Hc, strided_1. reflexivity. }
  unfold TBasicBlock.forward, BasicBlock.forward.
  cbn [TBasicBlock.block BasicBlock.conv1 BasicBlock.bn1 BasicBlock.conv2 BasicBlock.bn2
       BasicBlock.se_module BasicBlock.final_act BasicBlock.downsample BasicBlock.blurpool
       BasicBlock.antialias BasicBlock.drop_connect].
  rewrite Hresidual.
  assert (Hmain :
    forall k : Shape -> M unit Shape,
      (out <- call "conv1"
                   (conv3x3 inplanes planes (if antialias && (s =? 2) then 1 else s) 1 d false)
                   training x ;;
       out <- call "bn1" (ABN planes na) training out ;;
       out <- (if antialias && (s =? 2)
               then call "blurpool"
                         (if antialias && (s =? 2) then LBlurPool planes else LIdentity)
                         training out
               else ret out) ;;
       k out) tt = k (strided x planes s) tt).
  { intros k. destruct (antialias && (s =? 2)) eqn:Haa.
    - apply antialias_stride in Haa. subst s.
      mstep call_conv3x3_any. mstep call_ABN. mstep call_blurpool. reflexivity.
    - mstep call_conv3x3_any. mstep call_ABN. rewrite bind_ret. reflexivity. }
  rewrite Hmain.
  mstep call_conv3x3_any. rewrite strided_strided_1.
  mstep call_ABN.
  assert (Hse :
    call "se_module"
         (if attn_type_is_se attn_type
          then LSEModule planes (Z.max (planes / 4) 64) "relu"
          else attn_new attn planes (planes / 4) None)
         training (strided x planes s) tt = Ok (strided x planes s, tt)).
  { destruct (attn_type_is_se attn_type).
    - apply (call_attention training "se_module" SEModule planes _ None);
        [reflexivity | exact Hn | lia | lia].
    - apply call_attention; [reflexivity | exact Hn | lia | exact Hr]. }
  rewrite (bind_ok _ _ _ _ _ Hse).
  mstep call_drop_connect.
  erewrite bind_ok by apply add_same_shape.
  apply call_activation.
Qed.

Lemma X19_TBasicBlock_shape_witness :
  res_map (fun b => TBasicBlock.forward b true
                      {| dimN := 2; dimC := 64; dimH := 32; dimW := 32 |} tt)
    (TBasicBlock.init 64 128 2 (Some (conv1x1 64 128 2 false)) 1 64 (Some "se") 1 ABN
                      "leaky_relu" true 1)
  = Ok (Ok ({| dimN := 2; dimC := 128; dimH := 16; dimW := 16 |}, tt)).
Proof.
  destruct (TBasicBlock.init 64 128 2 (Some (conv1x1 64 128 2 false)) 1 64 (Some "se") 1 ABN
              "leaky_relu" true 1) as [b |] eqn:E; [| discriminate E].
  cbn [res_map res_bind]. f_equal.
  refine (eq_trans (X19_TBasicBlock_shape true 64 128 2 (Some (conv1x1 64 128 2 false)) 1 64
    (Some "se") 1 "leaky_relu" true 1 b
    {| dimN := 2; dimC := 64; dimH := 32; dimW := 32 |} E _ _ _ _ _ _ _ _ _) _);
    try reflexivity; discriminate.
Defined.

(** X20: [BasicBlock] checks [groups] and then [base_width] before it builds
    anything: another value than 1, respectively 64, raises [AssertionError],
    even when [attn_type] is a name that [get_attn] would reject; [TBasicBlock]
    inherits both checks. *)
Theorem X20_BasicBlock_init_assertions :
  forall (inplanes planes s : Z) (downsample : option Layer) (groups base_width : Z)
         (attn_type : option string) (d : Z) (nl : Z -> string -> Layer) (na : string)
         (antialias : bool) (kp : Q),
    (groups <> 1 ->
     BasicBlock.init inplanes planes s downsample groups base_width attn_type d nl na
                     antialias kp
     = Raise (AssertionError "BasicBlock only supports groups of 1") /\
     TBasicBlock.init inplanes planes s downsample groups base_width attn_type d nl na
                      antialias kp
     = Raise (AssertionError "BasicBlock only supports groups of 1")) /\
    (groups = 1 -> base_width <> 64 ->
     BasicBlock.init inplanes planes s downsample groups base_width attn_type d nl na
                     antialias kp
     = Raise (AssertionError "BasicBlock doest not support changing base width") /\
     TBasicBlock.init inplanes planes s downsample groups base_width attn_type d nl na
                      antialias kp
     = Raise (AssertionError "BasicBlock doest not support changing base width")).
Proof.
  intros inplanes planes s downsample groups base_width attn_type d nl na antialias kp.
  split.
  - intros Hg. apply Z.eqb_neq in Hg.
    unfold TBasicBlock.init, BasicBlock.init. rewrite Hg. split; reflexivity.
  - intros -> Hb. apply Z.eqb_neq in Hb.
    unfold TBasicBlock.init, BasicBlock.init. rewrite Hb. split; reflexivity.
Qed.

Lemma X20_BasicBlock_init_assertions_witness :
  BasicBlock.init 64 64 1 None 32 4 (Some "no such attention") 1 ABN "relu" false 1
  = Raise (AssertionError "BasicBlock only supports groups of 1") /\
  TBasicBlock.init 64 64 1 None 1 32 None 1 ABN "relu" false 1
  = Raise (AssertionError "BasicBlock doest not support changing base width").
Proof.
  split.
  - apply (proj1 (proj1 (X20_BasicBlock_init_assertions 64 64 1 None 32 4
                           (Some "no such attention") 1 ABN "relu" false 1)
                        ltac:(discriminate))).
  - apply (proj2 (proj2 (X20_BasicBlock_init_assertions 64 64 1 None 1 32 None 1 ABN "relu"
                           false 1) eq_refl ltac:(discriminate))).
Defined.
